(** * transutil: a shallow embedding of [File.copyfile] and its helpers

    The program is a thin layer over operating-system calls, so the
    embedding has two parts:

    - a small executable model of the host: a name space of paths, a
      table of inodes, a fault oracle that lets any system call fail
      with an error number, and a log of the system calls made;
    - the methods of [class File] ([_samefile], [copyfileobj],
      [_copyxattr], [copyfile]) written in a state-and-exception monad
      over that model, statement by statement as in [transutil.py].

    What the host model leaves out: paths are whole keys of one name
    space (no parent directories, no current directory, link texts are
    read as such keys), there is one device, no permission checks, no
    clock (writing content does not move a timestamp) and closing a file
    is not recorded.  Any failure the real host could add is available
    through the fault oracle. *)

From Stdlib Require Import ZArith Ascii Lia.
From stdpp Require Import gmap strings list.

Local Open Scope Z_scope.

(** ** Error numbers ([errno], Linux values) and exceptions *)

Module Errno.
Definition EPERM : Z := 1.
Definition ENOENT : Z := 2.
Definition EIO : Z := 5.
Definition EACCES : Z := 13.
Definition EEXIST : Z := 17.
Definition EISDIR : Z := 21.
Definition EINVAL : Z := 22.
Definition ENOSPC : Z := 28.
Definition ELOOP : Z := 40.
Definition ENODATA : Z := 61.
Definition ENOTSUP : Z := 95.
Definition EOPNOTSUPP : Z := 95.
End Errno.
Import Errno.

(** The exceptions the program raises or lets through.  [SameFileError]
    and [SpecialFileError] are the classes of lines 10 and 14; [OSError]
    carries the error number of a failed system call. *)
Inductive exn : Type :=
| OSError (e : Z)
| SameFileError (src dst : string)
| SpecialFileError (fn : string)
| NotImplementedError
| AttributeError
| TypeError.

(** All three error classes of the module derive from [OSError], which is
    what an [except OSError] clause tests. *)
Definition is_OSError (x : exn) : bool :=
  match x with
  | OSError _ | SameFileError _ _ | SpecialFileError _ => true
  | NotImplementedError | AttributeError | TypeError => false
  end.

(** [e.errno]; the two classes of the module are raised with a message
    only, so their [errno] is [None]. *)
Definition exn_errno (x : exn) : option Z :=
  match x with
  | OSError e => Some e
  | _ => None
  end.

(** ** The [stat] module *)

Module Stat.
(* octal 0o170000, 0o7777, 0o010000, 0o040000, 0o100000, 0o120000 *)
Definition S_IFMT (mode : Z) : Z := Z.land mode 0xF000.
Definition S_IMODE (mode : Z) : Z := Z.land mode 0xFFF.
Definition S_IFIFO : Z := 0x1000.
Definition S_IFDIR : Z := 0x4000.
Definition S_IFREG : Z := 0x8000.
Definition S_IFLNK : Z := 0xA000.
Definition S_ISFIFO (mode : Z) : bool := S_IFMT mode =? S_IFIFO.
Definition S_ISDIR (mode : Z) : bool := S_IFMT mode =? S_IFDIR.
Definition S_ISREG (mode : Z) : bool := S_IFMT mode =? S_IFREG.
Definition S_ISLNK (mode : Z) : bool := S_IFMT mode =? S_IFLNK.
End Stat.
Import Stat.

(** ** The host model *)

Abbreviation bytes := (list Byte.byte).

(** An inode: [i_mode] is the full [st_mode] (type and permission bits),
    [i_data] the byte content, [i_target] the link text of a symbolic
    link, [i_xattr] the extended attributes in listing order. *)
Record inode : Type := mkInode {
  i_mode : Z;
  i_data : bytes;
  i_target : string;
  i_atime_ns : Z;
  i_mtime_ns : Z;
  i_xattr : list (string * bytes);
  i_flags : Z
}.

Definition with_data (nd : inode) (d : bytes) : inode :=
  mkInode (i_mode nd) d (i_target nd) (i_atime_ns nd) (i_mtime_ns nd)
          (i_xattr nd) (i_flags nd).
Definition with_times (nd : inode) (atime_ns mtime_ns : Z) : inode :=
  mkInode (i_mode nd) (i_data nd) (i_target nd) atime_ns mtime_ns
          (i_xattr nd) (i_flags nd).
Definition with_xattr (nd : inode) (x : list (string * bytes)) : inode :=
  mkInode (i_mode nd) (i_data nd) (i_target nd) (i_atime_ns nd) (i_mtime_ns nd)
          x (i_flags nd).
Definition with_mode (nd : inode) (mode : Z) : inode :=
  mkInode mode (i_data nd) (i_target nd) (i_atime_ns nd) (i_mtime_ns nd)
          (i_xattr nd) (i_flags nd).
Definition with_flags (nd : inode) (flags : Z) : inode :=
  mkInode (i_mode nd) (i_data nd) (i_target nd) (i_atime_ns nd) (i_mtime_ns nd)
          (i_xattr nd) flags.

(** The file system: path names bound to inode numbers (two names bound
    to one number are hard links) and the inode table. *)
Record fsys : Type := mkFs {
  names : gmap string nat;
  inodes : gmap nat inode
}.

(** The system calls the program makes, with their arguments. *)
Inductive syscall : Type :=
| Stat (path : string) (follow : bool)
| Readlink (path : string)
| Symlink (target linkpath : string)
| OpenR (path : string)
| OpenW (path : string)
| Read (ino : nat) (n : nat)
| Write (ino : nat) (buf : bytes)
| Utime (path : string) (atime_ns mtime_ns : Z) (follow : bool)
| Listxattr (path : string) (follow : bool)
| Getxattr (path name : string) (follow : bool)
| Setxattr (path name : string) (value : bytes) (follow : bool)
| Chmod (path : string) (mode : Z) (follow : bool)
| Chflags (path : string) (flags : Z) (follow : bool).

(** What the host may answer to a call instead of performing it. *)
Inductive fault : Type :=
| Errno (e : Z)
| Unimplemented.

Definition exn_of_fault (f : fault) : exn :=
  match f with
  | Errno e => OSError e
  | Unimplemented => NotImplementedError
  end.

(** The world: the file system, the fault oracle (which calls the host
    refuses, and how) and the log of calls made, most recent first. *)
Record world : Type := mkWorld {
  fs : fsys;
  faults : syscall -> option fault;
  log : list syscall
}.

(** The functions [copyfile] looks up in [os] by name. *)
Inductive osfn : Type := fn_stat | fn_utime | fn_chmod | fn_chflags.

(** Capabilities of the host that the program probes with [hasattr],
    [getattr] and [os.supports_follow_symlinks]. *)
Record host : Type := mkHost {
  has_listxattr : bool;
  has_fn : osfn -> bool;
  has_st_flags : bool;
  supports_follow_symlinks : osfn -> bool
}.

(** [os.stat_result], the fields the program reads.  [st_flags] is
    present only on hosts that have it. *)
Record stat_result : Type := mkStat {
  st_mode : Z;
  st_ino : nat;
  st_atime_ns : Z;
  st_mtime_ns : Z;
  st_flags : option Z
}.

(** ** Path resolution *)

Definition MAXSYMLINKS : nat := 40.

(** Follow symbolic links from [p]: the final name and the inode bound to
    it, if any; [ELOOP] after [fuel] links. *)
Fixpoint walk (fuel : nat) (f : fsys) (p : string) : Z + (string * option nat) :=
  match names f !! p with
  | None => inr (p, None)
  | Some i =>
      match inodes f !! i with
      | None => inr (p, None)
      | Some nd =>
          if S_ISLNK (i_mode nd) then
            match fuel with
            | O => inl ELOOP
            | S fuel' => walk fuel' f (i_target nd)
            end
          else inr (p, Some i)
      end
  end.

(** The name and inode a path stands for, with or without following a
    final symbolic link. *)
Definition locate (f : fsys) (follow : bool) (p : string) : Z + (string * option nat) :=
  if follow then walk MAXSYMLINKS f p
  else
    match names f !! p with
    | None => inr (p, None)
    | Some i =>
        match inodes f !! i with
        | None => inr (p, None)
        | Some _ => inr (p, Some i)
        end
    end.

(** The inode of an existing file; [ENOENT] when there is none. *)
Definition resolve (f : fsys) (follow : bool) (p : string) : Z + nat :=
  match locate f follow p with
  | inl e => inl e
  | inr (_, None) => inl ENOENT
  | inr (_, Some i) => inr i
  end.

Definition get_inode (f : fsys) (follow : bool) (p : string) : Z + (nat * inode) :=
  match resolve f follow p with
  | inl e => inl e
  | inr i =>
      match inodes f !! i with
      | None => inl ENOENT
      | Some nd => inr (i, nd)
      end
  end.

Definition set_inode (f : fsys) (i : nat) (nd : inode) : fsys :=
  mkFs (names f) (<[i := nd]> (inodes f)).

(** ** The monad: state and exceptions

    The state is the [File] object (its two attributes) together with the
    world.  An exception keeps the state reached so far, as in Python. *)

Record File : Type := mkFile {
  source_path : string;
  target_path : option string
}.

(** [File(source)], lines 19-21. *)
Definition File_init (source : string) : File := mkFile source None.

Record state : Type := mkState {
  obj : File;
  os : world
}.

Inductive result (A : Type) : Type :=
| Ok (a : A)
| Raise (x : exn)
| Diverge.
Arguments Ok {A} a.
Arguments Raise {A} x.
Arguments Diverge {A}.

Definition M (A : Type) : Type := state -> result A * state.

Definition ret {A} (a : A) : M A := fun s => (Ok a, s).

Definition bind {A B} (m : M A) (k : A -> M B) : M B :=
  fun s =>
    match m s with
    | (Ok a, s') => k a s'
    | (Raise x, s') => (Raise x, s')
    | (Diverge, s') => (Diverge, s')
    end.

Definition raise {A} (x : exn) : M A := fun s => (Raise x, s).

(** [try: m except ...: h x]; the handler re-raises what it does not
    catch. *)
Definition try_except {A} (m : M A) (h : exn -> M A) : M A :=
  fun s =>
    match m s with
    | (Raise x, s') => h x s'
    | r => r
    end.

Declare Scope m_scope.
Delimit Scope m_scope with M.
Notation "x <- c1 ;; c2" := (bind c1 (fun x => c2))
  (at level 100, c1 at next level, right associativity) : m_scope.
Notation "c1 ;; c2" := (bind c1 (fun _ => c2))
  (at level 100, right associativity) : m_scope.
Local Open Scope m_scope.

Definition get_self : M File := fun s => (Ok (obj s), s).
Definition set_target_path (dst : string) : M unit :=
  fun s => (Ok tt, mkState (mkFile (source_path (obj s)) (Some dst)) (os s)).

(** ** System calls *)

(** One system call: it is logged, the fault oracle may refuse it, and
    otherwise [body] answers it on the file system. *)
Definition sys {A} (c : syscall) (body : fsys -> (Z + A) * fsys) : M A :=
  fun s =>
    let w := os s in
    match faults w c with
    | Some f =>
        (Raise (exn_of_fault f),
         mkState (obj s) (mkWorld (fs w) (faults w) (c :: log w)))
    | None =>
        match body (fs w) with
        | (inl e, f') =>
            (Raise (OSError e), mkState (obj s) (mkWorld f' (faults w) (c :: log w)))
        | (inr a, f') =>
            (Ok a, mkState (obj s) (mkWorld f' (faults w) (c :: log w)))
        end
    end.

(** A call that only reads the file system. *)
Definition query {A} (q : fsys -> Z + A) : fsys -> (Z + A) * fsys :=
  fun f => (q f, f).

(** A call that rewrites one inode. *)
Definition update (follow : bool) (p : string) (g : inode -> inode)
  : fsys -> (Z + unit) * fsys :=
  fun f =>
    match get_inode f follow p with
    | inl e => (inl e, f)
    | inr (i, nd) => (inr tt, set_inode f i (g nd))
    end.

Definition new_ino (f : fsys) : nat := fresh (dom (inodes f)).

Definition new_inode (mode : Z) (target : string) : inode :=
  mkInode mode [] target 0 0 [] 0.

(** An open file: the inode and the position in it. *)
Record handle : Type := mkHandle {
  h_ino : nat;
  h_pos : nat
}.

Section Host.
Variable hst : host.

Definition stat_of (i : nat) (nd : inode) : stat_result :=
  mkStat (i_mode nd) i (i_atime_ns nd) (i_mtime_ns nd)
         (if has_st_flags hst then Some (i_flags nd) else None).

(** [os.stat(path, follow_symlinks=follow)] *)
Definition os_stat (p : string) (follow : bool) : M stat_result :=
  sys (Stat p follow)
    (query (fun f =>
       match get_inode f follow p with
       | inl e => inl e
       | inr (i, nd) => inr (stat_of i nd)
       end)).
End Host.

(** [os.readlink(path)] *)
Definition os_readlink (p : string) : M string :=
  sys (Readlink p)
    (query (fun f =>
       match get_inode f false p with
       | inl e => inl e
       | inr (_, nd) => if S_ISLNK (i_mode nd) then inr (i_target nd) else inl EINVAL
       end)).

(** [os.symlink(target, linkpath)]: refuses an existing [linkpath]. *)
Definition os_symlink (target linkpath : string) : M unit :=
  sys (Symlink target linkpath)
    (fun f =>
       match locate f false linkpath with
       | inl e => (inl e, f)
       | inr (_, Some _) => (inl EEXIST, f)
       | inr (_, None) =>
           let i := new_ino f in
           (inr tt,
            mkFs (<[linkpath := i]> (names f))
                 (<[i := new_inode (Z.lor S_IFLNK 0x1FF) target]> (inodes f)))
       end).

(** [open(path, 'rb')] *)
Definition open_rb (p : string) : M handle :=
  sys (OpenR p)
    (query (fun f =>
       match get_inode f true p with
       | inl e => inl e
       | inr (i, nd) => if S_ISDIR (i_mode nd) then inl EISDIR else inr (mkHandle i 0)
       end)).

(** [open(path, 'wb')]: creates the file, or truncates a regular one. *)
Definition open_wb (p : string) : M handle :=
  sys (OpenW p)
    (fun f =>
       match locate f true p with
       | inl e => (inl e, f)
       | inr (q, None) =>
           let i := new_ino f in
           (inr (mkHandle i 0),
            mkFs (<[q := i]> (names f))
                 (<[i := new_inode (Z.lor S_IFREG 0x1A4) ""]> (inodes f)))
       | inr (_, Some i) =>
           match inodes f !! i with
           | None => (inl ENOENT, f)
           | Some nd =>
               if S_ISDIR (i_mode nd) then (inl EISDIR, f)
               else if S_ISREG (i_mode nd) then
                 (inr (mkHandle i 0), set_inode f i (with_data nd []))
               else (inr (mkHandle i 0), f)
           end
       end).

(** [f.read(n)]: at most [n] bytes from the position on; the empty
    string at end of file.  The file object is returned advanced. *)
Definition f_read (fd : handle) (n : nat) : M (bytes * handle) :=
  sys (Read (h_ino fd) n)
    (query (fun f =>
       match inodes f !! h_ino fd with
       | None => inl EIO
       | Some nd =>
           let buf := take n (drop (h_pos fd) (i_data nd)) in
           inr (buf, mkHandle (h_ino fd) (h_pos fd + length buf)%nat)
       end)).

Definition write_at (pos : nat) (buf data : bytes) : bytes :=
  take pos data ++ buf ++ drop (pos + length buf)%nat data.

(** [f.write(buf)] *)
Definition f_write (fd : handle) (buf : bytes) : M handle :=
  sys (Write (h_ino fd) buf)
    (fun f =>
       match inodes f !! h_ino fd with
       | None => (inl EIO, f)
       | Some nd =>
           (inr (mkHandle (h_ino fd) (h_pos fd + length buf)%nat),
            set_inode f (h_ino fd)
              (with_data nd (write_at (h_pos fd) buf (i_data nd))))
       end).

(** [os.utime(path, ns=(atime_ns, mtime_ns), follow_symlinks=follow)] *)
Definition os_utime (p : string) (atime_ns mtime_ns : Z) (follow : bool) : M unit :=
  sys (Utime p atime_ns mtime_ns follow)
    (update follow p (fun nd => with_times nd atime_ns mtime_ns)).

(** [os.listxattr(path, follow_symlinks=follow)] *)
Definition os_listxattr (p : string) (follow : bool) : M (list string) :=
  sys (Listxattr p follow)
    (query (fun f =>
       match get_inode f follow p with
       | inl e => inl e
       | inr (_, nd) => inr (map fst (i_xattr nd))
       end)).

Fixpoint xattr_get (name : string) (l : list (string * bytes)) : option bytes :=
  match l with
  | [] => None
  | (k, v) :: l' => if String.eqb k name then Some v else xattr_get name l'
  end.

Fixpoint xattr_set (name : string) (value : bytes) (l : list (string * bytes))
  : list (string * bytes) :=
  match l with
  | [] => [(name, value)]
  | (k, v) :: l' =>
      if String.eqb k name then (k, value) :: l' else (k, v) :: xattr_set name value l'
  end.

(** [os.getxattr(path, name, follow_symlinks=follow)] *)
Definition os_getxattr (p name : string) (follow : bool) : M bytes :=
  sys (Getxattr p name follow)
    (query (fun f =>
       match get_inode f follow p with
       | inl e => inl e
       | inr (_, nd) =>
           match xattr_get name (i_xattr nd) with
           | None => inl ENODATA
           | Some v => inr v
           end
       end)).

(** [os.setxattr(path, name, value, follow_symlinks=follow)] *)
Definition os_setxattr (p name : string) (value : bytes) (follow : bool) : M unit :=
  sys (Setxattr p name value follow)
    (update follow p (fun nd => with_xattr nd (xattr_set name value (i_xattr nd)))).

(** [os.chmod(path, mode, follow_symlinks=follow)] *)
Definition os_chmod (p : string) (mode : Z) (follow : bool) : M unit :=
  sys (Chmod p mode follow)
    (update follow p (fun nd =>
       with_mode nd (Z.lor (S_IFMT (i_mode nd)) (S_IMODE mode)))).

(** [os.chflags(path, flags, follow_symlinks=follow)] *)
Definition os_chflags (p : string) (flags : Z) (follow : bool) : M unit :=
  sys (Chflags p flags follow)
    (update follow p (fun nd => with_flags nd flags)).

(** ** [os.path] (the POSIX flavour) *)

Definition sep : ascii := "/"%char.

Fixpoint has_sep (p : string) : bool :=
  match p with
  | EmptyString => false
  | String c r => Ascii.eqb c sep || has_sep r
  end.

(** [basename(p)] is [p[p.rfind('/') + 1:]]. *)
Fixpoint basename (p : string) : string :=
  match p with
  | EmptyString => EmptyString
  | String c r =>
      if has_sep r then basename r
      else if Ascii.eqb c sep then r else p
  end.

Definition startswith_sep (p : string) : bool :=
  match p with
  | String c _ => Ascii.eqb c sep
  | EmptyString => false
  end.

Fixpoint endswith_sep (p : string) : bool :=
  match p with
  | EmptyString => false
  | String c EmptyString => Ascii.eqb c sep
  | String _ r => endswith_sep r
  end.

(** [join(a, b)] for two components. *)
Definition join (a b : string) : string :=
  if startswith_sep b then b
  else if (String.eqb a "" || endswith_sep a)%bool then a +:+ b
  else a +:+ String sep b.

(** [except OSError: return v] around a computation. *)
Definition or_on_OSError {A} (m : M A) (v : A) : M A :=
  try_except m (fun x => if is_OSError x then ret v else raise x).

Section Program.
Variable hst : host.

(** [os.path.isdir]: [stat] failing means "no". *)
Definition isdir (p : string) : M bool :=
  or_on_OSError (st <- os_stat hst p true ;; ret (S_ISDIR (st_mode st))) false.

(** [os.path.islink]: [lstat] failing means "no". *)
Definition islink (p : string) : M bool :=
  try_except (st <- os_stat hst p false ;; ret (S_ISLNK (st_mode st)))
    (fun x =>
       match x with
       | AttributeError => ret false
       | _ => if is_OSError x then ret false else raise x
       end).

(** [os.path.samestat]; the model has one device. *)
Definition samestat (s1 s2 : stat_result) : bool :=
  Nat.eqb (st_ino s1) (st_ino s2).

(** [os.path.samefile] *)
Definition samefile (f1 f2 : string) : M bool :=
  s1 <- os_stat hst f1 true ;;
  s2 <- os_stat hst f2 true ;;
  ret (samestat s1 s2).

(** ** [class File] *)

(** Reading [self.target_path] where a path is needed; [None] there is
    a [TypeError] in Python, which [copyfile] never meets since it
    assigns the attribute first. *)
Definition get_target_path : M string :=
  fun s =>
    match target_path (obj s) with
    | Some p => (Ok p, s)
    | None => (Raise TypeError, s)
    end.

(** [File._samefile], lines 23-39.  [source_path] is a string, so the
    [os.DirEntry] branch is not taken, and [os.path.samefile] exists on
    every host, so the comparison of path names is not reached. *)
Definition _samefile (dst : string) : M bool :=
  self <- get_self ;;
  or_on_OSError (samefile (source_path self) dst) false.

(** [File.copyfileobj], lines 41-48.  [while 1] is unrolled [fuel]
    times; running out of fuel is [Diverge]. *)
Fixpoint copyfileobj (fuel : nat) (fsrc fdst : handle) (length : nat) : M unit :=
  match fuel with
  | O => fun s => (Diverge, s)
  | S fuel' =>
      r <- f_read fsrc length ;;
      match fst r with
      | [] => ret tt
      | _ :: _ =>
          fdst' <- f_write fdst (fst r) ;;
          copyfileobj fuel' (snd r) fdst' length
      end
  end.

Definition default_length : nat := 16 * 1024.

Definition errno_in (e : option Z) (l : list Z) : bool :=
  match e with
  | Some e => existsb (Z.eqb e) l
  | None => false
  end.

(** [except OSError as e: if e.errno not in allowed: raise], followed by
    [k]. *)
Definition tolerate {A} (allowed : list Z) (k : M A) (x : exn) : M A :=
  if is_OSError x then
    if errno_in (exn_errno x) allowed then k else raise x
  else raise x.

(** The [for name in names] loop of [_copyxattr], lines 63-70. *)
Fixpoint copyxattr_names (src dst : string) (follow_symlinks : bool)
    (names : list string) : M unit :=
  match names with
  | [] => ret tt
  | name :: rest =>
      try_except
        (value <- os_getxattr src name follow_symlinks ;;
         os_setxattr dst name value follow_symlinks)
        (tolerate [EPERM; ENOTSUP; ENODATA; EINVAL] (ret tt)) ;;
      copyxattr_names src dst follow_symlinks rest
  end.

(** [File._copyxattr], lines 50-73: the real one where the host has
    [os.listxattr], else the one that does nothing. *)
Definition _copyxattr (dst : string) (follow_symlinks : bool) : M unit :=
  if has_listxattr hst then
    self <- get_self ;;
    names <- try_except
               (l <- os_listxattr (source_path self) follow_symlinks ;; ret (Some l))
               (tolerate [ENOTSUP; ENODATA; EINVAL] (ret None)) ;;
    match names with
    | None => ret tt
    | Some l => copyxattr_names (source_path self) dst follow_symlinks l
    end
  else ret tt.

(** The [for fn in [...]] loop of [copyfile], lines 82-91. *)
Fixpoint check_special (fns : list string) : M unit :=
  match fns with
  | [] => ret tt
  | fn :: rest =>
      st <- or_on_OSError (st <- os_stat hst fn true ;; ret (Some st)) None ;;
      match st with
      | None => ret tt
      | Some st =>
          if S_ISFIFO (st_mode st) then raise (SpecialFileError fn) else ret tt
      end ;;
      check_special rest
  end.

(** [lookup(name)] of lines 106-116: [true] for the real function of
    [os], [false] for [_nop]. *)
Definition lookup (follow : bool) (name : osfn) : bool :=
  if follow then has_fn hst name
  else has_fn hst name && supports_follow_symlinks hst name.

(** Lines 92-97 of [copyfile]: the link is recreated, or the bytes
    are copied; both act on [self.target_path]. *)
Definition transfer (fuel : nat) (follow_symlinks : bool) : M unit :=
  self <- get_self ;;
  lnk <- (if follow_symlinks then ret false else islink (source_path self)) ;;
  if lnk then
    t <- os_readlink (source_path self) ;;
    tp <- get_target_path ;;
    os_symlink t tp
  else
    fsrc <- open_rb (source_path self) ;;
    tp <- get_target_path ;;
    fdst <- open_wb tp ;;
    copyfileobj fuel fsrc fdst default_length.

(** Line 105 of [copyfile]: the value of [follow]; [or] and [and]
    evaluate their right operand only when needed. *)
Definition meta_follow (dst : string) (follow_symlinks : bool) : M bool :=
  self <- get_self ;;
  if follow_symlinks then ret true
  else
    a <- islink (source_path self) ;;
    if a then b <- islink dst ;; ret (negb b) else ret true.

(** Lines 106-136 of [copyfile]: the metadata calls, given [follow]. *)
Definition meta_ops (dst : string) (follow : bool) : M unit :=
  self <- get_self ;;
  st <- (if lookup follow fn_stat
         then st <- os_stat hst (source_path self) follow ;; ret (Some st)
         else ret None) ;;
  match st with
  | None => raise AttributeError
  | Some st =>
      let mode := S_IMODE (st_mode st) in
      (if lookup follow fn_utime
       then os_utime dst (st_atime_ns st) (st_mtime_ns st) follow
       else ret tt) ;;
      _copyxattr dst follow ;;
      try_except
        (if lookup follow fn_chmod then os_chmod dst mode follow else ret tt)
        (fun x => match x with NotImplementedError => ret tt | _ => raise x end) ;;
      match st_flags st with
      | Some flags =>
          try_except
            (if lookup follow fn_chflags then os_chflags dst flags follow else ret tt)
            (tolerate [EOPNOTSUPP; ENOTSUP] (ret tt))
      | None => ret tt
      end
  end.

(** Lines 99-136: the body of [if copy_meta]. *)
Definition copy_metadata (dst : string) (follow_symlinks : bool) : M unit :=
  follow <- meta_follow dst follow_symlinks ;;
  meta_ops dst follow.

(** [File.copyfile], lines 75-138. *)
Definition copyfile (fuel : nat) (dst : string) (copy_meta follow_symlinks : bool)
  : M string :=
  set_target_path dst ;;
  self <- get_self ;;
  d <- isdir dst ;;
  let dst := if d then join dst (basename (source_path self)) else dst in
  same <- _samefile dst ;;
  (if same then raise (SameFileError (source_path self) dst) else ret tt) ;;
  tp <- get_target_path ;;
  check_special [source_path self; tp] ;;
  transfer fuel follow_symlinks ;;
  (if copy_meta then copy_metadata dst follow_symlinks else ret tt) ;;
  ret dst.
End Program.

(** * Vocabulary of the statements *)

Definition rel (P : syscall -> Prop) (Q : fsys -> fsys -> Prop) (s s' : state) : Prop :=
  obj s' = obj s /\ faults (os s') = faults (os s) /\
  (exists evs, log (os s') = evs ++ log (os s) /\ Forall P evs) /\
  rtc Q (fs (os s)) (fs (os s')).

Definition sat {A} (P : syscall -> Prop) (Q : fsys -> fsys -> Prop)
    (E : exn -> Prop) (m : M A) : Prop :=
  forall s, rel P Q s (snd (m s)) /\ (forall x, fst (m s) = Raise x -> E x).

(** What a system call itself can raise. *)
Definition sys_exn (x : exn) : Prop :=
  match x with
  | OSError _ | NotImplementedError => True
  | _ => False
  end.

(** Everything but the two errors of the validation steps. *)
Definition plain_exn (x : exn) : Prop :=
  match x with
  | SameFileError _ _ | SpecialFileError _ => False
  | _ => True
  end.

(** The calls each part of [copyfile] can make. *)
Definition stat_call (c : syscall) : Prop :=
  match c with Stat _ _ => True | _ => False end.

Definition transfer_call (c : syscall) : Prop :=
  match c with
  | Stat _ false | Readlink _ | Symlink _ _ | OpenR _ | OpenW _ | Read _ _ | Write _ _ => True
  | _ => False
  end.

(** The [follow_symlinks] argument of a call that takes one. *)
Definition follow_flag (c : syscall) : option bool :=
  match c with
  | Stat _ fl | Utime _ _ _ fl | Listxattr _ fl | Getxattr _ _ fl
  | Setxattr _ _ _ fl | Chmod _ _ fl | Chflags _ _ fl => Some fl
  | _ => None
  end.

(** The state after some calls that changed nothing but the log. *)
Definition logged (evs : list syscall) (s : state) : state :=
  mkState (obj s) (mkWorld (fs (os s)) (faults (os s)) (evs ++ log (os s))).

(** What [os.path.isdir], [os.path.islink], [stat.S_ISFIFO(os.stat(p))]
    and [os.path.samefile] answer on a file system, a failing [stat]
    counting as "no". *)
Definition is_dir (f : fsys) (p : string) : bool :=
  match get_inode f true p with
  | inr (_, nd) => S_ISDIR (i_mode nd)
  | inl _ => false
  end.

Definition is_link (f : fsys) (p : string) : bool :=
  match get_inode f false p with
  | inr (_, nd) => S_ISLNK (i_mode nd)
  | inl _ => false
  end.

Definition is_fifo (f : fsys) (p : string) : bool :=
  match get_inode f true p with
  | inr (_, nd) => S_ISFIFO (i_mode nd)
  | inl _ => false
  end.

Definition same_file (f : fsys) (a b : string) : bool :=
  match get_inode f true a, get_inode f true b with
  | inr (i, _), inr (j, _) => Nat.eqb i j
  | _, _ => false
  end.

(** The host refuses no [stat] call, or no call at all. *)
Definition stat_faultless (w : world) : Prop :=
  forall p fl, faults w (Stat p fl) = None.

Definition faultless (w : world) : Prop :=
  forall c, faults w c = None.

(** The destination after line 78, and the object after line 76. *)
Definition effective_dst (f : fsys) (src dst : string) : string :=
  if is_dir f dst then join dst (basename src) else dst.

Definition retarget (dst : string) (s : state) : state :=
  mkState (mkFile (source_path (obj s)) (Some dst)) (os s).

(** * A concrete host and file system

    [/a] and [/h] are two names of one regular file, [/b] is another
    regular file, [/d] a directory, [/p] a named pipe, [/l] a symbolic
    link to [/a] and [/dangling] a symbolic link to nothing. *)
Module Ex.
Import Byte.

Definition regular (data : bytes) : inode :=
  mkInode (Z.lor S_IFREG 0x1A4) data "" 100 200 [("user.k"%string, [x01])] 0.
Definition directory : inode := mkInode (Z.lor S_IFDIR 0x1ED) [] "" 0 0 [] 0.
Definition fifo : inode := mkInode (Z.lor S_IFIFO 0x1A4) [] "" 0 0 [] 0.
Definition symlink (target : string) : inode :=
  new_inode (Z.lor S_IFLNK 0x1FF) target.

Definition files : fsys :=
  mkFs
    (list_to_map
       [("/a"%string, 1%nat); ("/h"%string, 1%nat); ("/b"%string, 2%nat);
        ("/d"%string, 3%nat); ("/p"%string, 4%nat); ("/l"%string, 5%nat);
        ("/dangling"%string, 6%nat)])
    (list_to_map
       [(1%nat, regular [x41; x42; x43]); (2%nat, regular [x00]);
        (3%nat, directory); (4%nat, fifo); (5%nat, symlink "/a");
        (6%nat, symlink "/nowhere")]).

Definition no_faults : syscall -> option fault := fun _ => None.

(** A host without extended attributes on [/b]: listing them is "not
    supported"; setting [user.k] anywhere is "not permitted". *)
Definition xattr_faults (c : syscall) : option fault :=
  match c with
  | Listxattr p _ => if String.eqb p "/b" then Some (Errno ENOTSUP) else None
  | Setxattr _ name _ _ => if String.eqb name "user.k" then Some (Errno EPERM) else None
  | _ => None
  end.

(** Linux: no [os.chflags], no [st_flags]; [os.stat] and [os.utime]
    take [follow_symlinks=False]. *)
Definition linux : host :=
  mkHost true
    (fun f => match f with fn_chflags => false | _ => true end)
    false
    (fun f => match f with fn_stat | fn_utime => true | _ => false end).

Definition world0 : world := mkWorld files no_faults [].
Definition world_x : world := mkWorld files xattr_faults [].

(** The state in which [File(source)] has just been made. *)
Definition start (source : string) : state := mkState (File_init source) world0.
Definition start_x (source : string) : state := mkState (File_init source) world_x.
End Ex.

(** The calls of the loop of [copyfileobj] on a source with [rem] bytes
    left, in the order they are made: reads of [n] bytes, each followed
    by the write of what was read, up to the read that returns nothing. *)
Inductive chunk_trace (src dst : nat) (n : nat) : bytes -> list syscall -> Prop :=
| chunk_eof : chunk_trace src dst n [] [Read src n]
| chunk_more rem evs :
    rem <> [] ->
    chunk_trace src dst n (drop n rem) evs ->
    chunk_trace src dst n rem (Read src n :: Write dst (take n rem) :: evs).

(** The buffers written, in order. *)
Fixpoint written (evs : list syscall) : list bytes :=
  match evs with
  | [] => []
  | Write _ buf :: evs' => buf :: written evs'
  | _ :: evs' => written evs'
  end.

(** Names are bound as before and every file keeps its content, its
    type and its link text: what the metadata calls leave alone. *)
Definition keeps_shape (f f' : fsys) : Prop :=
  names f' = names f /\
  forall i,
    match inodes f !! i, inodes f' !! i with
    | Some nd, Some nd' =>
        i_data nd' = i_data nd /\ i_target nd' = i_target nd /\
        S_IFMT (i_mode nd') = S_IFMT (i_mode nd)
    | None, None => True
    | _, _ => False
    end.

Definition any_exn (x : exn) : Prop := True.

(** A computation that either leaves the file system alone or raises
    nothing but plain exceptions. *)
Definition guarded {A} (m : M A) : Prop :=
  forall s, fs (os (snd (m s))) = fs (os s) \/
            (forall x, fst (m s) = Raise x -> plain_exn x).

Definition no_step (f f' : fsys) : Prop := False.
Definition any_step (f f' : fsys) : Prop := True.
Definition any_call (c : syscall) : Prop := True.

(** The calls that read or write metadata: timestamps, extended
    attributes, permission bits, flags. *)
Definition metadata_call (c : syscall) : Prop :=
  match c with
  | Utime _ _ _ _ | Listxattr _ _ | Getxattr _ _ _ | Setxattr _ _ _ _
  | Chmod _ _ _ | Chflags _ _ _ => True
  | _ => False
  end.

Definition same_metadata (nd nd' : inode) : Prop :=
  i_mode nd' = i_mode nd /\ i_atime_ns nd' = i_atime_ns nd /\
  i_mtime_ns nd' = i_mtime_ns nd /\ i_xattr nd' = i_xattr nd /\
  i_flags nd' = i_flags nd.

(** Every file that was there is still there with its metadata. *)
Definition keeps_metadata (f f' : fsys) : Prop :=
  forall i nd, inodes f !! i = Some nd ->
    exists nd', inodes f' !! i = Some nd' /\ same_metadata nd nd'.

(** Whether [os.stat(p)] succeeds in world [w] and shows a named pipe. *)
Definition stat_shows_fifo (w : world) (p : string) : bool :=
  match faults w (Stat p true) with
  | Some _ => false
  | None => is_fifo (fs w) p
  end.

(** The calls that open, read or write file content. *)
Definition content_call (c : syscall) : Prop :=
  match c with
  | OpenR _ | OpenW _ | Read _ _ | Write _ _ => True
  | _ => False
  end.

(** Names are bound as before and every file keeps its type and its
    link text. *)
Definition keeps_kind (f f' : fsys) : Prop :=
  names f' = names f /\
  forall i nd, inodes f !! i = Some nd ->
    exists nd', inodes f' !! i = Some nd' /\
                i_target nd' = i_target nd /\ S_IFMT (i_mode nd') = S_IFMT (i_mode nd).

(** ** Vocabulary of the further properties *)

Definition write_call (c : syscall) : Prop :=
  match c with Write _ _ => True | _ => False end.

(** The host refuses nothing but, possibly, writes (a full disk, a
    quota). *)
Definition only_writes_refused (w : world) : Prop :=
  forall c, ~ write_call c -> faults w c = None.

(** The attributes of a destination after the loop of [_copyxattr] went
    over [names]: each name that the source [xs] has is set to the
    source's value, a name the source has lost in between is skipped. *)
Definition copied_xattr (xs : list (string * bytes)) (names : list string)
    (acc : list (string * bytes)) : list (string * bytes) :=
  fold_left
    (fun acc name =>
       match xattr_get name xs with
       | Some v => xattr_set name v acc
       | None => acc
       end)
    names acc.

(** The destination inode after lines 117-136 went through on a host
    that has [os.stat], [os.utime] and [os.chmod] and refuses no call:
    the times of the source, its attributes where the host has them, its
    permission bits under the destination's own type bits, and its flags
    where the host has them. *)
Definition copied_metadata (hst : host) (follow : bool) (ndS ndD : inode) : inode :=
  let nd1 := with_times ndD (i_atime_ns ndS) (i_mtime_ns ndS) in
  let nd2 :=
    if has_listxattr hst
    then with_xattr nd1
           (copied_xattr (i_xattr ndS) (map fst (i_xattr ndS)) (i_xattr nd1))
    else nd1 in
  let nd3 :=
    with_mode nd2 (Z.lor (S_IFMT (i_mode nd2)) (S_IMODE (S_IMODE (i_mode ndS)))) in
  if has_st_flags hst && lookup hst follow fn_chflags
  then with_flags nd3 (i_flags ndS)
  else nd3.

(** The inode [os.stat(p)] reports in world [w], if the call succeeds. *)
Definition stat_answer (w : world) (p : string) : option nat :=
  match faults w (Stat p true) with
  | Some _ => None
  | None =>
      match get_inode (fs w) true p with
      | inr (i, _) => Some i
      | inl _ => None
      end
  end.

(** The calls that set permission bits or flags, and a host that
    refuses nothing but, possibly, those. *)
Definition mode_call (c : syscall) : Prop :=
  match c with Chmod _ _ _ | Chflags _ _ _ => True | _ => False end.

Definition only_mode_refused (w : world) : Prop :=
  forall c, ~ mode_call c -> faults w c = None.

(** The calls that act on a symbolic link itself. *)
Definition link_call (c : syscall) : Prop :=
  match c with
  | Readlink _ | Symlink _ _ => True
  | _ => follow_flag c = Some false
  end.

(** A second concrete world: the files of [Ex] on a host whose disk is
    full, so that every write is refused with [ENOSPC]. *)
Module Ex2.
Definition disk_full (c : syscall) : option fault :=
  match c with
  | Write _ _ => Some (Errno ENOSPC)
  | _ => None
  end.

Definition world_full : world := mkWorld Ex.files disk_full [].

Definition start_full (source : string) : state :=
  mkState (File_init source) world_full.

(** A host that has every function [copyfile] looks up, and file
    flags. *)
Definition bsd : host := mkHost true (fun _ => true) true (fun _ => true).

(** A file system on which [os.chmod] is not implemented and
    [os.chflags] is "not supported". *)
Definition mode_faults (c : syscall) : option fault :=
  match c with
  | Chmod _ _ _ => Some Unimplemented
  | Chflags _ _ _ => Some (Errno ENOTSUP)
  | _ => None
  end.
End Ex2.

(** A third concrete world: a source [/s] with two extended attributes
    and a destination [/t] with none, on a host that refuses to set
    [user.k]: with "permission denied" ([EACCES]) in [denied], with
    "operation not permitted" ([EPERM]) in [not_permitted]. *)
Module Ex3.
Import Byte.

Definition two_attrs : inode :=
  mkInode (Z.lor S_IFREG 0x1A4) [] "" 0 0
    [("user.k"%string, [x01]); ("user.m"%string, [x02])] 0.
Definition plain : inode := mkInode (Z.lor S_IFREG 0x1A4) [] "" 0 0 [] 0.

Definition files : fsys :=
  mkFs (list_to_map [("/s"%string, 1%nat); ("/t"%string, 2%nat)])
       (list_to_map [(1%nat, two_attrs); (2%nat, plain)]).

Definition refuse_user_k (e : Z) (c : syscall) : option fault :=
  match c with
  | Setxattr _ name _ _ => if String.eqb name "user.k" then Some (Errno e) else None
  | _ => None
  end.

Definition denied : state :=
  mkState (File_init "/s") (mkWorld files (refuse_user_k EACCES) []).
Definition not_permitted : state :=
  mkState (File_init "/s") (mkWorld files (refuse_user_k EPERM) []).
End Ex3.

(** Two states of a file that differ at most in its two timestamps. *)
Definition same_but_times (nd nd' : inode) : Prop :=
  i_mode nd' = i_mode nd /\ i_data nd' = i_data nd /\
  i_target nd' = i_target nd /\ i_xattr nd' = i_xattr nd /\
  i_flags nd' = i_flags nd.

(** * Reasoning about computations

    [rel P Q s s'] relates a state to a later one: the [File] object and
    the fault oracle are the same, the log grew by calls that satisfy
    [P], and the file system changed by a sequence of [Q] steps.  [sat P Q E m] says
    that running [m] from any state ends in a [rel]ated state and that an
    exception raised by [m] satisfies [E]. *)

Lemma sys_exn_plain x : sys_exn x -> plain_exn x.
Proof. by destruct x. Qed.

Section Sat.
Context (P : syscall -> Prop) (Q : fsys -> fsys -> Prop).

Lemma rel_refl s : rel P Q s s.
Proof.
  repeat split; [|reflexivity]. exists []. split; [done|constructor].
Qed.

Lemma rel_trans s1 s2 s3 : rel P Q s1 s2 -> rel P Q s2 s3 -> rel P Q s1 s3.
Proof.
  intros (Ho & Hf & (e1 & Hl1 & HP1) & HQ1) (Ho' & Hf' & (e2 & Hl2 & HP2) & HQ2).
  split; [congruence|]. split; [congruence|]. split; [|by etrans].
  exists (e2 ++ e1). split; [by rewrite Hl2, Hl1, app_assoc|].
  by apply Forall_app.
Qed.

Lemma sat_ret {A} E (a : A) : sat P Q E (ret a).
Proof. intros s. split; [apply rel_refl|done]. Qed.

Lemma sat_raise {A} (E : exn -> Prop) x : E x -> sat P Q E (@raise A x).
Proof. intros HE s. split; [apply rel_refl|]. cbn. by intros ? [= <-]. Qed.

Lemma sat_diverge {A} E : sat P Q E (fun s => (@Diverge A, s)).
Proof. intros s. split; [apply rel_refl|done]. Qed.

Lemma sat_weaken {A} (E E' : exn -> Prop) (m : M A) :
  (forall x, E x -> E' x) -> sat P Q E m -> sat P Q E' m.
Proof. intros HE Hm s. destruct (Hm s) as [Hr Hx]. split; [done|]. eauto. Qed.

Lemma sat_bind {A B} E (m : M A) (k : A -> M B) :
  sat P Q E m -> (forall a, sat P Q E (k a)) -> sat P Q E (bind m k).
Proof.
  intros Hm Hk s. unfold bind. specialize (Hm s).
  destruct (m s) as [[a|x|] s1]; cbn in *.
  - destruct Hm as [Hr _]. destruct (Hk a s1) as [Hr' Hx'].
    split; [by eapply rel_trans|done].
  - destruct Hm as [Hr Hx]. split; [done|]. intros y [= <-]. by apply Hx.
  - destruct Hm as [Hr _]. by split.
Qed.

Lemma sat_try {A} (E0 E : exn -> Prop) (m : M A) (h : exn -> M A) :
  sat P Q E0 m -> (forall x, E0 x -> sat P Q E (h x)) -> sat P Q E (try_except m h).
Proof.
  intros Hm Hh s. unfold try_except. specialize (Hm s).
  destruct (m s) as [[a|x|] s1]; cbn in *.
  { destruct Hm as [Hr _]. by split. }
  2:{ destruct Hm as [Hr _]. by split. }
  destruct Hm as [Hr Hx]. destruct (Hh x (Hx x eq_refl) s1) as [Hr' Hx'].
  split; [by eapply rel_trans|done].
Qed.

Lemma sat_sys {A} (c : syscall) (body : fsys -> (Z + A) * fsys) :
  P c -> (forall f, rtc Q f (snd (body f))) -> sat P Q sys_exn (sys c body).
Proof.
  intros HP HQ s. unfold sys.
  assert (Hlog : exists evs, c :: log (os s) = evs ++ log (os s) /\ Forall P evs).
  { exists [c]. split; [done|]. by constructor. }
  destruct (faults (os s) c) as [f|]; cbn.
  - split; [repeat split; [done|reflexivity]|]. intros x [= <-]. by destruct f.
  - specialize (HQ (fs (os s))). destruct (body (fs (os s))) as [[e|a] f']; cbn in *.
    + split; [by repeat split|]. by intros x [= <-].
    + by repeat split.
Qed.

Lemma sat_query {A} (c : syscall) (q : fsys -> Z + A) :
  P c -> sat P Q sys_exn (sys c (query q)).
Proof. intros HP. apply sat_sys; [done|]. intros f. reflexivity. Qed.

Lemma sat_get_self E : sat P Q E get_self.
Proof. intros s. split; [apply rel_refl|done]. Qed.

Lemma sat_get_target_path : sat P Q plain_exn get_target_path.
Proof.
  intros s. unfold get_target_path. destruct (target_path (obj s)); cbn.
  - split; [apply rel_refl|done].
  - split; [apply rel_refl|]. by intros x [= <-].
Qed.

Lemma sat_or_on_OSError {A} E (m : M A) (v : A) :
  sat P Q E m -> sat P Q E (or_on_OSError m v).
Proof.
  intros Hm. eapply sat_try; [done|]. intros x Hx.
  destruct (is_OSError x) eqn:Hos; [apply sat_ret|by apply sat_raise].
Qed.

Lemma sat_tolerate {A} (E : exn -> Prop) allowed (k : M A) x :
  E x -> sat P Q E k -> sat P Q E (tolerate allowed k x).
Proof.
  intros Hx Hk. unfold tolerate.
  destruct (is_OSError x); [|by apply sat_raise].
  destruct (errno_in _ _); [done|by apply sat_raise].
Qed.
End Sat.

Lemma get_inode_Some f fl p i nd :
  get_inode f fl p = inr (i, nd) -> inodes f !! i = Some nd.
Proof.
  unfold get_inode. destruct (resolve f fl p) as [e|j]; [done|].
  destruct (inodes f !! j) eqn:Hj; [|done]. by intros [= <- <-].
Qed.

Lemma S_IFMT_chmod m mode : S_IFMT (Z.lor (S_IFMT m) (S_IMODE mode)) = S_IFMT m.
Proof.
  unfold S_IFMT, S_IMODE. rewrite Z.land_lor_distr_l, <- !Z.land_assoc.
  change (Z.land 0xF000 0xF000) with 0xF000. change (Z.land 0xFFF 0xF000) with 0.
  by rewrite Z.land_0_r, Z.lor_0_r.
Qed.

Section Blocks.
Context (hst : host).
Context (P : syscall -> Prop) (Q : fsys -> fsys -> Prop).
Context (E : exn -> Prop).
Hypothesis E_plain : forall x, plain_exn x -> E x.

Local Lemma E_sys x : sys_exn x -> E x.
Proof. intros. by apply E_plain, sys_exn_plain. Qed.

Lemma sat_os_stat p fl : P (Stat p fl) -> sat P Q E (os_stat hst p fl).
Proof. intros. eapply sat_weaken; [apply E_sys|]. by apply sat_query. Qed.

Lemma sat_isdir p : P (Stat p true) -> sat P Q E (isdir hst p).
Proof.
  intros HP. apply sat_or_on_OSError.
  apply sat_bind; [by apply sat_os_stat|]. intros; apply sat_ret.
Qed.

Lemma sat_islink p : P (Stat p false) -> sat P Q E (islink hst p).
Proof.
  intros HP. unfold islink. eapply (sat_try _ _ sys_exn).
  - apply sat_bind; [by apply sat_query|]. intros; apply sat_ret.
  - intros x Hx. destruct x; try done; cbn; try apply sat_ret.
    apply sat_raise. by apply E_plain.
Qed.

Lemma sat__samefile dst : (forall p, P (Stat p true)) -> sat P Q E (_samefile hst dst).
Proof.
  intros HP. unfold _samefile. apply sat_bind; [apply sat_get_self|]. intros self.
  apply sat_or_on_OSError. unfold samefile.
  apply sat_bind; [by apply sat_os_stat|]. intros s1.
  apply sat_bind; [by apply sat_os_stat|]. intros; apply sat_ret.
Qed.

Lemma sat_check_special fns :
  (forall p, P (Stat p true)) -> (forall fn, E (SpecialFileError fn)) ->
  sat P Q E (check_special hst fns).
Proof.
  intros HP HE. induction fns as [|fn rest IH]; cbn; [apply sat_ret|].
  apply sat_bind.
  - apply sat_or_on_OSError.
    apply sat_bind; [by apply sat_os_stat|]. intros; apply sat_ret.
  - intros st. apply sat_bind; [|intros _; exact IH].
    destruct st as [st|]; [|apply sat_ret].
    destruct (S_ISFIFO _); [by apply sat_raise|apply sat_ret].
Qed.

Lemma sat_meta_follow dst fl :
  (forall p, P (Stat p false)) -> sat P Q E (meta_follow hst dst fl).
Proof.
  intros HP. unfold meta_follow. apply sat_bind; [apply sat_get_self|]. intros self.
  destruct fl; [apply sat_ret|].
  apply sat_bind; [by apply sat_islink|]. intros [|]; [|apply sat_ret].
  apply sat_bind; [by apply sat_islink|]. intros; apply sat_ret.
Qed.

(** *** The content transfer *)

Hypothesis Q_create : forall f p nd,
  Q f (mkFs (<[p := new_ino f]> (names f)) (<[new_ino f := nd]> (inodes f))).
Hypothesis Q_data : forall f i nd d,
  inodes f !! i = Some nd -> Q f (set_inode f i (with_data nd d)).

Lemma sat_f_read fd n : P (Read (h_ino fd) n) -> sat P Q E (f_read fd n).
Proof. intros. eapply sat_weaken; [apply E_sys|]. by apply sat_query. Qed.

Lemma sat_f_write fd buf : P (Write (h_ino fd) buf) -> sat P Q E (f_write fd buf).
Proof.
  intros. eapply sat_weaken; [apply E_sys|]. apply sat_sys; [done|].
  intros f. destruct (inodes f !! h_ino fd) eqn:Hi; cbn;
    [by apply rtc_once, Q_data|reflexivity].
Qed.

Lemma sat_copyfileobj fuel fsrc fdst n :
  (forall c, transfer_call c -> P c) -> sat P Q E (copyfileobj fuel fsrc fdst n).
Proof.
  intros HP. revert fsrc fdst. induction fuel as [|fuel IH]; intros fsrc fdst; cbn.
  - apply sat_diverge.
  - apply sat_bind; [by apply sat_f_read, HP|]. intros [buf fsrc'].
    destruct buf as [|b buf]; cbn; [apply sat_ret|].
    apply sat_bind; [by apply sat_f_write, HP|]. intros fdst'. apply IH.
Qed.

Lemma sat_open_wb p : P (OpenW p) -> sat P Q E (open_wb p).
Proof.
  intros. eapply sat_weaken; [apply E_sys|]. apply sat_sys; [done|].
  intros f. destruct (locate f true p) as [e|[q [i|]]]; cbn;
    [reflexivity| |apply rtc_once, Q_create].
  destruct (inodes f !! i) as [nd|] eqn:Hi; cbn; [|reflexivity].
  destruct (S_ISDIR _); cbn; [reflexivity|].
  destruct (S_ISREG _); cbn; [by apply rtc_once, Q_data|reflexivity].
Qed.

Lemma sat_os_symlink t p : P (Symlink t p) -> sat P Q E (os_symlink t p).
Proof.
  intros. eapply sat_weaken; [apply E_sys|]. apply sat_sys; [done|].
  intros f. destruct (locate f false p) as [e|[q [i|]]]; cbn;
    [reflexivity..|apply rtc_once, Q_create].
Qed.

Lemma sat_transfer fuel fl :
  (forall c, transfer_call c -> P c) -> sat P Q E (transfer hst fuel fl).
Proof.
  intros HP. unfold transfer. apply sat_bind; [apply sat_get_self|]. intros self.
  apply sat_bind.
  { destruct fl; [apply sat_ret|]. by apply sat_islink, HP. }
  intros [|].
  - apply sat_bind.
    { eapply sat_weaken; [apply E_sys|]. by apply sat_query, HP. }
    intros t. apply sat_bind.
    { eapply sat_weaken; [apply E_plain|]. apply sat_get_target_path. }
    intros tp. by apply sat_os_symlink, HP.
  - apply sat_bind.
    { eapply sat_weaken; [apply E_sys|]. by apply sat_query, HP. }
    intros fsrc. apply sat_bind.
    { eapply sat_weaken; [apply E_plain|]. apply sat_get_target_path. }
    intros tp. apply sat_bind; [by apply sat_open_wb, HP|].
    intros fdst. by apply sat_copyfileobj.
Qed.
End Blocks.

Section MetaBlocks.
Context (hst : host).
Context (P : syscall -> Prop) (Q : fsys -> fsys -> Prop).
Context (E : exn -> Prop).
Hypothesis E_plain : forall x, plain_exn x -> E x.
Hypothesis Q_meta : forall f i nd nd',
  inodes f !! i = Some nd ->
  i_data nd' = i_data nd -> i_target nd' = i_target nd ->
  S_IFMT (i_mode nd') = S_IFMT (i_mode nd) ->
  Q f (set_inode f i nd').

Lemma sat_update c fl p g :
  P c ->
  (forall nd, i_data (g nd) = i_data nd /\ i_target (g nd) = i_target nd /\
              S_IFMT (i_mode (g nd)) = S_IFMT (i_mode nd)) ->
  sat P Q sys_exn (sys c (update fl p g)).
Proof.
  intros HP Hg.
  apply sat_sys; [done|]. intros f. unfold update.
  destruct (get_inode f fl p) as [e|[i nd]] eqn:Hi; cbn; [reflexivity|].
  apply rtc_once. destruct (Hg nd) as (? & ? & ?).
  eapply Q_meta; eauto using get_inode_Some.
Qed.

Section Flagged.
Context (follow : bool).
Hypothesis P_flag : forall c, follow_flag c = Some follow -> P c.

Lemma sat_copyxattr_names src dst names :
  sat P Q E (copyxattr_names src dst follow names).
Proof.
  induction names as [|name rest IH]; cbn; [apply sat_ret|].
  apply sat_bind; [|intros _; exact IH].
  eapply (sat_try _ _ sys_exn).
  - apply sat_bind; [by apply sat_query, P_flag|]. intros v.
    apply sat_update; [by apply P_flag|done].
  - intros x Hx. apply sat_tolerate; [by apply E_plain, sys_exn_plain|apply sat_ret].
Qed.

Lemma sat__copyxattr dst : sat P Q E (_copyxattr hst dst follow).
Proof.
  unfold _copyxattr. destruct (has_listxattr hst); [|apply sat_ret].
  apply sat_bind; [apply sat_get_self|]. intros self. apply sat_bind.
  - eapply (sat_try _ _ sys_exn).
    + apply sat_bind; [by apply sat_query, P_flag|]. intros; apply sat_ret.
    + intros x Hx. apply sat_tolerate; [by apply E_plain, sys_exn_plain|apply sat_ret].
  - intros [l|]; [apply sat_copyxattr_names|apply sat_ret].
Qed.

Lemma sat_meta_ops dst : sat P Q E (meta_ops hst dst follow).
Proof.
  unfold meta_ops. apply sat_bind; [apply sat_get_self|]. intros self.
  apply sat_bind.
  { destruct (lookup _ _ _); [|apply sat_ret].
    apply sat_bind; [|intros; apply sat_ret].
    by apply sat_os_stat, P_flag. }
  intros [st|]; [|by apply sat_raise, E_plain].
  apply sat_bind.
  { destruct (lookup _ _ _); [|apply sat_ret].
    eapply sat_weaken; [intros x Hx; by apply E_plain, sys_exn_plain|].
    apply sat_update; [by apply P_flag|done]. }
  intros _. apply sat_bind; [apply sat__copyxattr|]. intros _. apply sat_bind.
  { eapply (sat_try _ _ sys_exn).
    - destruct (lookup _ _ _); [|apply sat_ret].
      apply sat_update; [by apply P_flag|].
      intros nd. cbn. by rewrite S_IFMT_chmod.
    - intros x Hx. destruct x; try done; [|apply sat_ret].
      by apply sat_raise, E_plain. }
  intros _. destruct (st_flags st) as [flags|]; [|apply sat_ret].
  eapply (sat_try _ _ sys_exn).
  - destruct (lookup _ _ _); [|apply sat_ret].
    apply sat_update; [by apply P_flag|done].
  - intros x Hx. apply sat_tolerate; [by apply E_plain, sys_exn_plain|apply sat_ret].
Qed.
End Flagged.

Lemma sat_copy_metadata dst fl :
  (forall c, is_Some (follow_flag c) -> P c) ->
  sat P Q E (copy_metadata hst dst fl).
Proof.
  intros HP. unfold copy_metadata. apply sat_bind.
  - apply sat_meta_follow; [done|]. intros p. by apply HP.
  - intros follow. apply sat_meta_ops. intros c Hc. apply HP. by rewrite Hc.
Qed.
End MetaBlocks.

(** * Running the parts of [copyfile] on a known file system *)

Lemma logged_app e1 e2 s : logged e1 (logged e2 s) = logged (e1 ++ e2) s.
Proof. unfold logged; cbn. by rewrite app_assoc. Qed.

Lemma faultless_stat w : faultless w -> stat_faultless w.
Proof. intros H p fl. apply H. Qed.

Lemma bind_ok {A B} (m : M A) (k : A -> M B) s a s' :
  m s = (Ok a, s') -> bind m k s = k a s'.
Proof. intros H. unfold bind. by rewrite H. Qed.

Lemma bind_raise {A B} (m : M A) (k : A -> M B) s x s' :
  m s = (Raise x, s') -> bind m k s = (Raise x, s').
Proof. intros H. unfold bind. by rewrite H. Qed.

Lemma sys_run {A} c (body : fsys -> (Z + A) * fsys) s :
  faults (os s) c = None ->
  sys c body s =
    (match fst (body (fs (os s))) with inl e => Raise (OSError e) | inr a => Ok a end,
     mkState (obj s) (mkWorld (snd (body (fs (os s)))) (faults (os s)) (c :: log (os s)))).
Proof.
  intros H. unfold sys. rewrite H. by destruct (body (fs (os s))) as [[e|a] f'].
Qed.

Lemma sys_fault {A} c (body : fsys -> (Z + A) * fsys) s f :
  faults (os s) c = Some f ->
  sys c body s = (Raise (exn_of_fault f), logged [c] s).
Proof. intros H. unfold sys. by rewrite H. Qed.

Section Runs.
Context (hst : host).

Lemma os_stat_run p fl s :
  faults (os s) (Stat p fl) = None ->
  os_stat hst p fl s =
    (match get_inode (fs (os s)) fl p with
     | inl e => Raise (OSError e)
     | inr (i, nd) => Ok (stat_of hst i nd)
     end, logged [Stat p fl] s).
Proof.
  intros H. unfold os_stat. rewrite sys_run by done. unfold query; cbn.
  by destruct (get_inode _ _ _) as [e|[i nd]].
Qed.

Lemma isdir_run p s :
  faults (os s) (Stat p true) = None ->
  isdir hst p s = (Ok (is_dir (fs (os s)) p), logged [Stat p true] s).
Proof.
  intros H. unfold isdir, or_on_OSError, try_except, bind, is_dir.
  rewrite os_stat_run by done. by destruct (get_inode _ _ _) as [e|[i nd]].
Qed.

Lemma islink_run p s :
  faults (os s) (Stat p false) = None ->
  islink hst p s = (Ok (is_link (fs (os s)) p), logged [Stat p false] s).
Proof.
  intros H. unfold islink, try_except, bind, is_link.
  rewrite os_stat_run by done. by destruct (get_inode _ _ _) as [e|[i nd]].
Qed.

Lemma _samefile_run dst s :
  stat_faultless (os s) ->
  exists evs,
    _samefile hst dst s = (Ok (same_file (fs (os s)) (source_path (obj s)) dst),
                           logged evs s) /\
    Forall stat_call evs.
Proof.
  intros H. unfold _samefile, get_self, or_on_OSError, try_except, samefile, same_file.
  unfold bind at 1. unfold bind at 1. rewrite os_stat_run by apply H.
  destruct (get_inode _ true (source_path _)) as [e|[i nd]]; cbn.
  { exists [Stat (source_path (obj s)) true]. split; [done|]. by repeat constructor. }
  unfold bind. rewrite os_stat_run by apply H. cbn.
  exists [Stat dst true; Stat (source_path (obj s)) true].
  split; [|by repeat constructor].
  by destruct (get_inode _ true dst) as [e|[j nd']].
Qed.

(** One turn of the loop of lines 82-91, whatever the host answers to
    [stat]: only a successful [stat] that shows a FIFO raises. *)
Lemma check_special_cons fn rest s :
  faults (os s) (Stat fn true) <> Some Unimplemented ->
  check_special hst (fn :: rest) s =
    match faults (os s) (Stat fn true), get_inode (fs (os s)) true fn with
    | None, inr (_, nd) =>
        if S_ISFIFO (i_mode nd)
        then (Raise (SpecialFileError fn), logged [Stat fn true] s)
        else check_special hst rest (logged [Stat fn true] s)
    | _, _ => check_special hst rest (logged [Stat fn true] s)
    end.
Proof.
  intros H. cbn [check_special]. unfold or_on_OSError, try_except, bind, os_stat.
  destruct (faults (os s) (Stat fn true)) as [[e|]|] eqn:Hf; [| done |].
  - by erewrite sys_fault by done.
  - rewrite sys_run by done. unfold query; cbn.
    destruct (get_inode _ _ _) as [e|[i nd]]; cbn; [done|].
    by destruct (S_ISFIFO _).
Qed.
End Runs.

Section Validation.
Context (hst : host).

Lemma check_special_run a b s :
  stat_faultless (os s) ->
  exists evs, Forall stat_call evs /\
    check_special hst [a; b] s =
      if is_fifo (fs (os s)) a then (Raise (SpecialFileError a), logged evs s)
      else if is_fifo (fs (os s)) b then (Raise (SpecialFileError b), logged evs s)
      else (Ok tt, logged evs s).
Proof.
  intros H. rewrite check_special_cons by (by rewrite H). rewrite H. unfold is_fifo.
  destruct (get_inode _ true a) as [e|[i nd]] eqn:Ha.
  - rewrite check_special_cons by (by cbn; rewrite H). cbn. rewrite H.
    destruct (get_inode _ true b) as [e'|[j nd']] eqn:Hb;
      [|destruct (S_ISFIFO (i_mode nd'))];
      try (exists [Stat b true; Stat a true]; split; [by repeat constructor|done]).
  - destruct (S_ISFIFO (i_mode nd)).
    { exists [Stat a true]. split; [by repeat constructor|done]. }
    rewrite check_special_cons by (by cbn; rewrite H). cbn. rewrite H.
    destruct (get_inode _ true b) as [e'|[j nd']] eqn:Hb;
      [|destruct (S_ISFIFO (i_mode nd'))];
      exists [Stat b true; Stat a true]; (split; [by repeat constructor|done]).
Qed.

(** Lines 76-91: what [copyfile] does up to the end of its two checks
    on a host that answers every [stat]. *)
Lemma copyfile_validated fuel dst cm fl s :
  stat_faultless (os s) ->
  exists evs, Forall stat_call evs /\
    copyfile hst fuel dst cm fl s =
      let src := source_path (obj s) in
      let eff := effective_dst (fs (os s)) src dst in
      if same_file (fs (os s)) src eff
      then (Raise (SameFileError src eff), logged evs (retarget dst s))
      else if is_fifo (fs (os s)) src
      then (Raise (SpecialFileError src), logged evs (retarget dst s))
      else if is_fifo (fs (os s)) dst
      then (Raise (SpecialFileError dst), logged evs (retarget dst s))
      else (transfer hst fuel fl ;;
            (if cm then copy_metadata hst eff fl else ret tt) ;;
            ret eff) (logged evs (retarget dst s)).
Proof.
  intros H. unfold copyfile.
  erewrite bind_ok by reflexivity. erewrite bind_ok by reflexivity.
  erewrite bind_ok by (apply isdir_run, H). cbn zeta.
  destruct (_samefile_run hst (effective_dst (fs (os s)) (source_path (obj s)) dst)
              (logged [Stat dst true] (retarget dst s))) as (e1 & Hrun & He1); [done|].
  erewrite bind_ok by exact Hrun. cbn [logged retarget obj os fs source_path].
  destruct (same_file _ _ _).
  { erewrite bind_raise by reflexivity.
    exists (e1 ++ [Stat dst true]). split; [|by rewrite logged_app].
    apply Forall_app. split; [done|by repeat constructor]. }
  erewrite bind_ok by reflexivity. erewrite bind_ok by reflexivity.
  destruct (check_special_run (source_path (obj s)) dst
              (logged e1 (logged [Stat dst true] (retarget dst s)))) as (e2 & He2 & Hc);
    [done|].
  exists (e2 ++ e1 ++ [Stat dst true]). split.
  { repeat (apply Forall_app; split); try done. by repeat constructor. }
  cbn [logged retarget obj os fs source_path] in Hc.
  destruct (is_fifo _ (source_path _)); [|destruct (is_fifo _ dst)].
  - erewrite bind_raise by exact Hc. by rewrite !logged_app, <- app_assoc.
  - erewrite bind_raise by exact Hc. by rewrite !logged_app, <- app_assoc.
  - erewrite bind_ok by exact Hc. by rewrite !logged_app, <- app_assoc.
Qed.
End Validation.

(** * The claims *)

Section Claims.
Context (hst : host).

(** When the source and the destination resolve to the same underlying
    file (two names of one inode, or one name), [copyfile] raises
    [SameFileError]; the check comes before any write: the file system
    is as before and only [stat] calls were made. *)
Lemma copyfile_same_inode fuel (A B : string) cm fl s i ndA ndB :
  source_path (obj s) = A ->
  stat_faultless (os s) ->
  get_inode (fs (os s)) true A = inr (i, ndA) ->
  get_inode (fs (os s)) true B = inr (i, ndB) ->
  S_ISDIR (i_mode ndB) = false ->
  exists s' evs,
    copyfile hst fuel B cm fl s = (Raise (SameFileError A B), s') /\
    fs (os s') = fs (os s) /\
    log (os s') = evs ++ log (os s) /\ Forall stat_call evs.
Proof.
  intros HA Hf HiA HiB Hd.
  destruct (copyfile_validated hst fuel B cm fl s Hf) as (evs & Hev & Hrun).
  cbv zeta in Hrun. rewrite HA in Hrun.
  assert (He : effective_dst (fs (os s)) A B = B).
  { unfold effective_dst, is_dir. by rewrite HiB, Hd. }
  rewrite He in Hrun.
  assert (Hs : same_file (fs (os s)) A B = true).
  { unfold same_file. rewrite HiA, HiB. apply Nat.eqb_refl. }
  rewrite Hs in Hrun. eauto 10.
Qed.

(** C4, as amended.  When the source is a named pipe and the
    destination is not the same file as the source, [copyfile] raises
    [SpecialFileError] for the source, and nothing is created or
    modified: the file system is as before and only [stat] calls were
    made. *)
Theorem copyfile_fifo_source fuel (B : string) cm fl s i nd :
  stat_faultless (os s) ->
  get_inode (fs (os s)) true (source_path (obj s)) = inr (i, nd) ->
  S_ISFIFO (i_mode nd) = true ->
  same_file (fs (os s)) (source_path (obj s))
    (effective_dst (fs (os s)) (source_path (obj s)) B) = false ->
  exists s' evs,
    copyfile hst fuel B cm fl s =
      (Raise (SpecialFileError (source_path (obj s))), s') /\
    fs (os s') = fs (os s) /\
    log (os s') = evs ++ log (os s) /\ Forall stat_call evs.
Proof.
  intros Hf Hi Hp Hs.
  destruct (copyfile_validated hst fuel B cm fl s Hf) as (evs & Hev & Hrun).
  cbv zeta in Hrun. rewrite Hs in Hrun.
  assert (Hq : is_fifo (fs (os s)) (source_path (obj s)) = true).
  { unfold is_fifo. by rewrite Hi. }
  rewrite Hq in Hrun. eauto 10.
Qed.
End Claims.

(** C4 as stated fails: with the pipe [/p] as source and as destination
    the error is [SameFileError], not [SpecialFileError]. *)
Lemma copyfile_fifo_onto_itself :
  is_fifo Ex.files "/p" = true /\
  fst (copyfile Ex.linux 0 "/p" false true (Ex.start "/p")) =
    Raise (SameFileError "/p" "/p").
Proof. split; vm_compute; reflexivity. Qed.

Lemma copyfile_fifo_source_witness :
  exists s' evs,
    copyfile Ex.linux 0 "/b" false true (Ex.start "/p") =
      (Raise (SpecialFileError "/p"), s') /\
    fs (os s') = fs (os (Ex.start "/p")) /\
    log (os s') = evs ++ log (os (Ex.start "/p")) /\ Forall stat_call evs.
Proof.
  apply (copyfile_fifo_source Ex.linux 0 "/b" false true (Ex.start "/p") 4%nat Ex.fifo).
  - intros p fl. reflexivity.
  - vm_compute. reflexivity.
  - reflexivity.
  - vm_compute. reflexivity.
Defined.

Lemma S_ISREG_not_dir m : S_ISREG m = true -> S_ISDIR m = false.
Proof. unfold S_ISREG, S_ISDIR. intros H%Z.eqb_eq. by rewrite H. Qed.

Lemma S_ISREG_not_fifo m : S_ISREG m = true -> S_ISFIFO m = false.
Proof. unfold S_ISREG, S_ISFIFO. intros H%Z.eqb_eq. by rewrite H. Qed.

Lemma S_ISDIR_not_fifo m : S_ISDIR m = true -> S_ISFIFO m = false.
Proof. unfold S_ISDIR, S_ISFIFO. intros H%Z.eqb_eq. by rewrite H. Qed.

Lemma get_inode_locate f fl p i nd :
  get_inode f fl p = inr (i, nd) ->
  exists q, locate f fl p = inr (q, Some i) /\ inodes f !! i = Some nd.
Proof.
  intros H. pose proof (get_inode_Some _ _ _ _ _ H) as Hi.
  unfold get_inode, resolve in H.
  destruct (locate f fl p) as [e|[q [j|]]]; [done| |done].
  destruct (inodes f !! j); [|done]. injection H as -> _. eauto.
Qed.

Lemma set_inode_twice f i nd nd' : set_inode (set_inode f i nd) i nd' = set_inode f i nd'.
Proof. unfold set_inode; cbn. by rewrite insert_insert_eq. Qed.

Lemma written_chunks src dst n rem evs :
  chunk_trace src dst n rem evs -> concat (written evs) = rem.
Proof.
  induction 1 as [|rem evs Hne _ IH]; [done|]. cbn. rewrite IH. apply take_drop.
Qed.

Lemma written_sizes src dst n rem evs :
  (0 < n)%nat ->
  chunk_trace src dst n rem evs ->
  Forall (fun buf => 0 < length buf <= n)%nat (written evs).
Proof.
  intros Hn. induction 1 as [|rem evs Hne _ IH]; cbn; [constructor|].
  constructor; [|done]. rewrite length_take. destruct rem; [done|]. cbn. lia.
Qed.

Lemma written_at_eof src dst n evs : chunk_trace src dst n [] evs -> written evs = [].
Proof. by inversion 1. Qed.

(** Every buffer written before the last one is a full chunk. *)
Lemma written_full src dst n rem evs :
  chunk_trace src dst n rem evs ->
  forall bufs b, written evs = bufs ++ [b] -> Forall (fun buf => length buf = n) bufs.
Proof.
  induction 1 as [|rem evs Hne Htr IH]; intros bufs b Hw; cbn in Hw.
  - by destruct bufs.
  - destruct bufs as [|x bufs]; [constructor|]. injection Hw as <- Hw.
    constructor; [|by eapply IH].
    rewrite length_take. destruct (decide (n < length rem)%nat); [lia|].
    rewrite drop_ge in Htr by lia. apply written_at_eof in Htr.
    rewrite Htr in Hw. by destruct bufs.
Qed.

Lemma set_inode_id f i nd : inodes f !! i = Some nd -> set_inode f i nd = f.
Proof. intros H. destruct f as [ns ins]. unfold set_inode; cbn in *. by rewrite insert_id. Qed.

Lemma with_data_id nd : with_data nd (i_data nd) = nd.
Proof. by destruct nd. Qed.

Lemma write_at_end acc buf : write_at (length acc) buf acc = acc ++ buf.
Proof.
  unfold write_at. rewrite firstn_all, drop_ge by lia. by rewrite app_nil_r.
Qed.

Lemma f_read_run fd n s nd :
  faults (os s) (Read (h_ino fd) n) = None ->
  inodes (fs (os s)) !! h_ino fd = Some nd ->
  f_read fd n s =
    (Ok (take n (drop (h_pos fd) (i_data nd)),
         mkHandle (h_ino fd) (h_pos fd + length (take n (drop (h_pos fd) (i_data nd))))%nat),
     logged [Read (h_ino fd) n] s).
Proof. intros Hf Hi. unfold f_read. rewrite sys_run by done. unfold query; cbn. by rewrite Hi. Qed.

Lemma f_write_run fd buf s nd :
  faults (os s) (Write (h_ino fd) buf) = None ->
  inodes (fs (os s)) !! h_ino fd = Some nd ->
  f_write fd buf s =
    (Ok (mkHandle (h_ino fd) (h_pos fd + length buf)%nat),
     mkState (obj s)
       (mkWorld (set_inode (fs (os s)) (h_ino fd)
                   (with_data nd (write_at (h_pos fd) buf (i_data nd))))
                (faults (os s)) (Write (h_ino fd) buf :: log (os s)))).
Proof. intros Hf Hi. unfold f_write. rewrite sys_run by done. cbn. by rewrite Hi. Qed.

(** The loop of [copyfileobj] between two different files on a host that
    refuses nothing: with more fuel than bytes left it ends, having
    appended the rest of the source to the destination chunk by chunk. *)
Lemma copyfileobj_run n iA iB ndA :
  (0 < n)%nat -> iA <> iB ->
  forall fuel pos acc ndB s,
    faultless (os s) ->
    inodes (fs (os s)) !! iA = Some ndA ->
    inodes (fs (os s)) !! iB = Some ndB ->
    i_data ndB = acc ->
    (length (drop pos (i_data ndA)) < fuel)%nat ->
    exists evs,
      chunk_trace iA iB n (drop pos (i_data ndA)) evs /\
      copyfileobj fuel (mkHandle iA pos) (mkHandle iB (length acc)) n s =
        (Ok tt,
         mkState (obj s)
           (mkWorld (set_inode (fs (os s)) iB
                       (with_data ndB (acc ++ drop pos (i_data ndA))))
                    (faults (os s)) (rev evs ++ log (os s)))).
Proof.
  intros Hn Hne. induction fuel as [|fuel IH]; intros pos acc ndB s Hf HA HB Hacc Hfuel;
    [lia|].
  cbn [copyfileobj].
  erewrite bind_ok by (apply f_read_run with (nd := ndA); [apply Hf|exact HA]).
  cbn [fst snd h_ino h_pos].
  set (rem := drop pos (i_data ndA)) in *.
  destruct (take n rem) as [|b buf'] eqn:Hbuf.
  - assert (rem = []) as ->.
    { destruct rem; [done|]. destruct n; [lia|done]. }
    exists [Read iA n]. split; [constructor|].
    unfold ret, logged; cbn. rewrite app_nil_r, <- Hacc, with_data_id.
    by rewrite set_inode_id.
  - set (buf := b :: buf') in *.
    assert (Hrem : rem <> []) by (intros Hr; by rewrite Hr, take_nil in Hbuf).
    erewrite bind_ok by (apply f_write_run with (nd := ndB); [apply Hf|exact HB]).
    cbn [h_ino h_pos]. rewrite Hacc, write_at_end.
    assert (Hd : drop (pos + length buf) (i_data ndA) = drop n rem).
    { rewrite <- drop_drop. fold rem. rewrite <- Hbuf, length_take.
      destruct (decide (n <= length rem)%nat).
      - by rewrite Nat.min_l.
      - rewrite Nat.min_r by lia. by rewrite !drop_ge by lia. }
    destruct (IH (pos + length buf)%nat (acc ++ buf) (with_data ndB (acc ++ buf))
                (mkState (obj s)
                   (mkWorld (set_inode (fs (os s)) iB (with_data ndB (acc ++ buf)))
                      (faults (os s)) (Write iB buf :: Read iA n :: log (os s)))))
      as (evs & Htr & Hrun).
    + done.
    + cbn. by rewrite lookup_insert_ne.
    + cbn. by rewrite lookup_insert_eq.
    + done.
    + rewrite Hd, length_drop. destruct rem; [done|]. cbn in *. lia.
    + rewrite Hd in Htr, Hrun.
      exists (Read iA n :: Write iB (take n rem) :: evs). split.
      { by constructor. }
      rewrite length_app in Hrun. cbn [logged os log obj fs faults] in Hrun |- *.
      etrans; [exact Hrun|]. cbn [obj os fs faults log].
      rewrite set_inode_twice. unfold with_data at 1; cbn [i_mode i_data i_target
        i_atime_ns i_mtime_ns i_xattr i_flags].
      rewrite <- (app_assoc acc buf), <- Hbuf, take_drop, Hbuf.
      cbn [rev]. rewrite <- !app_assoc. cbn. done.
Qed.

Lemma default_length_pos : (0 < default_length)%nat.
Proof. unfold default_length. lia. Qed.

Lemma open_rb_run p s i nd :
  faults (os s) (OpenR p) = None ->
  get_inode (fs (os s)) true p = inr (i, nd) ->
  S_ISDIR (i_mode nd) = false ->
  open_rb p s = (Ok (mkHandle i 0), logged [OpenR p] s).
Proof.
  intros Hf Hi Hd. unfold open_rb. rewrite sys_run by done. unfold query; cbn.
  by rewrite Hi, Hd.
Qed.

Lemma open_wb_dir p s i nd :
  faults (os s) (OpenW p) = None ->
  get_inode (fs (os s)) true p = inr (i, nd) ->
  S_ISDIR (i_mode nd) = true ->
  open_wb p s = (Raise (OSError EISDIR), logged [OpenW p] s).
Proof.
  intros Hf Hi Hd. unfold open_wb. rewrite sys_run by done.
  destruct (get_inode_locate _ _ _ _ _ Hi) as (q & -> & ->). cbn. by rewrite Hd.
Qed.

Lemma open_wb_reg p s i nd :
  faults (os s) (OpenW p) = None ->
  get_inode (fs (os s)) true p = inr (i, nd) ->
  S_ISREG (i_mode nd) = true ->
  open_wb p s =
    (Ok (mkHandle i 0),
     mkState (obj s)
       (mkWorld (set_inode (fs (os s)) i (with_data nd []))
                (faults (os s)) (OpenW p :: log (os s)))).
Proof.
  intros Hf Hi Hr. unfold open_wb. rewrite sys_run by done.
  destruct (get_inode_locate _ _ _ _ _ Hi) as (q & -> & ->). cbn.
  by rewrite (S_ISREG_not_dir _ Hr), Hr.
Qed.

(** Rewriting an inode without touching its type or link text does not
    change what any path resolves to. *)
Lemma walk_set_inode f i nd nd' fuel p :
  inodes f !! i = Some nd ->
  i_mode nd' = i_mode nd -> i_target nd' = i_target nd ->
  walk fuel (set_inode f i nd') p = walk fuel f p.
Proof.
  intros Hi Hm Ht. revert p. induction fuel as [|fuel IH]; intros p; cbn;
    destruct (names f !! p) as [j|]; try done;
    (destruct (decide (j = i)) as [->|Hj];
     [rewrite lookup_insert_eq, Hi, Hm, ?Ht | rewrite lookup_insert_ne by done]);
    try done.
  - destruct (S_ISLNK (i_mode nd)); [apply IH|done].
  - destruct (inodes f !! j) as [x|]; [|done].
    destruct (S_ISLNK (i_mode x)); [apply IH|done].
Qed.

Lemma locate_set_inode f i nd nd' fl p :
  inodes f !! i = Some nd ->
  i_mode nd' = i_mode nd -> i_target nd' = i_target nd ->
  locate (set_inode f i nd') fl p = locate f fl p.
Proof.
  intros Hi Hm Ht. unfold locate. destruct fl; [by eapply walk_set_inode|]. cbn.
  destruct (names f !! p) as [j|]; [|done].
  destruct (decide (j = i)) as [->|Hj];
    [by rewrite lookup_insert_eq, Hi | by rewrite lookup_insert_ne].
Qed.

Lemma get_inode_set_inode f i nd nd' fl p j x :
  inodes f !! i = Some nd ->
  i_mode nd' = i_mode nd -> i_target nd' = i_target nd ->
  get_inode f fl p = inr (j, x) ->
  get_inode (set_inode f i nd') fl p = inr (j, if decide (j = i) then nd' else x).
Proof.
  intros Hi Hm Ht Hg. destruct (get_inode_locate _ _ _ _ _ Hg) as (q & Hl & Hj).
  unfold get_inode, resolve. erewrite locate_set_inode by done. rewrite Hl. cbn.
  destruct (decide (j = i)) as [->|Hne];
    [by rewrite lookup_insert_eq | by rewrite lookup_insert_ne, Hj].
Qed.

Lemma rtc_keeps_shape f f' : rtc keeps_shape f f' -> keeps_shape f f'.
Proof.
  induction 1 as [f|f g h [Hn Hfg] _ [Hn' IH]].
  - split; [done|]. intros i. by destruct (inodes f !! i).
  - split; [congruence|]. intros i. specialize (Hfg i). specialize (IH i).
    destruct (inodes f !! i), (inodes g !! i), (inodes h !! i); try done.
    destruct Hfg as (? & ? & ?), IH as (? & ? & ?). repeat split; congruence.
Qed.

Lemma keeps_shape_set_inode f i nd nd' :
  inodes f !! i = Some nd ->
  i_data nd' = i_data nd -> i_target nd' = i_target nd ->
  S_IFMT (i_mode nd') = S_IFMT (i_mode nd) ->
  keeps_shape f (set_inode f i nd').
Proof.
  intros Hi Hd Ht Hm. split; [done|]. intros j. cbn.
  destruct (decide (j = i)) as [->|Hne].
  - by rewrite lookup_insert_eq, Hi.
  - rewrite lookup_insert_ne by done. by destruct (inodes f !! j).
Qed.

Lemma walk_keeps_shape f f' fuel p : keeps_shape f f' -> walk fuel f' p = walk fuel f p.
Proof.
  intros [Hn Hk]. revert p. induction fuel as [|fuel IH]; intros p; cbn; rewrite Hn;
    destruct (names f !! p) as [j|]; try done; specialize (Hk j);
    destruct (inodes f !! j) as [x|], (inodes f' !! j) as [y|]; try done;
    destruct Hk as (_ & Ht & Hm); unfold S_ISLNK; rewrite Hm, ?Ht; try done.
  destruct (_ =? _); [apply IH|done].
Qed.

Lemma get_inode_keeps_shape f f' fl p i nd :
  keeps_shape f f' ->
  get_inode f fl p = inr (i, nd) ->
  exists nd', get_inode f' fl p = inr (i, nd') /\ i_data nd' = i_data nd.
Proof.
  intros Hk Hg. destruct (get_inode_locate _ _ _ _ _ Hg) as (q & Hl & Hi).
  assert (Hl' : locate f' fl p = locate f fl p).
  { unfold locate. destruct fl; [by apply walk_keeps_shape|].
    destruct Hk as [Hn Hk]. rewrite Hn. destruct (names f !! p) as [j|]; [|done].
    specialize (Hk j). by destruct (inodes f !! j), (inodes f' !! j). }
  destruct Hk as [_ Hk]. specialize (Hk i). rewrite Hi in Hk.
  destruct (inodes f' !! i) as [nd'|] eqn:Hi'; [|done]. destruct Hk as (Hd & _).
  exists nd'. split; [|done]. unfold get_inode, resolve. by rewrite Hl', Hl, Hi'.
Qed.

Section ContentClaims.
Context (hst : host).

(** C2.  For distinct regular files A and B, with [follow_symlinks]
    true, on a host that refuses no call, [copyfile(A, B)] leaves B
    with exactly the bytes of A (so an empty A gives an empty B) and A
    as it was.  The bytes travel in reads of 16 KiB, each followed by
    the write of what was read, until a read returns nothing; nothing
    else is written.  More fuel than A has bytes is enough for the
    loop to end, and without [copy_meta] the call returns B. *)
Theorem copyfile_content fuel (A B : string) cm s iA ndA iB ndB :
  source_path (obj s) = A ->
  faultless (os s) ->
  get_inode (fs (os s)) true A = inr (iA, ndA) -> S_ISREG (i_mode ndA) = true ->
  get_inode (fs (os s)) true B = inr (iB, ndB) -> S_ISREG (i_mode ndB) = true ->
  iA <> iB ->
  (length (i_data ndA) < fuel)%nat ->
  let r := copyfile hst fuel B cm true s in
  exists evs pre post ndA' ndB',
    (cm = false ->
     fst r = Ok B /\
     fs (os (snd r)) = set_inode (fs (os s)) iB (with_data ndB (i_data ndA))) /\
    get_inode (fs (os (snd r))) true B = inr (iB, ndB') /\
    i_data ndB' = i_data ndA /\
    (i_data ndA = [] -> i_data ndB' = []) /\
    get_inode (fs (os (snd r))) true A = inr (iA, ndA') /\
    i_data ndA' = i_data ndA /\
    log (os (snd r)) = post ++ rev evs ++ pre ++ log (os s) /\
    written pre = [] /\ written post = [] /\
    chunk_trace iA iB (16 * 1024) (i_data ndA) evs /\
    concat (written evs) = i_data ndA /\
    Forall (fun buf => 0 < length buf <= 16 * 1024)%nat (written evs) /\
    (forall bufs b, written evs = bufs ++ [b] ->
                    Forall (fun buf => length buf = (16 * 1024)%nat) bufs).
Proof.
  intros <- Hf HiA HrA HiB HrB Hne Hfuel. cbv zeta.
  set (A := source_path (obj s)) in *.
  destruct (copyfile_validated hst fuel B cm true s (faultless_stat _ Hf))
    as (e0 & He0 & Hrun).
  cbv zeta in Hrun. fold A in Hrun.
  assert (He : effective_dst (fs (os s)) A B = B).
  { unfold effective_dst, is_dir. by rewrite HiB, (S_ISREG_not_dir _ HrB). }
  rewrite He in Hrun.
  assert (Hs : same_file (fs (os s)) A B = false).
  { unfold same_file. rewrite HiA, HiB. by apply Nat.eqb_neq. }
  assert (HfA : is_fifo (fs (os s)) A = false).
  { unfold is_fifo. by rewrite HiA, (S_ISREG_not_fifo _ HrA). }
  assert (HfB : is_fifo (fs (os s)) B = false).
  { unfold is_fifo. by rewrite HiB, (S_ISREG_not_fifo _ HrB). }
  rewrite Hs, HfA, HfB in Hrun. rewrite Hrun. clear Hrun.
  pose proof (get_inode_Some _ _ _ _ _ HiA) as HnA.
  pose proof (get_inode_Some _ _ _ _ _ HiB) as HnB.
  set (s0 := logged e0 (retarget B s)).
  set (s1 := mkState (obj s0)
               (mkWorld (set_inode (fs (os s)) iB (with_data ndB []))
                  (faults (os s)) (OpenW B :: OpenR A :: log (os s0)))).
  destruct (copyfileobj_run default_length iA iB ndA default_length_pos Hne
              fuel 0%nat [] (with_data ndB []) s1) as (evs & Htr & Hloop).
  { done. }
  { cbn. by rewrite lookup_insert_ne. }
  { cbn. by rewrite lookup_insert_eq. }
  { done. }
  { by rewrite drop_0. }
  rewrite drop_0 in Htr, Hloop. cbn [length app] in Hloop.
  set (f2 := set_inode (fs (os s)) iB (with_data ndB (i_data ndA))).
  set (s2 := mkState (obj s0)
               (mkWorld f2 (faults (os s))
                  (rev evs ++ OpenW B :: OpenR A :: log (os s0)))).
  assert (Htransfer : transfer hst fuel true s0 = (Ok tt, s2)).
  { unfold transfer. erewrite bind_ok by reflexivity. erewrite bind_ok by reflexivity.
    cbv beta iota.
    erewrite bind_ok by (apply open_rb_run with (nd := ndA);
                         [apply Hf|exact HiA|by apply S_ISREG_not_dir]).
    erewrite bind_ok by reflexivity.
    erewrite bind_ok by (apply open_wb_reg with (nd := ndB); [apply Hf|exact HiB|done]).
    etrans; [exact Hloop|]. cbn [s1 obj os fs faults log]. unfold s2, f2.
    by rewrite set_inode_twice. }
  erewrite bind_ok by exact Htransfer.
  assert (Hpre : written (OpenW B :: OpenR A :: e0) = []).
  { cbn. clear -He0. induction He0 as [|c l Hc _ IH]; [done|]. by destruct c. }
  assert (H2B : get_inode f2 true B = inr (iB, with_data ndB (i_data ndA))).
  { unfold f2. erewrite get_inode_set_inode by done. by rewrite decide_True. }
  assert (H2A : get_inode f2 true A = inr (iA, ndA)).
  { unfold f2. erewrite get_inode_set_inode by done. by rewrite decide_False. }
  destruct cm.
  - destruct (sat_copy_metadata hst (fun c => ~ content_call c) keeps_shape any_exn)
      with (dst := B) (fl := true) (s := s2)
      as [(_ & _ & (post & Hlog & Hpost) & Hk%rtc_keeps_shape) _].
    { done. }
    { intros. by eapply keeps_shape_set_inode. }
    { intros c [fl' Hc] Hcc. by destruct c. }
    set (r := copy_metadata hst B true s2) in *.
    assert (Hsnd : snd (bind (fun s => r) (fun _ => ret B) s2) = snd r).
    { unfold bind. by destruct r as [[[]|x|] s3]. }
    change (snd ((copy_metadata hst B true;; ret B) s2))
      with (snd (bind (fun s => r) (fun _ => ret B) s2)).
    rewrite Hsnd.
    destruct (get_inode_keeps_shape _ _ _ _ _ _ Hk H2B) as (ndB' & HgB & HdB).
    destruct (get_inode_keeps_shape _ _ _ _ _ _ Hk H2A) as (ndA' & HgA & HdA).
    exists evs, (OpenW B :: OpenR A :: e0), post, ndA', ndB'.
    split; [done|]. split; [done|]. split; [done|].
    split; [intros Hd; by rewrite HdB|]. split; [done|]. split; [done|].
    split; [by rewrite Hlog|]. split; [done|]. split.
    { clear -Hpost. induction Hpost as [|c l Hc _ IH]; [done|]. by destruct c. }
    split; [exact Htr|]. split; [by eapply written_chunks|].
    split; [eapply written_sizes; [apply default_length_pos|exact Htr]|].
    by eapply written_full.
  - erewrite bind_ok by reflexivity. cbn [fst snd ret s2 os fs log].
    exists evs, (OpenW B :: OpenR A :: e0), [], ndA, (with_data ndB (i_data ndA)).
    split; [done|]. split; [done|]. split; [done|]. split; [done|].
    split; [done|]. split; [done|]. split; [done|]. split; [done|]. split; [done|].
    split; [exact Htr|]. split; [by eapply written_chunks|].
    split; [eapply written_sizes; [apply default_length_pos|exact Htr]|].
    by eapply written_full.
Qed.

(** C1 on the code: with an existing directory as destination, the
    bytes are written to [self.target_path], which is the directory
    itself, so the call fails with [EISDIR] and no file appears at
    [dir/basename(A)]: the file system is left as it was. *)
Theorem copyfile_into_directory fuel (A B : string) cm s iA ndA iB ndB :
  source_path (obj s) = A ->
  faultless (os s) ->
  get_inode (fs (os s)) true A = inr (iA, ndA) -> S_ISREG (i_mode ndA) = true ->
  get_inode (fs (os s)) true B = inr (iB, ndB) -> S_ISDIR (i_mode ndB) = true ->
  same_file (fs (os s)) A (join B (basename A)) = false ->
  exists s',
    copyfile hst fuel B cm true s = (Raise (OSError EISDIR), s') /\
    fs (os s') = fs (os s).
Proof.
  intros <- Hf HiA HrA HiB HdB Hs.
  set (A := source_path (obj s)) in *.
  destruct (copyfile_validated hst fuel B cm true s (faultless_stat _ Hf))
    as (e0 & He0 & Hrun).
  cbv zeta in Hrun. fold A in Hrun.
  assert (He : effective_dst (fs (os s)) A B = join B (basename A)).
  { unfold effective_dst, is_dir. by rewrite HiB, HdB. }
  rewrite He, Hs in Hrun.
  assert (HfA : is_fifo (fs (os s)) A = false).
  { unfold is_fifo. by rewrite HiA, (S_ISREG_not_fifo _ HrA). }
  assert (HfB : is_fifo (fs (os s)) B = false).
  { unfold is_fifo. by rewrite HiB, (S_ISDIR_not_fifo _ HdB). }
  rewrite HfA, HfB in Hrun. rewrite Hrun. clear Hrun.
  eexists. split; [|shelve].
  apply bind_raise. unfold transfer.
  erewrite bind_ok by reflexivity. erewrite bind_ok by reflexivity.
  cbv beta iota.
  erewrite bind_ok by (apply open_rb_run with (nd := ndA);
                       [apply Hf|exact HiA|by apply S_ISREG_not_dir]).
  erewrite bind_ok by reflexivity.
  apply bind_raise. apply open_wb_dir with (i := iB) (nd := ndB); [apply Hf|exact HiB|done].
  Unshelve. done.
Qed.
End ContentClaims.

Lemma copyfile_content_witness :
  let r := copyfile Ex.linux 4 "/b" true true (Ex.start "/a") in
  exists evs pre post ndA' ndB',
    (true = false ->
     fst r = Ok "/b"%string /\
     fs (os (snd r)) =
       set_inode Ex.files 2
         (with_data (Ex.regular [Byte.x00]) [Byte.x41; Byte.x42; Byte.x43])) /\
    get_inode (fs (os (snd r))) true "/b" = inr (2%nat, ndB') /\
    i_data ndB' = [Byte.x41; Byte.x42; Byte.x43] /\
    ([Byte.x41; Byte.x42; Byte.x43] = [] -> i_data ndB' = []) /\
    get_inode (fs (os (snd r))) true "/a" = inr (1%nat, ndA') /\
    i_data ndA' = [Byte.x41; Byte.x42; Byte.x43] /\
    log (os (snd r)) = post ++ rev evs ++ pre ++ [] /\
    written pre = [] /\ written post = [] /\
    chunk_trace 1 2 (16 * 1024) [Byte.x41; Byte.x42; Byte.x43] evs /\
    concat (written evs) = [Byte.x41; Byte.x42; Byte.x43] /\
    Forall (fun buf => 0 < length buf <= 16 * 1024)%nat (written evs) /\
    (forall bufs b, written evs = bufs ++ [b] ->
                    Forall (fun buf => length buf = (16 * 1024)%nat) bufs).
Proof.
  apply (copyfile_content Ex.linux 4 "/a" "/b" true (Ex.start "/a") 1%nat
           (Ex.regular [Byte.x41; Byte.x42; Byte.x43]) 2%nat (Ex.regular [Byte.x00])).
  - reflexivity.
  - intros c. reflexivity.
  - vm_compute. reflexivity.
  - reflexivity.
  - vm_compute. reflexivity.
  - reflexivity.
  - lia.
  - cbn. lia.
Defined.

(** C2 on the concrete file system: 20000 bytes go in two writes, one of
    16 KiB and one of the rest. *)
Example copyfile_two_chunks :
  let s := mkState (File_init "/a")
             (mkWorld (set_inode Ex.files 1 (Ex.regular (repeat Byte.x2a (20 * 1000))))
                Ex.no_faults []) in
  let r := copyfile Ex.linux (20 * 1000 + 1) "/b" false true s in
  fst r = Ok "/b"%string /\
  get_inode (fs (os (snd r))) true "/b" =
    inr (2%nat, Ex.regular (repeat Byte.x2a (20 * 1000))) /\
  map length (written (rev (log (os (snd r))))) =
    [(16 * 1024)%nat; (20 * 1000 - 16 * 1024)%nat].
Proof. repeat split; vm_compute; reflexivity. Qed.

(** C2 on the concrete file system: an empty source empties the
    destination, and the call returns the destination. *)
Example copyfile_empty_source :
  let s := mkState (File_init "/a")
             (mkWorld (set_inode Ex.files 1 (Ex.regular [])) Ex.no_faults []) in
  let r := copyfile Ex.linux 1 "/b" false true s in
  fst r = Ok "/b"%string /\
  get_inode (fs (os (snd r))) true "/b" = inr (2%nat, Ex.regular []) /\
  rev (log (os (snd r))) =
    [Stat "/b" true; Stat "/a" true; Stat "/b" true; Stat "/a" true; Stat "/b" true;
     OpenR "/a"; OpenW "/b"; Read 1 (16 * 1024)].
Proof. repeat split; vm_compute; reflexivity. Qed.

Lemma copyfile_into_directory_witness :
  exists s',
    copyfile Ex.linux 4 "/d" false true (Ex.start "/a") = (Raise (OSError EISDIR), s') /\
    fs (os s') = fs (os (Ex.start "/a")).
Proof.
  apply (copyfile_into_directory Ex.linux 4 "/a" "/d" false (Ex.start "/a") 1%nat
           (Ex.regular [Byte.x41; Byte.x42; Byte.x43]) 3%nat Ex.directory).
  - reflexivity.
  - intros c. reflexivity.
  - vm_compute. reflexivity.
  - reflexivity.
  - vm_compute. reflexivity.
  - reflexivity.
  - vm_compute. reflexivity.
Defined.

(** * Properties of every run of [copyfile] *)

Lemma sat_rel {A} P Q E (m : M A) s : sat P Q E m -> rel P Q s (snd (m s)).
Proof. intros H. apply H. Qed.

Section Whole.
Context (hst : host).
Context (P : syscall -> Prop) (Q : fsys -> fsys -> Prop).
Hypothesis P_stat : forall c, stat_call c -> P c.
Hypothesis P_transfer : forall c, transfer_call c -> P c.
Hypothesis Q_create : forall f p nd,
  Q f (mkFs (<[p := new_ino f]> (names f)) (<[new_ino f := nd]> (inodes f))).
Hypothesis Q_data : forall f i nd d,
  inodes f !! i = Some nd -> Q f (set_inode f i (with_data nd d)).

(** The calls of lines 77-91 change nothing but the log. *)
Lemma copyfile_rel_with fuel dst (cm fl : bool) s :
  (forall d, sat (A := unit) P Q any_exn
               (if cm then copy_metadata hst d fl else ret tt)) ->
  rel P Q (retarget dst s) (snd (copyfile hst fuel dst cm fl s)).
Proof.
  intros Hmeta. unfold copyfile. unfold bind at 1. cbn [set_target_path].
  apply (sat_rel P Q any_exn).
  apply sat_bind; [apply sat_get_self|]. intros self.
  apply sat_bind; [by apply sat_isdir; [|apply P_stat]|]. intros d. cbv zeta.
  apply sat_bind; [apply sat__samefile; [done|intros; by apply P_stat]|]. intros same.
  apply sat_bind; [destruct same; [by apply sat_raise|apply sat_ret]|]. intros _.
  apply sat_bind; [eapply sat_weaken; [|apply sat_get_target_path]; done|]. intros tp.
  apply sat_bind; [apply sat_check_special; [done|intros; by apply P_stat|done]|].
  intros _.
  apply sat_bind; [by apply sat_transfer|]. intros _.
  apply sat_bind; [apply Hmeta|]. intros _. apply sat_ret.
Qed.

Lemma copyfile_rel_plain fuel dst fl s :
  rel P Q (retarget dst s) (snd (copyfile hst fuel dst false fl s)).
Proof. apply copyfile_rel_with. intros d. apply sat_ret. Qed.

Hypothesis P_meta : forall c, is_Some (follow_flag c) -> P c.
Hypothesis Q_meta : forall f i nd nd',
  inodes f !! i = Some nd ->
  i_data nd' = i_data nd -> i_target nd' = i_target nd ->
  S_IFMT (i_mode nd') = S_IFMT (i_mode nd) ->
  Q f (set_inode f i nd').

Lemma copyfile_rel fuel dst cm fl s :
  rel P Q (retarget dst s) (snd (copyfile hst fuel dst cm fl s)).
Proof.
  apply copyfile_rel_with. intros d. destruct cm; [|apply sat_ret].
  by apply sat_copy_metadata.
Qed.
End Whole.

Lemma rtc_no_step f f' : rtc no_step f f' -> f' = f.
Proof. by destruct 1. Qed.

Lemma guarded_bind {A B} E (m : M A) (k : A -> M B) :
  sat any_call no_step E m -> (forall a, guarded (k a)) -> guarded (bind m k).
Proof.
  intros Hm Hk s. unfold bind. destruct (Hm s) as [(_ & _ & _ & Hfs%rtc_no_step) _].
  destruct (m s) as [[a|x|] s1]; cbn in *; [|by left..].
  destruct (Hk a s1) as [H|H]; [left; congruence|by right].
Qed.

Lemma guarded_plain {A} (m : M A) : sat any_call any_step plain_exn m -> guarded m.
Proof. intros Hm s. right. apply Hm. Qed.

Lemma copyfile_guarded hst fuel dst cm fl : guarded (copyfile hst fuel dst cm fl).
Proof.
  unfold copyfile.
  assert (Hc : forall c, any_call c) by done.
  assert (Hq : forall f f', any_step f f') by done.
  intros s. unfold bind at 1. cbn [set_target_path].
  change (fs (os s)) with (fs (os (retarget dst s))). revert s.
  enough (guarded (self <- get_self ;;
                   d <- isdir hst dst ;;
                   let dst0 := if d then join dst (basename (source_path self)) else dst in
                   same <- _samefile hst dst0 ;;
                   (if same then raise (SameFileError (source_path self) dst0) else ret tt) ;;
                   tp <- get_target_path ;;
                   check_special hst [source_path self; tp] ;;
                   transfer hst fuel fl ;;
                   (if cm then copy_metadata hst dst0 fl else ret tt) ;;
                   ret dst0)) as H by (intros s; apply H).
  eapply guarded_bind; [apply (sat_get_self _ _ any_exn)|]. intros self.
  eapply guarded_bind; [by apply (sat_isdir _ _ _ any_exn)|]. intros d. cbv zeta.
  eapply guarded_bind; [by apply (sat__samefile _ _ _ any_exn)|]. intros same.
  eapply (guarded_bind any_exn);
    [destruct same; [by apply sat_raise|apply sat_ret]|]. intros _.
  eapply guarded_bind; [apply sat_get_target_path|]. intros tp.
  eapply guarded_bind; [by apply (sat_check_special _ _ _ any_exn)|]. intros _.
  apply guarded_plain.
  apply sat_bind; [by apply sat_transfer|]. intros _.
  apply sat_bind; [|intros; apply sat_ret].
  destruct cm; [|apply sat_ret]. by apply sat_copy_metadata.
Qed.

Lemma new_ino_fresh f : inodes f !! new_ino f = None.
Proof. apply not_elem_of_dom. unfold new_ino. apply is_fresh. Qed.

Lemma rtc_keeps_metadata f f' : rtc keeps_metadata f f' -> keeps_metadata f f'.
Proof.
  induction 1 as [f|f g h Hfg _ IH].
  - intros i nd Hi. exists nd. by repeat split.
  - intros i nd Hi. destruct (Hfg i nd Hi) as (nd1 & Hi1 & Hm1).
    destruct (IH i nd1 Hi1) as (nd2 & Hi2 & Hm2). exists nd2. split; [done|].
    destruct Hm1 as (? & ? & ? & ? & ?), Hm2 as (? & ? & ? & ? & ?).
    repeat split; congruence.
Qed.

Section FrameClaims.
Context (hst : host).

(** C9.  With [copy_meta] false no metadata call is made, whatever the
    outcome of the copy, and every file that existed keeps its mode
    bits, timestamps, extended attributes and flags; only content is
    written.  (The model does not move the modification time when
    content is written.) *)
Theorem copyfile_no_metadata fuel dst fl s :
  let s' := snd (copyfile hst fuel dst false fl s) in
  (exists evs, log (os s') = evs ++ log (os s) /\
               Forall (fun c => ~ metadata_call c) evs) /\
  (forall i nd, inodes (fs (os s)) !! i = Some nd ->
     exists nd', inodes (fs (os s')) !! i = Some nd' /\ same_metadata nd nd').
Proof.
  cbv zeta.
  destruct (copyfile_rel_plain hst (fun c => ~ metadata_call c) keeps_metadata)
    with (fuel := fuel) (dst := dst) (fl := fl) (s := s)
    as (_ & _ & Hlog & Hfs).
  - intros c Hc Hm. by destruct c.
  - intros c Hc Hm. by destruct c.
  - intros f p nd i x Hi. exists x. split; [|by repeat split]. cbn.
    rewrite lookup_insert_ne; [done|]. intros <-. by rewrite new_ino_fresh in Hi.
  - intros f i nd d Hi j x Hj. cbn. destruct (decide (j = i)) as [->|Hne].
    + rewrite lookup_insert_eq. exists (with_data nd d). split; [done|].
      rewrite Hi in Hj. injection Hj as <-. by repeat split.
    + rewrite lookup_insert_ne by done. exists x. split; [done|]. by repeat split.
  - split; [exact Hlog|]. by apply rtc_keeps_metadata.
Qed.

(** C10.  [copyfile] assigns the raw destination to
    [self.target_path] first, so after every call, also one that fails,
    the attribute holds that destination; and when the call fails with
    [SameFileError] or [SpecialFileError] the file system has not been
    changed. *)
Theorem copyfile_sets_target_path fuel dst cm fl s :
  let r := copyfile hst fuel dst cm fl s in
  target_path (obj (snd r)) = Some dst /\
  source_path (obj (snd r)) = source_path (obj s) /\
  (forall a b, fst r = Raise (SameFileError a b) -> fs (os (snd r)) = fs (os s)) /\
  (forall fn, fst r = Raise (SpecialFileError fn) -> fs (os (snd r)) = fs (os s)).
Proof.
  cbv zeta.
  destruct (copyfile_rel hst any_call any_step) with (fuel := fuel) (dst := dst)
    (cm := cm) (fl := fl) (s := s) as (Hobj & _); try done.
  rewrite Hobj. split; [done|]. split; [done|].
  destruct (copyfile_guarded hst fuel dst cm fl s) as [H|H].
  - by split.
  - split.
    + intros a b Hr. destruct (H _ Hr).
    + intros fn Hr. destruct (H _ Hr).
Qed.
End FrameClaims.

(** C10 on the concrete file system: a fresh [File("/a")] has no
    [target_path]; after the rejected [copyfile("/a")] it has one. *)
Example target_path_after_rejection :
  target_path (obj (Ex.start "/a")) = None /\
  fst (copyfile Ex.linux 0 "/a" false true (Ex.start "/a")) =
    Raise (SameFileError "/a" "/a") /\
  target_path (obj (snd (copyfile Ex.linux 0 "/a" false true (Ex.start "/a")))) =
    Some "/a"%string.
Proof. repeat split; vm_compute; reflexivity. Qed.

Lemma query_state {A} c (q : fsys -> Z + A) s : snd (sys c (query q) s) = logged [c] s.
Proof.
  unfold sys, query. destruct (faults (os s) c); [done|]. cbn. by destruct (q _).
Qed.

Lemma update_raise c fl p g s x s' :
  sys c (update fl p g) s = (Raise x, s') -> s' = logged [c] s.
Proof.
  unfold sys, update. destruct (faults (os s) c); [by intros [= _ <-]|].
  destruct (get_inode _ _ _) as [e|[i nd]]; cbn; [by intros [= _ <-]|done].
Qed.

Lemma os_listxattr_state p fl s :
  snd (os_listxattr p fl s) = logged [Listxattr p fl] s.
Proof. apply query_state. Qed.

Lemma os_getxattr_state p name fl s :
  snd (os_getxattr p name fl s) = logged [Getxattr p name fl] s.
Proof. apply query_state. Qed.

Section MetaClaims.
Context (hst : host).

(** C8.  In the metadata part (the body of [if copy_meta]), [follow]
    is [follow_symlinks or not (islink(src) and islink(dst))], [dst]
    being the effective destination, and every call made after it is
    computed carries that value as its [follow_symlinks] argument. *)
Theorem metadata_follow dst fl s :
  faults (os s) (Stat (source_path (obj s)) false) = None ->
  faults (os s) (Stat dst false) = None ->
  let b := fl || negb (is_link (fs (os s)) (source_path (obj s)) &&
                       is_link (fs (os s)) dst) in
  exists s1 evs,
    meta_follow hst dst fl s = (Ok b, s1) /\
    fs (os s1) = fs (os s) /\
    copy_metadata hst dst fl s = meta_ops hst dst b s1 /\
    log (os (snd (copy_metadata hst dst fl s))) = evs ++ log (os s1) /\
    Forall (fun c => follow_flag c = Some b) evs.
Proof.
  intros Hf1 Hf2. cbv zeta.
  set (b := fl || negb (is_link (fs (os s)) (source_path (obj s)) &&
                        is_link (fs (os s)) dst)).
  assert (Hmf : exists s1, meta_follow hst dst fl s = (Ok b, s1) /\
                           fs (os s1) = fs (os s)).
  { unfold meta_follow. erewrite bind_ok by reflexivity. subst b.
    destruct fl; cbn [orb]; [by eexists|].
    erewrite bind_ok by (by apply islink_run).
    destruct (is_link (fs (os s)) (source_path (obj s))); cbn [andb negb];
      [|by eexists].
    erewrite bind_ok by (by apply islink_run). by eexists. }
  destruct Hmf as (s1 & Hmf & Hfs).
  assert (Hcm : copy_metadata hst dst fl s = meta_ops hst dst b s1).
  { unfold copy_metadata. by erewrite bind_ok by exact Hmf. }
  destruct (sat_meta_ops hst (fun c => follow_flag c = Some b) any_step any_exn)
    with (follow := b) (dst := dst) (s := s1) as [(_ & _ & (evs & Hlog & Hev) & _) _];
    try done.
  exists s1, evs. rewrite Hcm. by repeat split.
Qed.

(** C7, as amended.  In [_copyxattr]: when listing the attributes of
    the source fails with [ENOTSUP], [ENODATA] or [EINVAL], nothing is
    copied and no error is raised, any other error number is raised to
    the caller; when setting an attribute fails with [EPERM]
    ("operation not permitted"), [ENOTSUP], [ENODATA] or [EINVAL], that
    attribute is left unset and the loop goes on with the remaining
    names, any other error number, [EACCES] ("permission denied")
    among them, is raised to the caller. *)
Theorem copyxattr_errors dst fl s :
  has_listxattr hst = true ->
  (forall e s1,
      os_listxattr (source_path (obj s)) fl s = (Raise (OSError e), s1) ->
      s1 = logged [Listxattr (source_path (obj s)) fl] s /\
      _copyxattr hst dst fl s =
        if errno_in (Some e) [ENOTSUP; ENODATA; EINVAL]
        then (Ok tt, s1) else (Raise (OSError e), s1)) /\
  (forall l s1,
      os_listxattr (source_path (obj s)) fl s = (Ok l, s1) ->
      _copyxattr hst dst fl s = copyxattr_names (source_path (obj s)) dst fl l s1) /\
  (forall src name rest v e s1 s2,
      os_getxattr src name fl s = (Ok v, s1) ->
      os_setxattr dst name v fl s1 = (Raise (OSError e), s2) ->
      fs (os s2) = fs (os s) /\
      copyxattr_names src dst fl (name :: rest) s =
        if errno_in (Some e) [EPERM; ENOTSUP; ENODATA; EINVAL]
        then copyxattr_names src dst fl rest s2 else (Raise (OSError e), s2)).
Proof.
  intros Hh. split; [|split].
  - intros e s1 Hl. split.
    { rewrite <- os_listxattr_state. by rewrite Hl. }
    unfold _copyxattr. rewrite Hh. erewrite bind_ok by reflexivity.
    unfold try_except, tolerate. unfold bind at 1. unfold bind at 1. rewrite Hl.
    cbn [is_OSError exn_errno]. by destruct (errno_in _ _).
  - intros l s1 Hl. unfold _copyxattr. rewrite Hh. erewrite bind_ok by reflexivity.
    unfold try_except. unfold bind at 1. unfold bind at 1. by rewrite Hl.
  - intros src name rest v e s1 s2 Hg Hs. split.
    { apply update_raise in Hs. subst s2. cbn [logged os fs].
      pose proof (os_getxattr_state src name fl s) as Hq. rewrite Hg in Hq.
      cbn in Hq. by subst s1. }
    cbn [copyxattr_names]. unfold try_except, tolerate.
    unfold bind at 1. unfold bind at 1. rewrite Hg, Hs.
    cbn [is_OSError exn_errno]. by destruct (errno_in _ _).
Qed.

(** C6, as amended.  The loop of lines 82-91 stats its two paths and
    ignores every [OSError] of either [stat], whatever the error
    number: it raises [SpecialFileError] exactly when a [stat] that
    succeeds shows a named pipe.  So for a destination that is not an
    existing directory and not the source itself, [copyfile] fails with
    [SpecialFileError], before any change, when the source or the
    destination is a named pipe. *)
Theorem special_file_check a b dst fuel cm fl s :
  faults (os s) (Stat a true) <> Some Unimplemented ->
  faults (os s) (Stat b true) <> Some Unimplemented ->
  (exists evs, Forall stat_call evs /\
     check_special hst [a; b] s =
       if stat_shows_fifo (os s) a then (Raise (SpecialFileError a), logged evs s)
       else if stat_shows_fifo (os s) b then (Raise (SpecialFileError b), logged evs s)
       else (Ok tt, logged evs s)) /\
  (stat_faultless (os s) ->
   is_dir (fs (os s)) dst = false ->
   same_file (fs (os s)) (source_path (obj s)) dst = false ->
   is_fifo (fs (os s)) (source_path (obj s)) || is_fifo (fs (os s)) dst = true ->
   exists fn s',
     copyfile hst fuel dst cm fl s = (Raise (SpecialFileError fn), s') /\
     fs (os s') = fs (os s)).
Proof.
  intros Ha Hb. split.
  - rewrite check_special_cons by done. unfold stat_shows_fifo, is_fifo.
    destruct (faults (os s) (Stat a true)) as [fa|] eqn:Hfa;
      [|destruct (get_inode (fs (os s)) true a) as [e|[i nd]];
        [|destruct (S_ISFIFO (i_mode nd));
          [exists [Stat a true]; split; [by repeat constructor|done]|]]];
      (rewrite check_special_cons by done; cbn [logged os fs faults];
       destruct (faults (os s) (Stat b true)) as [fb|] eqn:Hfb;
       [|destruct (get_inode (fs (os s)) true b) as [e'|[j nd']];
         [|destruct (S_ISFIFO (i_mode nd'))]];
       exists [Stat b true; Stat a true]; (split; [by repeat constructor|done])).
  - intros Hf Hd Hs Hp.
    destruct (copyfile_validated hst fuel dst cm fl s Hf) as (evs & Hev & Hrun).
    cbv zeta in Hrun. unfold effective_dst in Hrun. rewrite Hd, Hs in Hrun.
    destruct (is_fifo _ (source_path _)); [by eauto|].
    cbn in Hp. rewrite Hp in Hrun. by eauto.
Qed.
End MetaClaims.

Lemma rtc_keeps_kind f f' : rtc keeps_kind f f' -> keeps_kind f f'.
Proof.
  induction 1 as [f|f g h [Hn Hfg] _ [Hn' IH]].
  - split; [done|]. intros i nd Hi. by exists nd.
  - split; [congruence|]. intros i nd Hi.
    destruct (Hfg i nd Hi) as (nd1 & Hi1 & Ht1 & Hm1).
    destruct (IH i nd1 Hi1) as (nd2 & Hi2 & Ht2 & Hm2).
    exists nd2. repeat split; congruence.
Qed.

Lemma get_inode_absent f fl p : names f !! p = None -> get_inode f fl p = inl ENOENT.
Proof.
  intros H. unfold get_inode, resolve, locate. destruct fl; [|by rewrite H].
  unfold MAXSYMLINKS. cbn. by rewrite H.
Qed.

Lemma os_readlink_run p s i nd :
  faults (os s) (Readlink p) = None ->
  get_inode (fs (os s)) false p = inr (i, nd) ->
  S_ISLNK (i_mode nd) = true ->
  os_readlink p s = (Ok (i_target nd), logged [Readlink p] s).
Proof.
  intros Hf Hi Hl. unfold os_readlink. rewrite sys_run by done. unfold query; cbn.
  by rewrite Hi, Hl.
Qed.

Lemma os_symlink_run t p s :
  faults (os s) (Symlink t p) = None ->
  names (fs (os s)) !! p = None ->
  os_symlink t p s =
    (Ok tt,
     mkState (obj s)
       (mkWorld (mkFs (<[p := new_ino (fs (os s))]> (names (fs (os s))))
                      (<[new_ino (fs (os s)) := new_inode (Z.lor S_IFLNK 0x1FF) t]>
                         (inodes (fs (os s)))))
                (faults (os s)) (Symlink t p :: log (os s)))).
Proof.
  intros Hf Hn. unfold os_symlink. rewrite sys_run by done. unfold locate.
  by rewrite Hn.
Qed.

Section LinkClaims.
Context (hst : host).

(** C5, as amended.  With [follow_symlinks] false, a source that is a
    symbolic link (not one that leads to a named pipe) and a
    destination path that does not exist yet, on a host that refuses no
    call: the destination becomes a symbolic link with the link text of
    the source, no file is opened, read or written, and without
    [copy_meta] the call returns the destination. *)
Theorem copyfile_symlink fuel (B : string) cm s iA ndA :
  faultless (os s) ->
  get_inode (fs (os s)) false (source_path (obj s)) = inr (iA, ndA) ->
  S_ISLNK (i_mode ndA) = true ->
  names (fs (os s)) !! B = None ->
  is_fifo (fs (os s)) (source_path (obj s)) = false ->
  let r := copyfile hst fuel B cm false s in
  (cm = false -> fst r = Ok B) /\
  (exists nd', get_inode (fs (os (snd r))) false B = inr (new_ino (fs (os s)), nd') /\
               S_ISLNK (i_mode nd') = true /\ i_target nd' = i_target ndA) /\
  (exists evs, log (os (snd r)) = evs ++ log (os s) /\
               Forall (fun c => ~ content_call c) evs).
Proof.
  intros Hf HiA HlA HB HpA. cbv zeta.
  set (A := source_path (obj s)) in *.
  destruct (copyfile_validated hst fuel B cm false s (faultless_stat _ Hf))
    as (e0 & He0 & Hrun).
  cbv zeta in Hrun. fold A in Hrun.
  pose proof (get_inode_absent (fs (os s)) true B HB) as HgB.
  assert (He : effective_dst (fs (os s)) A B = B).
  { unfold effective_dst, is_dir. by rewrite HgB. }
  assert (Hs : same_file (fs (os s)) A B = false).
  { unfold same_file. rewrite HgB. by destruct (get_inode _ true A) as [?|[??]]. }
  assert (HpB : is_fifo (fs (os s)) B = false).
  { unfold is_fifo. by rewrite HgB. }
  rewrite He, Hs, HpA, HpB in Hrun. rewrite Hrun. clear Hrun.
  set (s0 := logged e0 (retarget B s)).
  set (t := i_target ndA).
  set (new := new_ino (fs (os s))).
  set (f2 := mkFs (<[B := new]> (names (fs (os s))))
                  (<[new := new_inode (Z.lor S_IFLNK 0x1FF) t]> (inodes (fs (os s))))).
  set (s2 := mkState (obj s0)
               (mkWorld f2 (faults (os s))
                  (Symlink t B :: Readlink A :: Stat A false :: log (os s0)))).
  assert (Htransfer : transfer hst fuel false s0 = (Ok tt, s2)).
  { unfold transfer. erewrite bind_ok by reflexivity.
    erewrite bind_ok by (apply islink_run; apply Hf).
    assert (Hl : is_link (fs (os s0)) A = true).
    { unfold is_link. cbn. fold A. by rewrite HiA. }
    cbn [obj s0 logged retarget source_path]. fold A. rewrite Hl.
    erewrite bind_ok by (apply os_readlink_run with (i := iA) (nd := ndA);
                         [apply Hf|exact HiA|done]).
    erewrite bind_ok by reflexivity.
    by rewrite os_symlink_run by (done || apply Hf). }
  erewrite bind_ok by exact Htransfer.
  assert (Hev0 : Forall (fun c => ~ content_call c) e0).
  { clear -He0. induction He0 as [|c l Hc _ IH]; [constructor|].
    constructor; [intros Hcc; by destruct c|done]. }
  assert (H2 : get_inode f2 false B = inr (new, new_inode (Z.lor S_IFLNK 0x1FF) t)).
  { unfold get_inode, resolve, locate. cbn. by rewrite !lookup_insert_eq. }
  destruct cm.
  - destruct (sat_copy_metadata hst (fun c => ~ content_call c) keeps_kind any_exn)
      with (dst := B) (fl := false) (s := s2)
      as [(_ & _ & (evs & Hlog & Hev) & [Hn Hk]%rtc_keeps_kind) _].
    { done. }
    { intros f i nd nd' Hi _ Ht Hm. split; [done|]. intros j x Hj. cbn.
      destruct (decide (j = i)) as [->|Hne].
      - rewrite lookup_insert_eq. exists nd'. rewrite Hi in Hj. injection Hj as <-.
        by repeat split.
      - rewrite lookup_insert_ne by done. by exists x. }
    { intros c [fl' Hc] Hcc. by destruct c. }
    set (r := copy_metadata hst B false s2) in *.
    assert (Hsnd : snd (bind (fun s => r) (fun _ => ret B) s2) = snd r).
    { unfold bind. by destruct r as [[[]|x|] s3]. }
    change (snd ((copy_metadata hst B false;; ret B) s2))
      with (snd (bind (fun s => r) (fun _ => ret B) s2)).
    rewrite Hsnd. split; [done|]. split.
    + destruct (Hk new (new_inode (Z.lor S_IFLNK 0x1FF) t)) as (nd' & Hi' & Ht' & Hm').
      { cbn. by rewrite lookup_insert_eq. }
      exists nd'. split; [|split; [|done]].
      * unfold get_inode, resolve, locate. rewrite Hn. cbn.
        by rewrite lookup_insert_eq, !Hi'.
      * unfold S_ISLNK. by rewrite Hm'.
    + exists (evs ++ Symlink t B :: Readlink A :: Stat A false :: e0).
      split; [by rewrite Hlog, <- app_assoc|].
      apply Forall_app. split; [done|]. by repeat (constructor; [by intros []|]).
  - erewrite bind_ok by reflexivity. cbn [fst snd ret s2 os fs log].
    split; [done|]. split; [by eauto|].
    exists (Symlink t B :: Readlink A :: Stat A false :: e0). split; [done|].
    by repeat (constructor; [by intros []|]).
Qed.
End LinkClaims.

(** C5 as stated fails when the destination exists: [os.symlink] refuses
    it, and [/b] stays the regular file it was. *)
Lemma copyfile_symlink_onto_existing :
  is_link Ex.files "/l" = true /\
  fst (copyfile Ex.linux 0 "/b" false false (Ex.start "/l")) = Raise (OSError EEXIST) /\
  is_link (fs (os (snd (copyfile Ex.linux 0 "/b" false false (Ex.start "/l"))))) "/b"
    = false.
Proof. repeat split; vm_compute; reflexivity. Qed.

Lemma copyfile_symlink_witness :
  let r := copyfile Ex.linux 0 "/new" true false (Ex.start "/l") in
  (true = false -> fst r = Ok "/new"%string) /\
  (exists nd', get_inode (fs (os (snd r))) false "/new" = inr (new_ino Ex.files, nd') /\
               S_ISLNK (i_mode nd') = true /\ i_target nd' = "/a"%string) /\
  (exists evs, log (os (snd r)) = evs ++ [] /\
               Forall (fun c => ~ content_call c) evs).
Proof.
  apply (copyfile_symlink Ex.linux 0 "/new" true (Ex.start "/l") 5%nat (Ex.symlink "/a")).
  - intros c. reflexivity.
  - vm_compute. reflexivity.
  - reflexivity.
  - vm_compute. reflexivity.
  - vm_compute. reflexivity.
Defined.

(** C6 as stated fails: the [stat] of a dangling link as source fails
    with "not found" and the copy goes on and succeeds; and a [stat] of
    the destination that fails with [EACCES] is ignored like any other. *)
Lemma stat_errors_are_swallowed :
  get_inode Ex.files true "/dangling" = inl ENOENT /\
  fst (copyfile Ex.linux 0 "/new" false false (Ex.start "/dangling")) = Ok "/new"%string /\
  fst (copyfile Ex.linux 4 "/b" false true
         (mkState (File_init "/a")
            (mkWorld Ex.files
               (fun c => match c with
                         | Stat p true => if String.eqb p "/b" then Some (Errno EACCES) else None
                         | _ => None
                         end) []))) = Ok "/b"%string.
Proof. repeat split; vm_compute; reflexivity. Qed.

Lemma special_file_check_witness :
  (exists evs, Forall stat_call evs /\
     check_special Ex.linux ["/p"%string; "/b"%string] (Ex.start "/p") =
       if stat_shows_fifo Ex.world0 "/p"
       then (Raise (SpecialFileError "/p"), logged evs (Ex.start "/p"))
       else if stat_shows_fifo Ex.world0 "/b"
       then (Raise (SpecialFileError "/b"), logged evs (Ex.start "/p"))
       else (Ok tt, logged evs (Ex.start "/p"))) /\
  exists fn s',
    copyfile Ex.linux 0 "/b" false true (Ex.start "/p") = (Raise (SpecialFileError fn), s') /\
    fs (os s') = Ex.files.
Proof.
  destruct (special_file_check Ex.linux "/p" "/b" "/b" 0 false true (Ex.start "/p"))
    as [H1 H2].
  - discriminate.
  - discriminate.
  - split; [exact H1|]. apply H2.
    + intros p fl. reflexivity.
    + vm_compute. reflexivity.
    + vm_compute. reflexivity.
    + vm_compute. reflexivity.
Defined.

Lemma metadata_follow_witness :
  let b := false || negb (is_link Ex.files "/l" && is_link Ex.files "/dangling") in
  exists s1 evs,
    meta_follow Ex.linux "/dangling" false (Ex.start "/l") = (Ok b, s1) /\
    fs (os s1) = Ex.files /\
    copy_metadata Ex.linux "/dangling" false (Ex.start "/l") =
      meta_ops Ex.linux "/dangling" b s1 /\
    log (os (snd (copy_metadata Ex.linux "/dangling" false (Ex.start "/l")))) =
      evs ++ log (os s1) /\
    Forall (fun c => follow_flag c = Some b) evs.
Proof.
  apply (metadata_follow Ex.linux "/dangling" false (Ex.start "/l")); reflexivity.
Defined.

(** C7 as stated fails: when setting [user.k] is refused with
    "permission denied" ([EACCES]), the error is raised, and [user.m],
    the attribute after it, is not copied. *)
Lemma copyxattr_permission_denied :
  let r := _copyxattr Ex.linux "/t" true Ex3.denied in
  fst r = Raise (OSError EACCES) /\
  get_inode (fs (os (snd r))) true "/t" = inr (2%nat, Ex3.plain) /\
  xattr_get "user.m" (i_xattr Ex3.two_attrs) = Some [Byte.x02].
Proof. repeat split; vm_compute; reflexivity. Qed.

Lemma copyxattr_errors_witness :
  _copyxattr Ex.linux "/a" true (Ex.start_x "/b") =
    (Ok tt, logged [Listxattr "/b" true] (Ex.start_x "/b")) /\
  (let r := copyxattr_names "/s" "/t" true ["user.k"; "user.m"]%string
              Ex3.not_permitted in
   fst r = Ok tt /\
   get_inode (fs (os (snd r))) true "/t" =
     inr (2%nat, with_xattr Ex3.plain [("user.m"%string, [Byte.x02])])).
Proof.
  destruct (copyxattr_errors Ex.linux "/a" true (Ex.start_x "/b") eq_refl)
    as (H1 & _ & _).
  destruct (copyxattr_errors Ex.linux "/t" true Ex3.not_permitted eq_refl)
    as (_ & _ & H3).
  split.
  - destruct (H1 ENOTSUP (logged [Listxattr "/b" true] (Ex.start_x "/b")) eq_refl)
      as [_ ->]. reflexivity.
  - cbv zeta.
    destruct (H3 "/s"%string "user.k"%string ["user.m"%string] [Byte.x01] EPERM
                (logged [Getxattr "/s" "user.k" true] Ex3.not_permitted)
                (logged [Setxattr "/t" "user.k" [Byte.x01] true;
                         Getxattr "/s" "user.k" true] Ex3.not_permitted)
                eq_refl eq_refl) as [_ ->].
    split; vm_compute; reflexivity.
Defined.

(** ** Copying a file onto itself *)

Lemma open_rb_fails p s :
  (forall i nd, get_inode (fs (os s)) true p = inr (i, nd) -> S_ISDIR (i_mode nd) = true) ->
  exists x, open_rb p s = (Raise x, logged [OpenR p] s).
Proof.
  intros H. unfold open_rb, sys, query.
  destruct (faults (os s) (OpenR p)) as [f|]; [by eexists|].
  destruct (get_inode (fs (os s)) true p) as [e|[i nd]] eqn:Hg; [by eexists|].
  rewrite (H i nd eq_refl). by eexists.
Qed.

Lemma os_symlink_exists t p s i nd :
  get_inode (fs (os s)) false p = inr (i, nd) ->
  exists x, os_symlink t p s = (Raise x, logged [Symlink t p] s).
Proof.
  intros Hg. destruct (get_inode_locate _ _ _ _ _ Hg) as (q & Hl & _).
  unfold os_symlink, sys. destruct (faults (os s) (Symlink t p)) as [f|]; [by eexists|].
  rewrite Hl. by eexists.
Qed.

Section SameFile.
Context (hst : host).

(** Lines 92-97 when the destination is the source and the source is
    not a file that can be opened for reading: whatever
    [follow_symlinks] is, the attempt fails and changes nothing. *)
Lemma transfer_onto_source fuel fl s (A : string) :
  source_path (obj s) = A -> target_path (obj s) = Some A ->
  faults (os s) (Stat A false) = None ->
  (forall i nd, get_inode (fs (os s)) true A = inr (i, nd) -> S_ISDIR (i_mode nd) = true) ->
  exists x s', transfer hst fuel fl s = (Raise x, s') /\ fs (os s') = fs (os s).
Proof.
  intros <- Ht Hf Hd. unfold transfer. erewrite bind_ok by reflexivity.
  assert (Hopen : exists x s',
             (fsrc <- open_rb (source_path (obj s)) ;;
              tp <- get_target_path ;;
              fdst <- open_wb tp ;;
              copyfileobj fuel fsrc fdst default_length) s = (Raise x, s') /\
             fs (os s') = fs (os s)).
  { destruct (open_rb_fails _ s Hd) as (x & Hx). exists x. eexists.
    split; [by apply bind_raise|done]. }
  destruct fl.
  { by erewrite bind_ok by reflexivity. }
  erewrite bind_ok by (by apply islink_run).
  destruct (is_link (fs (os s)) (source_path (obj s))) eqn:Hl.
  2:{ destruct (open_rb_fails _ (logged [Stat (source_path (obj s)) false] s) Hd)
        as (x & Hx). exists x. eexists. split; [by apply bind_raise|done]. }
  unfold is_link in Hl.
  destruct (get_inode (fs (os s)) false (source_path (obj s))) as [e|[i nd]] eqn:Hg;
    [done|].
  set (s1 := logged [Stat (source_path (obj s)) false] s).
  pose proof (query_state (Readlink (source_path (obj s)))
                (fun f => match get_inode f false (source_path (obj s)) with
                          | inl e => inl e
                          | inr (_, nd) =>
                              if S_ISLNK (i_mode nd) then inr (i_target nd) else inl EINVAL
                          end) s1) as Hq.
  fold (os_readlink (source_path (obj s))) in Hq.
  destruct (os_readlink (source_path (obj s)) s1) as [[t|x|] s2] eqn:Hr; cbn in Hq;
    subst s2.
  - erewrite bind_ok by exact Hr.
    erewrite bind_ok by (unfold get_target_path; cbn; by rewrite Ht).
    destruct (os_symlink_exists t (source_path (obj s))
                (logged [Readlink (source_path (obj s))] s1) i nd Hg) as (x & Hx).
    rewrite Hx. by eauto.
  - erewrite bind_raise by exact Hr. by eauto.
  - unfold os_readlink, sys, query in Hr.
    cbn [s1 logged os fs faults] in Hr. rewrite Hg, Hl in Hr.
    by destruct (faults (os s) (Readlink (source_path (obj s)))).
Qed.

(** C3, as amended.  On a host that answers every [stat], when A names
    an existing file that is not a directory, [copyfile(A, A)] raises
    [SameFileError] when nothing but [stat] calls have been made; and
    whatever the path A is, [copyfile(A, A)] never succeeds and never
    changes the file system. *)
Theorem copyfile_onto_itself fuel cm fl s :
  stat_faultless (os s) ->
  let A := source_path (obj s) in
  let r := copyfile hst fuel A cm fl s in
  (exists x, fst r = Raise x) /\
  fs (os (snd r)) = fs (os s) /\
  (forall i nd,
      get_inode (fs (os s)) true A = inr (i, nd) -> S_ISDIR (i_mode nd) = false ->
      fst r = Raise (SameFileError A A) /\
      exists evs, log (os (snd r)) = evs ++ log (os s) /\ Forall stat_call evs).
Proof.
  intros Hf. cbv zeta. set (A := source_path (obj s)).
  assert (Hfile : forall i nd,
             get_inode (fs (os s)) true A = inr (i, nd) -> S_ISDIR (i_mode nd) = false ->
             fst (copyfile hst fuel A cm fl s) = Raise (SameFileError A A) /\
             fs (os (snd (copyfile hst fuel A cm fl s))) = fs (os s) /\
             exists evs, log (os (snd (copyfile hst fuel A cm fl s))) = evs ++ log (os s) /\
                         Forall stat_call evs).
  { intros i nd Hg Hd.
    destruct (copyfile_same_inode hst fuel A A cm fl s i nd nd eq_refl Hf Hg Hg Hd)
      as (s' & evs & -> & Hfs & Hlog). cbn. by eauto. }
  destruct (copyfile_validated hst fuel A cm fl s Hf) as (evs & Hev & Hrun).
  cbv zeta in Hrun. fold A in Hrun.
  destruct (same_file (fs (os s)) A (effective_dst (fs (os s)) A A)) eqn:Hs.
  { rewrite Hrun. cbn. split; [by eauto|]. split; [done|].
    intros i nd Hg Hd. destruct (Hfile i nd Hg Hd) as (H1 & _ & H3).
    rewrite Hrun in H1, H3. by split. }
  assert (Hdir : forall i nd, get_inode (fs (os s)) true A = inr (i, nd) ->
                              S_ISDIR (i_mode nd) = true).
  { intros i nd Hg. destruct (S_ISDIR (i_mode nd)) eqn:Hd; [done|].
    unfold effective_dst, is_dir, same_file in Hs. rewrite Hg, Hd, Hg in Hs.
    by rewrite Nat.eqb_refl in Hs. }
  assert (Hno : forall i nd, get_inode (fs (os s)) true A = inr (i, nd) ->
                             S_ISDIR (i_mode nd) = false -> False).
  { intros i nd Hg Hd. rewrite (Hdir i nd Hg) in Hd. done. }
  destruct (is_fifo (fs (os s)) A) eqn:Hp.
  { rewrite Hrun. cbn. split; [by eauto|]. split; [done|].
    intros i nd Hg Hd. destruct (Hno i nd Hg Hd). }
  destruct (transfer_onto_source fuel fl (logged evs (retarget A s)) A)
    as (x & s' & Ht & Hfs); [done|done|apply Hf|exact Hdir|].
  rewrite Hrun. erewrite bind_raise by exact Ht. cbn.
  split; [by eauto|]. split; [done|].
  intros i nd Hg Hd. destruct (Hno i nd Hg Hd).
Qed.
End SameFile.

Lemma copyfile_onto_itself_witness :
  let r := copyfile Ex.linux 0 "/a" false true (Ex.start "/a") in
  (exists x, fst r = Raise x) /\
  fs (os (snd r)) = Ex.files /\
  (forall i nd,
      get_inode Ex.files true "/a" = inr (i, nd) -> S_ISDIR (i_mode nd) = false ->
      fst r = Raise (SameFileError "/a" "/a") /\
      exists evs, log (os (snd r)) = evs ++ [] /\ Forall stat_call evs).
Proof.
  apply (copyfile_onto_itself Ex.linux 0 false true (Ex.start "/a")).
  intros p fl. reflexivity.
Defined.

(** C3 as stated fails for a directory: with the directory [/d] as
    source and as destination, line 78 makes the destination [/d/d],
    which is not the same file, and the error is that of
    [open('/d', 'rb')], [IsADirectoryError] ([EISDIR]), not
    [SameFileError]. *)
Lemma copyfile_directory_onto_itself :
  is_dir Ex.files "/d" = true /\
  same_file Ex.files "/d" "/d" = true /\
  fst (copyfile Ex.linux 0 "/d" false true (Ex.start "/d")) = Raise (OSError EISDIR).
Proof. repeat split; vm_compute; reflexivity. Qed.

(** C3 on the concrete file system: [/a] onto itself, and [/a] onto its
    other name [/h]. *)
Example same_file_rejected :
  fst (copyfile Ex.linux 0 "/a" false true (Ex.start "/a")) =
    Raise (SameFileError "/a" "/a") /\
  fst (copyfile Ex.linux 0 "/h" false true (Ex.start "/a")) =
    Raise (SameFileError "/a" "/h").
Proof. split; vm_compute; reflexivity. Qed.

(** * Further properties of the code *)

Lemma only_writes_refused_stat w : only_writes_refused w -> stat_faultless w.
Proof. intros H p fl. apply H. intros []. Qed.

Lemma take_take_chunk (rem : bytes) n :
  take (length (take n rem)) rem = take n rem.
Proof.
  rewrite length_take. destruct (decide (n <= length rem)%nat).
  - by rewrite Nat.min_l.
  - rewrite Nat.min_r by lia. by rewrite !take_ge by lia.
Qed.

Lemma drop_take_chunk (rem : bytes) n :
  drop (length (take n rem)) rem = drop n rem.
Proof.
  rewrite length_take. destruct (decide (n <= length rem)%nat).
  - by rewrite Nat.min_l.
  - rewrite Nat.min_r by lia. by rewrite !drop_ge by lia.
Qed.

Section Regular.
Context (hst : host).

(** Lines 76-91 for two different regular files: both checks pass. *)
Lemma copyfile_regular_validated fuel (B : string) cm fl s iA ndA iB ndB :
  stat_faultless (os s) ->
  get_inode (fs (os s)) true (source_path (obj s)) = inr (iA, ndA) ->
  S_ISREG (i_mode ndA) = true ->
  get_inode (fs (os s)) true B = inr (iB, ndB) -> S_ISREG (i_mode ndB) = true ->
  iA <> iB ->
  exists e0, Forall stat_call e0 /\
    copyfile hst fuel B cm fl s =
      (transfer hst fuel fl ;;
       (if cm then copy_metadata hst B fl else ret tt) ;;
       ret B) (logged e0 (retarget B s)).
Proof.
  intros Hf HiA HrA HiB HrB Hne.
  set (A := source_path (obj s)) in *.
  destruct (copyfile_validated hst fuel B cm fl s Hf) as (e0 & He0 & Hrun).
  cbv zeta in Hrun. fold A in Hrun.
  assert (He : effective_dst (fs (os s)) A B = B).
  { unfold effective_dst, is_dir. by rewrite HiB, (S_ISREG_not_dir _ HrB). }
  rewrite He in Hrun.
  assert (Hs : same_file (fs (os s)) A B = false).
  { unfold same_file. rewrite HiA, HiB. by apply Nat.eqb_neq. }
  assert (HfA : is_fifo (fs (os s)) A = false).
  { unfold is_fifo. by rewrite HiA, (S_ISREG_not_fifo _ HrA). }
  assert (HfB : is_fifo (fs (os s)) B = false).
  { unfold is_fifo. by rewrite HiB, (S_ISREG_not_fifo _ HrB). }
  rewrite Hs, HfA, HfB in Hrun. by eauto.
Qed.
End Regular.

(** The loop of [copyfileobj] when writes may be refused: it stops at the
    first refused write with that write's error, and the destination has
    then received a prefix of what was left of the source. *)
Lemma copyfileobj_prefix n iA iB ndA :
  (0 < n)%nat -> iA <> iB ->
  forall fuel pos acc ndB s,
    only_writes_refused (os s) ->
    inodes (fs (os s)) !! iA = Some ndA ->
    inodes (fs (os s)) !! iB = Some ndB ->
    i_data ndB = acc ->
    (length (drop pos (i_data ndA)) < fuel)%nat ->
    exists k evs,
      let r := copyfileobj fuel (mkHandle iA pos) (mkHandle iB (length acc)) n s in
      snd r =
        mkState (obj s)
          (mkWorld (set_inode (fs (os s)) iB
                      (with_data ndB (acc ++ take k (drop pos (i_data ndA)))))
                   (faults (os s)) (evs ++ log (os s))) /\
      ((fst r = Ok tt /\ take k (drop pos (i_data ndA)) = drop pos (i_data ndA)) \/
       (exists buf f, faults (os s) (Write iB buf) = Some f /\
                      fst r = Raise (exn_of_fault f))).
Proof.
  intros Hn Hne. induction fuel as [|fuel IH]; intros pos acc ndB s Hf HA HB Hacc Hfuel;
    [lia|].
  cbv zeta. cbn [copyfileobj].
  erewrite bind_ok
    by (apply f_read_run with (nd := ndA); [apply Hf; intros []|exact HA]).
  cbn [fst snd h_ino h_pos].
  set (rem := drop pos (i_data ndA)) in *.
  destruct (take n rem) as [|b buf'] eqn:Hbuf.
  - assert (rem = []) as ->.
    { destruct rem; [done|]. destruct n; [lia|done]. }
    exists 0%nat, [Read iA n]. split; [|by left].
    unfold ret, logged; cbn. rewrite app_nil_r, <- Hacc, with_data_id.
    by rewrite set_inode_id.
  - set (buf := b :: buf') in *.
    assert (Hrem : rem <> []) by (intros Hr; by rewrite Hr, take_nil in Hbuf).
    destruct (faults (os s) (Write iB buf)) as [f|] eqn:Hw.
    + erewrite bind_raise
        by (unfold f_write; apply sys_fault; cbn [logged os faults h_ino]; exact Hw).
      exists 0%nat, [Write iB buf; Read iA n]. split; [|right; by exists buf, f].
      cbn. rewrite app_nil_r, <- Hacc, with_data_id. by rewrite set_inode_id.
    + erewrite bind_ok by (apply f_write_run with (nd := ndB); [exact Hw|exact HB]).
      cbn [h_ino h_pos]. rewrite Hacc, write_at_end.
      assert (Hd : drop (pos + length buf) (i_data ndA) = drop n rem).
      { rewrite <- drop_drop. fold rem. rewrite <- Hbuf. apply drop_take_chunk. }
      destruct (IH (pos + length buf)%nat (acc ++ buf) (with_data ndB (acc ++ buf))
                  (mkState (obj s)
                     (mkWorld (set_inode (fs (os s)) iB (with_data ndB (acc ++ buf)))
                        (faults (os s)) (Write iB buf :: Read iA n :: log (os s)))))
        as (k & evs & Hrun & Hres).
      * done.
      * cbn. by rewrite lookup_insert_ne.
      * cbn. by rewrite lookup_insert_eq.
      * done.
      * rewrite Hd, length_drop. destruct rem; [done|]. cbn in *. lia.
      * cbv zeta in Hrun, Hres. rewrite Hd in Hrun, Hres.
        rewrite length_app in Hrun, Hres.
        cbn [logged os log obj fs faults] in Hrun, Hres |- *.
        assert (Htk : acc ++ take (length buf + k) rem = (acc ++ buf) ++ take k (drop n rem)).
        { rewrite <- take_take_drop, <- Hbuf, take_take_chunk, drop_take_chunk.
          by rewrite app_assoc. }
        exists (length buf + k)%nat, (evs ++ [Write iB buf; Read iA n]). split.
        { etrans; [exact Hrun|]. cbn [obj os fs faults log].
          rewrite set_inode_twice, Htk, <- (app_assoc evs). by destruct ndB. }
        destruct Hres as [[Hok Hall]|Hbad]; [left|by right].
        split; [exact Hok|].
        apply (inj (app acc)). rewrite Htk, Hall, <- app_assoc, <- Hbuf.
        by rewrite take_drop.
Qed.

Section RefusedWrites.
Context (hst : host).

(** X3.  [copyfile] between two different regular files on a host that
    refuses nothing but writes: either every write goes through and the
    destination ends with the bytes of the source, or the first refused
    write ends the call with that write's error; the destination, which
    was emptied when it was opened, then holds the bytes written so far,
    a prefix of the source, and is not removed.  The source is as it
    was. *)
Theorem copyfile_refused_write fuel (B : string) s iA ndA iB ndB :
  only_writes_refused (os s) ->
  get_inode (fs (os s)) true (source_path (obj s)) = inr (iA, ndA) ->
  S_ISREG (i_mode ndA) = true ->
  get_inode (fs (os s)) true B = inr (iB, ndB) -> S_ISREG (i_mode ndB) = true ->
  iA <> iB ->
  (length (i_data ndA) < fuel)%nat ->
  let r := copyfile hst fuel B false true s in
  exists k,
    get_inode (fs (os (snd r))) true B = inr (iB, with_data ndB (take k (i_data ndA))) /\
    get_inode (fs (os (snd r))) true (source_path (obj s)) = inr (iA, ndA) /\
    ((fst r = Ok B /\ take k (i_data ndA) = i_data ndA) \/
     (exists buf f, faults (os s) (Write iB buf) = Some f /\
                    fst r = Raise (exn_of_fault f))).
Proof.
  intros Hf HiA HrA HiB HrB Hne Hfuel. cbv zeta.
  set (A := source_path (obj s)) in *.
  destruct (copyfile_regular_validated hst fuel B false true s iA ndA iB ndB)
    as (e0 & He0 & Hrun); try done.
  { by apply only_writes_refused_stat. }
  rewrite Hrun. clear Hrun.
  pose proof (get_inode_Some _ _ _ _ _ HiA) as HnA.
  pose proof (get_inode_Some _ _ _ _ _ HiB) as HnB.
  set (s0 := logged e0 (retarget B s)).
  set (s1 := mkState (obj s0)
               (mkWorld (set_inode (fs (os s)) iB (with_data ndB []))
                  (faults (os s)) (OpenW B :: OpenR A :: log (os s0)))).
  destruct (copyfileobj_prefix default_length iA iB ndA default_length_pos Hne
              fuel 0%nat [] (with_data ndB []) s1) as (k & evs & Hsnd & Hres).
  { done. }
  { cbn. by rewrite lookup_insert_ne. }
  { cbn. by rewrite lookup_insert_eq. }
  { done. }
  { by rewrite drop_0. }
  cbv zeta in Hsnd, Hres. rewrite drop_0 in Hsnd, Hres. cbn [length app] in Hsnd, Hres.
  assert (Htransfer : transfer hst fuel true s0 =
            copyfileobj fuel (mkHandle iA 0) (mkHandle iB 0) default_length s1).
  { unfold transfer. erewrite bind_ok by reflexivity. erewrite bind_ok by reflexivity.
    cbv beta iota.
    erewrite bind_ok by (apply open_rb_run with (nd := ndA);
                         [apply Hf; intros []|exact HiA|by apply S_ISREG_not_dir]).
    erewrite bind_ok by reflexivity.
    by erewrite bind_ok
      by (apply open_wb_reg with (nd := ndB); [apply Hf; intros []|exact HiB|done]). }
  unfold bind. rewrite Htransfer.
  destruct (copyfileobj fuel (mkHandle iA 0) (mkHandle iB 0) default_length s1)
    as [res s2]. cbn [fst snd] in Hsnd, Hres. subst s2.
  exists k.
  assert (HB' : get_inode
                  (set_inode (set_inode (fs (os s)) iB (with_data ndB [])) iB
                     (with_data (with_data ndB []) (take k (i_data ndA)))) true B =
                inr (iB, with_data ndB (take k (i_data ndA)))).
  { rewrite set_inode_twice. erewrite get_inode_set_inode by done.
    by rewrite decide_True. }
  assert (HA' : get_inode
                  (set_inode (set_inode (fs (os s)) iB (with_data ndB [])) iB
                     (with_data (with_data ndB []) (take k (i_data ndA)))) true A =
                inr (iA, ndA)).
  { rewrite set_inode_twice. erewrite get_inode_set_inode by done.
    by rewrite decide_False. }
  destruct Hres as [[-> Hall]|(buf & f & Hw & ->)].
  - unfold ret. cbn [fst snd os fs s1]. split; [done|]. split; [done|]. by left.
  - cbn [fst snd os fs s1]. split; [done|]. split; [done|]. right. by exists buf, f.
Qed.
End RefusedWrites.

Lemma copyfile_refused_write_witness :
  let r := copyfile Ex.linux 4 "/b" false true (Ex2.start_full "/a") in
  exists k,
    get_inode (fs (os (snd r))) true "/b" =
      inr (2%nat, with_data (Ex.regular [Byte.x00])
                    (take k [Byte.x41; Byte.x42; Byte.x43])) /\
    get_inode (fs (os (snd r))) true "/a" =
      inr (1%nat, Ex.regular [Byte.x41; Byte.x42; Byte.x43]) /\
    ((fst r = Ok "/b"%string /\
      take k [Byte.x41; Byte.x42; Byte.x43] = [Byte.x41; Byte.x42; Byte.x43]) \/
     (exists buf f, Ex2.disk_full (Write 2 buf) = Some f /\
                    fst r = Raise (exn_of_fault f))).
Proof.
  apply (copyfile_refused_write Ex.linux 4 "/b" (Ex2.start_full "/a") 1%nat
           (Ex.regular [Byte.x41; Byte.x42; Byte.x43]) 2%nat (Ex.regular [Byte.x00])).
  - intros c Hc. destruct c; try reflexivity. by destruct Hc.
  - vm_compute. reflexivity.
  - reflexivity.
  - vm_compute. reflexivity.
  - reflexivity.
  - lia.
  - cbn. lia.
Defined.

(** X3 on the concrete file system: with a full disk the call fails with
    [ENOSPC] and leaves [/b] empty. *)
Example copyfile_disk_full :
  let r := copyfile Ex.linux 4 "/b" false true (Ex2.start_full "/a") in
  fst r = Raise (OSError ENOSPC) /\
  get_inode (fs (os (snd r))) true "/b" = inr (2%nat, with_data (Ex.regular [Byte.x00]) []).
Proof. split; vm_compute; reflexivity. Qed.

Lemma open_wb_create p s :
  faults (os s) (OpenW p) = None ->
  names (fs (os s)) !! p = None ->
  open_wb p s =
    (Ok (mkHandle (new_ino (fs (os s))) 0),
     mkState (obj s)
       (mkWorld (mkFs (<[p := new_ino (fs (os s))]> (names (fs (os s))))
                      (<[new_ino (fs (os s)) := new_inode (Z.lor S_IFREG 0x1A4) ""]>
                         (inodes (fs (os s)))))
                (faults (os s)) (OpenW p :: log (os s)))).
Proof.
  intros Hf Hn. unfold open_wb. rewrite sys_run by done.
  unfold locate, MAXSYMLINKS. cbn [walk]. by rewrite Hn.
Qed.

(** A path that resolved still resolves, to the same file, after a new
    name has been bound to a new inode. *)
Lemma walk_create f (B : string) new nd fuel p q i :
  names f !! B = None -> inodes f !! new = None ->
  walk fuel f p = inr (q, Some i) ->
  walk fuel (mkFs (<[B := new]> (names f)) (<[new := nd]> (inodes f))) p = inr (q, Some i).
Proof.
  intros HB Hnew. revert p. induction fuel as [|fuel IH]; intros p; cbn;
    destruct (names f !! p) as [j|] eqn:Hp; try done;
    (rewrite lookup_insert_ne by (intros ->; by rewrite HB in Hp)); rewrite Hp;
    destruct (inodes f !! j) as [x|] eqn:Hj; try done;
    (rewrite lookup_insert_ne by (intros ->; by rewrite Hnew in Hj)); rewrite Hj;
    destruct (S_ISLNK (i_mode x)); try done.
  apply IH.
Qed.

Lemma get_inode_create f (B : string) new nd p i x :
  names f !! B = None -> inodes f !! new = None ->
  get_inode f true p = inr (i, x) ->
  get_inode (mkFs (<[B := new]> (names f)) (<[new := nd]> (inodes f))) true p = inr (i, x).
Proof.
  intros HB Hnew Hg. destruct (get_inode_locate _ _ _ _ _ Hg) as (q & Hl & Hi).
  unfold get_inode, resolve, locate in *. erewrite walk_create by done. cbn.
  rewrite lookup_insert_ne by (intros ->; by rewrite Hnew in Hi). by rewrite Hi.
Qed.

(** A name bound to a file that is not a symbolic link resolves to it. *)
Lemma get_inode_direct f fl p i nd :
  names f !! p = Some i -> inodes f !! i = Some nd -> S_ISLNK (i_mode nd) = false ->
  get_inode f fl p = inr (i, nd).
Proof.
  intros Hp Hi Hl. unfold get_inode, resolve, locate.
  destruct fl; [change MAXSYMLINKS with (S 39); cbn [walk]|]; by rewrite Hp, Hi, ?Hl, ?Hi.
Qed.

Section Creation.
Context (hst : host).

(** X6.  [copyfile] to a path that does not exist, from a regular file,
    with [follow_symlinks] true and without [copy_meta], on a host that
    refuses no call: the call returns the destination, which now names a
    new regular file with the bytes of the source; every file that
    existed, the source among them, is as it was. *)
Theorem copyfile_creates fuel (B : string) s iA ndA :
  faultless (os s) ->
  get_inode (fs (os s)) true (source_path (obj s)) = inr (iA, ndA) ->
  S_ISREG (i_mode ndA) = true ->
  names (fs (os s)) !! B = None ->
  (length (i_data ndA) < fuel)%nat ->
  let r := copyfile hst fuel B false true s in
  let new := new_ino (fs (os s)) in
  fst r = Ok B /\
  (exists nd', get_inode (fs (os (snd r))) true B = inr (new, nd') /\
               S_ISREG (i_mode nd') = true /\ i_data nd' = i_data ndA) /\
  inodes (fs (os s)) !! new = None /\
  (forall i nd, inodes (fs (os s)) !! i = Some nd ->
                inodes (fs (os (snd r))) !! i = Some nd) /\
  get_inode (fs (os (snd r))) true (source_path (obj s)) = inr (iA, ndA).
Proof.
  intros Hf HiA HrA HB Hfuel. cbv zeta.
  set (A := source_path (obj s)) in *.
  destruct (copyfile_validated hst fuel B false true s (faultless_stat _ Hf))
    as (e0 & He0 & Hrun).
  cbv zeta in Hrun. fold A in Hrun.
  pose proof (get_inode_absent (fs (os s)) true B HB) as HgB.
  assert (He : effective_dst (fs (os s)) A B = B).
  { unfold effective_dst, is_dir. by rewrite HgB. }
  assert (Hs : same_file (fs (os s)) A B = false).
  { unfold same_file. by rewrite HiA, HgB. }
  assert (HpA : is_fifo (fs (os s)) A = false).
  { unfold is_fifo. by rewrite HiA, (S_ISREG_not_fifo _ HrA). }
  assert (HpB : is_fifo (fs (os s)) B = false).
  { unfold is_fifo. by rewrite HgB. }
  rewrite He, Hs, HpA, HpB in Hrun. rewrite Hrun. clear Hrun.
  pose proof (get_inode_Some _ _ _ _ _ HiA) as HnA.
  pose proof (new_ino_fresh (fs (os s))) as Hnew.
  set (new := new_ino (fs (os s))) in *.
  set (nd0 := new_inode (Z.lor S_IFREG 0x1A4) "").
  set (s0 := logged e0 (retarget B s)).
  set (f1 := mkFs (<[B := new]> (names (fs (os s)))) (<[new := nd0]> (inodes (fs (os s))))).
  set (s1 := mkState (obj s0)
               (mkWorld f1 (faults (os s)) (OpenW B :: OpenR A :: log (os s0)))).
  assert (Hne : iA <> new) by (intros ->; by rewrite Hnew in HnA).
  destruct (copyfileobj_run default_length iA new ndA default_length_pos Hne
              fuel 0%nat [] nd0 s1) as (evs & Htr & Hloop).
  { done. }
  { cbn. by rewrite lookup_insert_ne. }
  { cbn. by rewrite lookup_insert_eq. }
  { done. }
  { by rewrite drop_0. }
  rewrite drop_0 in Hloop. cbn [length app] in Hloop.
  assert (Htransfer : transfer hst fuel true s0 =
            copyfileobj fuel (mkHandle iA 0) (mkHandle new 0) default_length s1).
  { unfold transfer. erewrite bind_ok by reflexivity. erewrite bind_ok by reflexivity.
    cbv beta iota.
    erewrite bind_ok by (apply open_rb_run with (nd := ndA);
                         [apply Hf|exact HiA|by apply S_ISREG_not_dir]).
    erewrite bind_ok by reflexivity.
    by erewrite bind_ok by (apply open_wb_create; [apply Hf|exact HB]). }
  unfold bind. rewrite Htransfer, Hloop. unfold ret. cbn [fst snd os fs s1 f1].
  split; [done|].
  assert (Hf2 : set_inode f1 new (with_data nd0 (i_data ndA)) =
                mkFs (<[B := new]> (names (fs (os s))))
                     (<[new := with_data nd0 (i_data ndA)]> (inodes (fs (os s))))).
  { unfold set_inode, f1; cbn. by rewrite insert_insert_eq. }
  fold f1. rewrite Hf2. split; [|split; [done|split]].
  - exists (with_data nd0 (i_data ndA)). split; [|done].
    apply get_inode_direct; cbn; by rewrite ?lookup_insert_eq.
  - intros i nd Hi. cbn. rewrite lookup_insert_ne; [done|].
    intros <-. by rewrite Hnew in Hi.
  - by apply get_inode_create.
Qed.
End Creation.

Lemma copyfile_creates_witness :
  let r := copyfile Ex.linux 4 "/new" false true (Ex.start "/a") in
  let new := new_ino Ex.files in
  fst r = Ok "/new"%string /\
  (exists nd', get_inode (fs (os (snd r))) true "/new" = inr (new, nd') /\
               S_ISREG (i_mode nd') = true /\
               i_data nd' = [Byte.x41; Byte.x42; Byte.x43]) /\
  inodes Ex.files !! new = None /\
  (forall i nd, inodes Ex.files !! i = Some nd ->
                inodes (fs (os (snd r))) !! i = Some nd) /\
  get_inode (fs (os (snd r))) true "/a" =
    inr (1%nat, Ex.regular [Byte.x41; Byte.x42; Byte.x43]).
Proof.
  apply (copyfile_creates Ex.linux 4 "/new" (Ex.start "/a") 1%nat
           (Ex.regular [Byte.x41; Byte.x42; Byte.x43])).
  - intros c. reflexivity.
  - vm_compute. reflexivity.
  - reflexivity.
  - vm_compute. reflexivity.
  - cbn. lia.
Defined.

(** X1.  [copyfileobj] between two different files on a host that
    refuses no call, for every positive chunk length: it copies what the
    source has from its current position on and puts it at the
    position of the destination, here its end; the result does not
    depend on the chunk length. *)
Theorem copyfileobj_appends n fuel pos iA iB ndA ndB s :
  (0 < n)%nat -> iA <> iB ->
  faultless (os s) ->
  inodes (fs (os s)) !! iA = Some ndA ->
  inodes (fs (os s)) !! iB = Some ndB ->
  (length (drop pos (i_data ndA)) < fuel)%nat ->
  let r := copyfileobj fuel (mkHandle iA pos) (mkHandle iB (length (i_data ndB))) n s in
  fst r = Ok tt /\
  fs (os (snd r)) =
    set_inode (fs (os s)) iB (with_data ndB (i_data ndB ++ drop pos (i_data ndA))).
Proof.
  intros Hn Hne Hf HA HB Hfuel. cbv zeta.
  destruct (copyfileobj_run n iA iB ndA Hn Hne fuel pos (i_data ndB) ndB s)
    as (evs & _ & ->); done.
Qed.

Lemma copyfileobj_appends_witness :
  let r := copyfileobj 4 (mkHandle 1 1) (mkHandle 2 1) 1 (Ex.start "/a") in
  fst r = Ok tt /\
  fs (os (snd r)) =
    set_inode Ex.files 2
      (with_data (Ex.regular [Byte.x00])
         ([Byte.x00] ++ drop 1 [Byte.x41; Byte.x42; Byte.x43])).
Proof.
  apply (copyfileobj_appends 1 4 1 1 2 (Ex.regular [Byte.x41; Byte.x42; Byte.x43])
           (Ex.regular [Byte.x00]) (Ex.start "/a")).
  - lia.
  - lia.
  - intros c. reflexivity.
  - vm_compute. reflexivity.
  - vm_compute. reflexivity.
  - cbn. lia.
Defined.

(** X2.  [copyfileobj] with chunk length 0: [read(0)] returns nothing,
    so the loop ends at once; one read is made, nothing is written and
    no error is raised, whatever the source holds. *)
Theorem copyfileobj_zero_length fuel fsrc fdst s nd :
  faults (os s) (Read (h_ino fsrc) 0) = None ->
  inodes (fs (os s)) !! h_ino fsrc = Some nd ->
  copyfileobj (S fuel) fsrc fdst 0 s = (Ok tt, logged [Read (h_ino fsrc) 0] s).
Proof.
  intros Hf Hi. cbn [copyfileobj].
  by erewrite bind_ok by (by apply f_read_run with (nd := nd)).
Qed.

Lemma copyfileobj_zero_length_witness :
  copyfileobj 1 (mkHandle 1 0) (mkHandle 2 0) 0 (Ex.start "/a") =
    (Ok tt, logged [Read 1 0] (Ex.start "/a")).
Proof.
  apply (copyfileobj_zero_length 0 (mkHandle 1 0) (mkHandle 2 0) (Ex.start "/a")
           (Ex.regular [Byte.x41; Byte.x42; Byte.x43])).
  - reflexivity.
  - vm_compute. reflexivity.
Defined.

Lemma open_rb_missing p s e :
  faults (os s) (OpenR p) = None ->
  get_inode (fs (os s)) true p = inl e ->
  open_rb p s = (Raise (OSError e), logged [OpenR p] s).
Proof.
  intros Hf Hg. unfold open_rb. rewrite sys_run by done. unfold query; cbn.
  by rewrite Hg.
Qed.

Section MissingSource.
Context (hst : host).

(** X4.  A source that [stat] and [open] cannot reach (a missing path, a
    dangling link, a loop of links), with [follow_symlinks] true: the
    call fails with the error of [open(source, 'rb')], which comes first,
    so the destination is neither created nor emptied. *)
Theorem copyfile_missing_source fuel (B : string) cm s e :
  stat_faultless (os s) ->
  faults (os s) (OpenR (source_path (obj s))) = None ->
  get_inode (fs (os s)) true (source_path (obj s)) = inl e ->
  is_fifo (fs (os s)) B = false ->
  exists s',
    copyfile hst fuel B cm true s = (Raise (OSError e), s') /\
    fs (os s') = fs (os s).
Proof.
  intros Hf Ho Hg Hp.
  destruct (copyfile_validated hst fuel B cm true s Hf) as (e0 & He0 & Hrun).
  cbv zeta in Hrun.
  assert (Hs : same_file (fs (os s)) (source_path (obj s))
                 (effective_dst (fs (os s)) (source_path (obj s)) B) = false).
  { unfold same_file. by rewrite Hg. }
  assert (HpA : is_fifo (fs (os s)) (source_path (obj s)) = false).
  { unfold is_fifo. by rewrite Hg. }
  rewrite Hs, HpA, Hp in Hrun. rewrite Hrun. clear Hrun.
  eexists. split; [|shelve]. apply bind_raise. unfold transfer.
  erewrite bind_ok by reflexivity. erewrite bind_ok by reflexivity. cbv beta iota.
  apply bind_raise. apply open_rb_missing; [exact Ho|exact Hg].
  Unshelve. done.
Qed.
End MissingSource.

Lemma copyfile_missing_source_witness :
  exists s',
    copyfile Ex.linux 4 "/b" true true (Ex.start "/nowhere") =
      (Raise (OSError ENOENT), s') /\
    fs (os s') = fs (os (Ex.start "/nowhere")).
Proof.
  apply (copyfile_missing_source Ex.linux 4 "/b" true (Ex.start "/nowhere") ENOENT).
  - intros p fl. reflexivity.
  - reflexivity.
  - vm_compute. reflexivity.
  - vm_compute. reflexivity.
Defined.

Section SameFileHelper.
Context (hst : host).

(** X7.  [_samefile] never raises an [OSError]: when either [stat]
    fails, with whatever error number, the answer is [False]; otherwise
    it is whether the two calls report the same inode, so two names of
    one file, or a link and its file, are the same.  Only [stat] calls
    are made. *)
Theorem _samefile_answer dst s :
  (forall p, faults (os s) (Stat p true) <> Some Unimplemented) ->
  exists evs, Forall stat_call evs /\
    _samefile hst dst s =
      (Ok (match stat_answer (os s) (source_path (obj s)), stat_answer (os s) dst with
           | Some i, Some j => Nat.eqb i j
           | _, _ => false
           end),
       logged evs s).
Proof.
  intros Hf. unfold _samefile, get_self, or_on_OSError, try_except, samefile, stat_answer.
  unfold bind at 1. unfold bind at 1. unfold os_stat at 1.
  pose proof (Hf (source_path (obj s))) as Ha. pose proof (Hf dst) as Hb.
  destruct (faults (os s) (Stat (source_path (obj s)) true)) as [[e|]|] eqn:Hfa;
    [| done |].
  { erewrite sys_fault by done. cbn.
    exists [Stat (source_path (obj s)) true]. split; [by repeat constructor|done]. }
  rewrite sys_run by done. unfold query; cbn [fst snd].
  destruct (get_inode (fs (os s)) true (source_path (obj s))) as [e|[i nd]]; cbn.
  { exists [Stat (source_path (obj s)) true]. split; [by repeat constructor|].
    by destruct (faults (os s) (Stat dst true)), (get_inode (fs (os s)) true dst)
         as [?|[??]]. }
  unfold bind. unfold os_stat.
  destruct (faults (os s) (Stat dst true)) as [[e|]|] eqn:Hfb; [| done |].
  { erewrite sys_fault by (cbn; exact Hfb). cbn.
    exists [Stat dst true; Stat (source_path (obj s)) true].
    split; [by repeat constructor|done]. }
  rewrite sys_run by (cbn; exact Hfb). unfold query; cbn.
  exists [Stat dst true; Stat (source_path (obj s)) true].
  split; [by repeat constructor|].
  by destruct (get_inode (fs (os s)) true dst) as [e|[j nd']].
Qed.
End SameFileHelper.

Lemma _samefile_answer_witness :
  exists evs, Forall stat_call evs /\
    _samefile Ex.linux "/l" (Ex.start "/h") =
      (Ok (match stat_answer Ex.world0 "/h", stat_answer Ex.world0 "/l" with
           | Some i, Some j => Nat.eqb i j
           | _, _ => false
           end),
       logged evs (Ex.start "/h")).
Proof.
  apply (_samefile_answer Ex.linux "/l" (Ex.start "/h")).
  intros p. discriminate.
Defined.

(** X7 on the concrete file system: the other name [/h] of [/a] and the
    link [/l] to it are the same file; a missing path is the same as
    nothing. *)
Example samefile_examples :
  fst (_samefile Ex.linux "/l" (Ex.start "/h")) = Ok true /\
  fst (_samefile Ex.linux "/b" (Ex.start "/a")) = Ok false /\
  fst (_samefile Ex.linux "/nowhere" (Ex.start "/nowhere")) = Ok false.
Proof. repeat split; vm_compute; reflexivity. Qed.

(** ** The source is never written *)

Lemma f_read_frame fd n s r s' :
  f_read fd n s = (r, s') ->
  fs (os s') = fs (os s) /\
  (forall buf fd', r = Ok (buf, fd') -> h_ino fd' = h_ino fd).
Proof.
  unfold f_read, sys, query. destruct (faults (os s) _); [by intros [= <- <-]|].
  destruct (inodes (fs (os s)) !! h_ino fd); cbn; intros [= <- <-]; [|done].
  split; [done|]. by intros buf fd' [= _ <-].
Qed.

Lemma f_write_frame fd buf s r s' i :
  f_write fd buf s = (r, s') -> i <> h_ino fd ->
  inodes (fs (os s')) !! i = inodes (fs (os s)) !! i /\
  (forall fd', r = Ok fd' -> h_ino fd' = h_ino fd).
Proof.
  unfold f_write, sys. intros H Hi. destruct (faults (os s) _); [by injection H as <- <-|].
  destruct (inodes (fs (os s)) !! h_ino fd); cbn in H; injection H as <- <-; [|done].
  cbn. split; [by rewrite lookup_insert_ne|]. by intros fd' [= <-].
Qed.

Lemma copyfileobj_frame iA ndA n fuel :
  forall fsrc fdst s,
    h_ino fdst <> iA ->
    inodes (fs (os s)) !! iA = Some ndA ->
    inodes (fs (os (snd (copyfileobj fuel fsrc fdst n s)))) !! iA = Some ndA.
Proof.
  induction fuel as [|fuel IH]; intros fsrc fdst s Hd HA; [done|].
  cbn [copyfileobj]. unfold bind at 1.
  destruct (f_read fsrc n s) as [[[buf fd']|x|] s1] eqn:Hr;
    destruct (f_read_frame _ _ _ _ _ Hr) as [Hfs _]; cbn [fst snd]; try by rewrite Hfs.
  destruct buf as [|b buf]; [cbn; by rewrite Hfs|].
  unfold bind. destruct (f_write fdst (b :: buf) s1) as [[fd2|x|] s2] eqn:Hw;
    destruct (f_write_frame _ _ _ _ _ iA Hw) as [Hi Hh]; try done;
    cbn [fst snd]; try by rewrite Hi, Hfs.
  apply IH; [by rewrite (Hh fd2 eq_refl)|by rewrite Hi, Hfs].
Qed.

Lemma open_wb_frame p s r s' iA ndA :
  open_wb p s = (r, s') ->
  inodes (fs (os s)) !! iA = Some ndA ->
  (forall q, locate (fs (os s)) true p <> inr (q, Some iA)) ->
  inodes (fs (os s')) !! iA = Some ndA /\ (forall fd, r = Ok fd -> h_ino fd <> iA).
Proof.
  unfold open_wb, sys. intros H HA Hl.
  destruct (faults (os s) _); [by injection H as <- <-|].
  destruct (locate (fs (os s)) true p) as [e|[q [i|]]] eqn:Hq; cbn in H.
  - by injection H as <- <-.
  - assert (Hne : i <> iA) by (intros ->; by apply (Hl q)).
    destruct (inodes (fs (os s)) !! i) as [nd|]; cbn in H; [|by injection H as <- <-].
    destruct (S_ISDIR (i_mode nd)); cbn in H; [by injection H as <- <-|].
    destruct (S_ISREG (i_mode nd)); cbn in H; injection H as <- <-; cbn.
    + split; [by rewrite lookup_insert_ne|]. by intros fd [= <-].
    + split; [done|]. by intros fd [= <-].
  - injection H as <- <-. cbn.
    assert (Hne : new_ino (fs (os s)) <> iA).
    { intros Heq. pose proof (new_ino_fresh (fs (os s))) as Hn. by rewrite Heq, HA in Hn. }
    split; [by rewrite lookup_insert_ne|]. by intros fd [= <-].
Qed.

Lemma os_symlink_frame t p s r s' iA ndA :
  os_symlink t p s = (r, s') ->
  inodes (fs (os s)) !! iA = Some ndA ->
  inodes (fs (os s')) !! iA = Some ndA.
Proof.
  unfold os_symlink, sys. intros H HA.
  destruct (faults (os s) _); [by injection H as <- <-|].
  destruct (locate (fs (os s)) false p) as [e|[q [i|]]]; cbn in H;
    injection H as <- <-; try done.
  cbn. rewrite lookup_insert_ne; [done|].
  intros Heq. pose proof (new_ino_fresh (fs (os s))) as Hn. by rewrite Heq, HA in Hn.
Qed.

Section SourceFrame.
Context (hst : host).

Lemma islink_fs p s : fs (os (snd (islink hst p s))) = fs (os s).
Proof.
  destruct (sat_islink hst any_call no_step any_exn) with (p := p) (s := s)
    as [(_ & _ & _ & H%rtc_no_step) _]; done.
Qed.

(** Lines 92-97 leave alone every file that the destination path does
    not lead to. *)
Lemma transfer_frame fuel fl s tp iA ndA :
  target_path (obj s) = Some tp ->
  inodes (fs (os s)) !! iA = Some ndA ->
  (forall q, locate (fs (os s)) true tp <> inr (q, Some iA)) ->
  inodes (fs (os (snd (transfer hst fuel fl s)))) !! iA = Some ndA.
Proof.
  intros Ht HA Hl. unfold transfer. erewrite bind_ok by reflexivity.
  assert (Hcopy : forall s1, fs (os s1) = fs (os s) -> obj s1 = obj s ->
             inodes (fs (os (snd ((fsrc <- open_rb (source_path (obj s)) ;;
                                   tp <- get_target_path ;;
                                   fdst <- open_wb tp ;;
                                   copyfileobj fuel fsrc fdst default_length) s1))))
               !! iA = Some ndA).
  { intros s1 Hfs Hobj. unfold bind at 1.
    pose proof (query_state (OpenR (source_path (obj s)))
                  (fun f => match get_inode f true (source_path (obj s)) with
                            | inl e => inl e
                            | inr (i, nd) =>
                                if S_ISDIR (i_mode nd) then inl EISDIR
                                else inr (mkHandle i 0)
                            end) s1) as Hq.
    fold (open_rb (source_path (obj s))) in Hq.
    destruct (open_rb (source_path (obj s)) s1) as [[fsrc|x|] s2]; cbn in Hq; subst s2;
      cbn [fst snd logged os fs]; try by rewrite Hfs.
    erewrite bind_ok by (unfold get_target_path; cbn; by rewrite Hobj, Ht).
    unfold bind.
    destruct (open_wb tp (logged [OpenR (source_path (obj s))] s1))
      as [[fdst|x|] s3] eqn:Ho;
      destruct (open_wb_frame _ _ _ _ iA ndA Ho) as [Hi Hh];
      try (cbn; by rewrite Hfs); try done.
    apply copyfileobj_frame; [by apply Hh|done]. }
  destruct fl.
  { erewrite bind_ok by reflexivity. cbv beta iota. by apply Hcopy. }
  unfold bind at 1.
  pose proof (islink_fs (source_path (obj s)) s) as Hfs.
  assert (Hobj : obj (snd (islink hst (source_path (obj s)) s)) = obj s).
  { destruct (sat_islink hst any_call any_step any_exn)
      with (p := source_path (obj s)) (s := s) as [(H & _) _]; done. }
  destruct (islink hst (source_path (obj s)) s) as [[[|]|x|] s1];
    cbn [fst snd] in *; try by rewrite Hfs.
  2:{ by apply Hcopy. }
  unfold bind at 1.
  pose proof (query_state (Readlink (source_path (obj s)))
                (fun f => match get_inode f false (source_path (obj s)) with
                          | inl e => inl e
                          | inr (_, nd) =>
                              if S_ISLNK (i_mode nd) then inr (i_target nd) else inl EINVAL
                          end) s1) as Hq.
  fold (os_readlink (source_path (obj s))) in Hq.
  destruct (os_readlink (source_path (obj s)) s1) as [[t|x|] s2]; cbn in Hq; subst s2;
    cbn [fst snd logged os fs]; try by rewrite Hfs.
  erewrite bind_ok by (unfold get_target_path; cbn; by rewrite Hobj, Ht).
  destruct (os_symlink t tp (logged [Readlink (source_path (obj s))] s1))
    as [r s3] eqn:Hsl.
  eapply os_symlink_frame; [exact Hsl|]. cbn. by rewrite Hfs.
Qed.

(** X5.  [copyfile] never changes the bytes of its source: for a source
    that is an existing file (not a directory), whatever the destination
    and the two flags are, whatever the host refuses besides [stat], and
    however the call ends, the source file holds the same bytes
    afterwards. *)
Theorem copyfile_keeps_source fuel (B : string) cm fl s iA ndA :
  stat_faultless (os s) ->
  get_inode (fs (os s)) true (source_path (obj s)) = inr (iA, ndA) ->
  S_ISDIR (i_mode ndA) = false ->
  exists nd',
    inodes (fs (os (snd (copyfile hst fuel B cm fl s)))) !! iA = Some nd' /\
    i_data nd' = i_data ndA.
Proof.
  intros Hf HiA Hd.
  set (A := source_path (obj s)) in *.
  pose proof (get_inode_Some _ _ _ _ _ HiA) as HnA.
  destruct (copyfile_validated hst fuel B cm fl s Hf) as (e0 & He0 & Hrun).
  cbv zeta in Hrun. fold A in Hrun.
  destruct (same_file (fs (os s)) A (effective_dst (fs (os s)) A B)) eqn:Hs.
  { rewrite Hrun. by exists ndA. }
  destruct (is_fifo (fs (os s)) A); [rewrite Hrun; by exists ndA|].
  destruct (is_fifo (fs (os s)) B); [rewrite Hrun; by exists ndA|].
  rewrite Hrun. clear Hrun.
  set (s0 := logged e0 (retarget B s)).
  assert (Hl : forall q, locate (fs (os s0)) true B <> inr (q, Some iA)).
  { intros q Hq. change (fs (os s0)) with (fs (os s)) in Hq.
    assert (HgB : get_inode (fs (os s)) true B = inr (iA, ndA)).
    { unfold get_inode, resolve. by rewrite Hq, HnA. }
    unfold effective_dst, is_dir, same_file in Hs. rewrite HgB, Hd, HiA, HgB in Hs.
    by rewrite Nat.eqb_refl in Hs. }
  pose proof (transfer_frame fuel fl s0 B iA ndA eq_refl HnA Hl) as Ht.
  unfold bind at 1.
  destruct (transfer hst fuel fl s0) as [[[]|x|] s2]; cbn [fst snd] in *;
    try by exists ndA.
  destruct cm.
  - destruct (sat_copy_metadata hst any_call keeps_shape any_exn)
      with (dst := effective_dst (fs (os s)) A B) (fl := fl) (s := s2)
      as [(_ & _ & _ & [_ Hk]%rtc_keeps_shape) _]; try done.
    { intros. by eapply keeps_shape_set_inode. }
    specialize (Hk iA). rewrite Ht in Hk.
    set (r := copy_metadata hst (effective_dst (fs (os s)) A B) fl s2) in *.
    assert (Hsnd : snd (bind (fun s => r)
                          (fun _ => ret (effective_dst (fs (os s)) A B)) s2) = snd r).
    { unfold bind. by destruct r as [[[]|x|] s3]. }
    change (snd ((copy_metadata hst (effective_dst (fs (os s)) A B) fl;;
                  ret (effective_dst (fs (os s)) A B)) s2))
      with (snd (bind (fun s => r) (fun _ => ret (effective_dst (fs (os s)) A B)) s2)).
    rewrite Hsnd.
    destruct (inodes (fs (os (snd r))) !! iA) as [nd'|]; [|done].
    exists nd'. split; [done|]. by destruct Hk.
  - erewrite bind_ok by reflexivity. by exists ndA.
Qed.
End SourceFrame.

Lemma copyfile_keeps_source_witness :
  exists nd',
    inodes (fs (os (snd (copyfile Ex.linux 4 "/b" true true (Ex2.start_full "/a")))))
      !! 1%nat = Some nd' /\
    i_data nd' = i_data (Ex.regular [Byte.x41; Byte.x42; Byte.x43]).
Proof.
  apply (copyfile_keeps_source Ex.linux 4 "/b" true true (Ex2.start_full "/a")).
  - intros p fl. reflexivity.
  - vm_compute. reflexivity.
  - reflexivity.
Defined.

(** ** Copying extended attributes *)

Lemma xattr_get_set_eq name v l : xattr_get name (xattr_set name v l) = Some v.
Proof.
  induction l as [|[k w] l IH]; cbn.
  - by rewrite String.eqb_refl.
  - destruct (String.eqb k name) eqn:Hk; cbn; by rewrite Hk.
Qed.

Lemma xattr_get_set_ne name name' v l :
  name' <> name -> xattr_get name' (xattr_set name v l) = xattr_get name' l.
Proof.
  intros Hne. induction l as [|[k w] l IH]; cbn.
  - destruct (String.eqb name name') eqn:Hk; [|done].
    apply String.eqb_eq in Hk. by subst.
  - destruct (String.eqb k name) eqn:Hk; cbn; [|by rewrite IH].
    apply String.eqb_eq in Hk. subst k.
    destruct (String.eqb name name') eqn:Hk; [|done].
    apply String.eqb_eq in Hk. by subst.
Qed.

Lemma xattr_get_Some_in name v l : xattr_get name l = Some v -> name ∈ map fst l.
Proof.
  induction l as [|[k w] l IH]; cbn; [done|].
  destruct (String.eqb k name) eqn:Hk.
  - apply String.eqb_eq in Hk. subst k. intros _. by left.
  - intros H. right. by apply IH.
Qed.

Lemma copied_xattr_Some xs name v :
  xattr_get name xs = Some v ->
  forall ns acc,
    name ∈ ns \/ xattr_get name acc = Some v ->
    xattr_get name (copied_xattr xs ns acc) = Some v.
Proof.
  intros Hx. induction ns as [|n ns IH]; intros acc [Hin|Hacc]; cbn.
  - by apply elem_of_nil in Hin.
  - done.
  - apply IH. destruct (decide (n = name)) as [->|Hne].
    + right. rewrite Hx. apply xattr_get_set_eq.
    + left. apply elem_of_cons in Hin as [->|Hin]; done.
  - apply IH. right. destruct (decide (n = name)) as [->|Hne].
    + rewrite Hx. apply xattr_get_set_eq.
    + destruct (xattr_get n xs); [|done]. by rewrite xattr_get_set_ne.
Qed.

Lemma copied_xattr_None xs name :
  xattr_get name xs = None ->
  forall ns acc, xattr_get name (copied_xattr xs ns acc) = xattr_get name acc.
Proof.
  intros Hx. unfold copied_xattr. induction ns as [|n ns IH]; intros acc; cbn; [done|].
  rewrite IH. destruct (decide (n = name)) as [->|Hne].
  - by rewrite Hx.
  - destruct (xattr_get n xs); [|done]. by rewrite xattr_get_set_ne.
Qed.

Lemma with_xattr_id nd : with_xattr nd (i_xattr nd) = nd.
Proof. by destruct nd. Qed.

Lemma update_run c fl p g s i nd :
  faults (os s) c = None ->
  get_inode (fs (os s)) fl p = inr (i, nd) ->
  sys c (update fl p g) s =
    (Ok tt,
     mkState (obj s)
       (mkWorld (set_inode (fs (os s)) i (g nd)) (faults (os s)) (c :: log (os s)))).
Proof.
  intros Hf Hg. rewrite sys_run by done. unfold update. by rewrite Hg.
Qed.

(** Rewriting an inode without touching its type bits or link text does
    not change what any path resolves to. *)
Lemma get_inode_set_inode_shape f i nd nd' fl p j x :
  inodes f !! i = Some nd ->
  i_data nd' = i_data nd -> i_target nd' = i_target nd ->
  S_IFMT (i_mode nd') = S_IFMT (i_mode nd) ->
  get_inode f fl p = inr (j, x) ->
  get_inode (set_inode f i nd') fl p = inr (j, if decide (j = i) then nd' else x).
Proof.
  intros Hi Hd Ht Hm Hg.
  pose proof (keeps_shape_set_inode f i nd nd' Hi Hd Ht Hm) as Hk.
  destruct (get_inode_locate _ _ _ _ _ Hg) as (q & Hl & Hj).
  assert (Hl' : locate (set_inode f i nd') fl p = locate f fl p).
  { unfold locate. destruct fl; [by apply walk_keeps_shape|].
    destruct Hk as [Hn Hk]. rewrite Hn. destruct (names f !! p) as [k|]; [|done].
    specialize (Hk k). by destruct (inodes f !! k), (inodes (set_inode f i nd') !! k). }
  unfold get_inode, resolve. rewrite Hl', Hl. cbn.
  destruct (decide (j = i)) as [->|Hne];
    [by rewrite lookup_insert_eq | by rewrite lookup_insert_ne, Hj].
Qed.

Section XattrCopy.
Context (hst : host) (src dst : string) (fl : bool).
Context (iS iD : nat) (ndS : inode).
Hypothesis Hne : iS <> iD.

(** The loop of lines 63-70 on a host that refuses no call, or none but
    [os.chmod] and [os.chflags]. *)
Lemma copyxattr_names_run ns :
  forall ndD s,
    only_mode_refused (os s) ->
    get_inode (fs (os s)) fl src = inr (iS, ndS) ->
    get_inode (fs (os s)) fl dst = inr (iD, ndD) ->
    exists evs,
      copyxattr_names src dst fl ns s =
        (Ok tt,
         mkState (obj s)
           (mkWorld (set_inode (fs (os s)) iD
                       (with_xattr ndD (copied_xattr (i_xattr ndS) ns (i_xattr ndD))))
                    (faults (os s)) (evs ++ log (os s)))).
Proof.
  induction ns as [|name rest IH]; intros ndD s Hf HS HD.
  - exists []. cbn. rewrite with_xattr_id, set_inode_id by eauto using get_inode_Some.
    by destruct s as [o [f fa l]].
  - cbn [copyxattr_names]. unfold try_except, tolerate. unfold bind at 1. unfold bind at 1.
    unfold os_getxattr. rewrite sys_run by (apply Hf; intros []). unfold query. cbn [fst snd].
    rewrite HS. cbn [copied_xattr fold_left].
    destruct (xattr_get name (i_xattr ndS)) as [v|] eqn:Hx.
    + unfold os_setxattr. erewrite update_run by ((apply Hf; intros []) || exact HD). cbn [fst snd].
      set (nd1 := with_xattr ndD (xattr_set name v (i_xattr ndD))).
      destruct (IH nd1
                  (mkState (obj s)
                     (mkWorld (set_inode (fs (os s)) iD nd1) (faults (os s))
                        (Setxattr dst name v fl :: Getxattr src name fl :: log (os s)))))
        as (evs & Hrun).
      * done.
      * cbn. erewrite get_inode_set_inode_shape by eauto using get_inode_Some.
        by rewrite decide_False.
      * cbn. erewrite get_inode_set_inode_shape by eauto using get_inode_Some.
        by rewrite decide_True.
      * exists (evs ++ [Setxattr dst name v fl; Getxattr src name fl]).
        etrans; [exact Hrun|]. cbn [obj os fs faults log].
        by rewrite set_inode_twice, <- app_assoc.
    + cbn [is_OSError exn_errno errno_in existsb].
      change (ENODATA =? EPERM) with false. change (ENODATA =? ENOTSUP) with false.
      change (ENODATA =? ENODATA) with true. cbn [orb ret].
      destruct (IH ndD (logged [Getxattr src name fl] s)) as (evs & Hrun); try done.
      exists (evs ++ [Getxattr src name fl]).
      etrans; [exact Hrun|]. cbn. by rewrite <- app_assoc.
Qed.

(** X8.  [_copyxattr] on a host that has [os.listxattr] and refuses no
    call, from a source to a destination that are different files: it
    succeeds and changes nothing but the extended attributes of the
    destination; afterwards every attribute of the source is on the
    destination with the source's value (an existing value is
    overwritten), and an attribute that the source does not have is on
    the destination as it was before. *)
Theorem _copyxattr_copies ndD s :
  has_listxattr hst = true ->
  source_path (obj s) = src ->
  faultless (os s) ->
  get_inode (fs (os s)) fl src = inr (iS, ndS) ->
  get_inode (fs (os s)) fl dst = inr (iD, ndD) ->
  exists s' xs',
    _copyxattr hst dst fl s = (Ok tt, s') /\
    fs (os s') = set_inode (fs (os s)) iD (with_xattr ndD xs') /\
    (forall name v, xattr_get name (i_xattr ndS) = Some v -> xattr_get name xs' = Some v) /\
    (forall name, xattr_get name (i_xattr ndS) = None ->
                  xattr_get name xs' = xattr_get name (i_xattr ndD)).
Proof.
  intros Hh Hsrc Hf HS HD. unfold _copyxattr. rewrite Hh.
  erewrite bind_ok by reflexivity. rewrite Hsrc.
  unfold try_except. unfold bind at 1. unfold bind at 1.
  unfold os_listxattr. rewrite sys_run by apply Hf. unfold query. cbn [fst snd].
  rewrite HS. cbn [ret].
  destruct (copyxattr_names_run (map fst (i_xattr ndS)) ndD
              (logged [Listxattr src fl] s)) as (evs & Hrun); try done.
  { intros c _. apply Hf. }
  eexists _, (copied_xattr (i_xattr ndS) (map fst (i_xattr ndS)) (i_xattr ndD)).
  split; [exact Hrun|]. split; [done|]. split.
  - intros name v Hx. apply copied_xattr_Some; [done|]. left.
    by eapply xattr_get_Some_in.
  - intros name Hx. by apply copied_xattr_None.
Qed.
End XattrCopy.

(** ** Copying metadata *)

Lemma S_IMODE_chmod m mode : S_IMODE (Z.lor (S_IFMT m) (S_IMODE mode)) = S_IMODE mode.
Proof.
  unfold S_IFMT, S_IMODE. rewrite Z.land_lor_distr_l, <- !Z.land_assoc.
  change (Z.land 0xF000 0xFFF) with 0. change (Z.land 0xFFF 0xFFF) with 0xFFF.
  by rewrite Z.land_0_r, Z.lor_0_l.
Qed.

Lemma S_IMODE_idemp m : S_IMODE (S_IMODE m) = S_IMODE m.
Proof.
  unfold S_IMODE. rewrite <- Z.land_assoc. by change (Z.land 0xFFF 0xFFF) with 0xFFF.
Qed.

Lemma try_except_ok {A} (m : M A) (h : exn -> M A) s a s' :
  m s = (Ok a, s') -> try_except m h s = (Ok a, s').
Proof. intros H. unfold try_except. by rewrite H. Qed.

Section MetaRun.
Context (hst : host) (dst : string) (fl : bool).
Context (iS iD : nat) (ndS ndD : inode).
Hypothesis Hne : iS <> iD.

(** [_copyxattr] on a host that refuses no call, or none but [os.chmod]
    and [os.chflags], whether or not it has [os.listxattr]. *)
Lemma _copyxattr_run nd s :
  only_mode_refused (os s) ->
  get_inode (fs (os s)) fl (source_path (obj s)) = inr (iS, ndS) ->
  get_inode (fs (os s)) fl dst = inr (iD, nd) ->
  exists evs,
    _copyxattr hst dst fl s =
      (Ok tt,
       mkState (obj s)
         (mkWorld
            (set_inode (fs (os s)) iD
               (if has_listxattr hst
                then with_xattr nd
                       (copied_xattr (i_xattr ndS) (map fst (i_xattr ndS)) (i_xattr nd))
                else nd))
            (faults (os s)) (evs ++ log (os s)))).
Proof.
  intros Hf HS HD. unfold _copyxattr. destruct (has_listxattr hst).
  - erewrite bind_ok by reflexivity.
    unfold try_except. unfold bind at 1. unfold bind at 1.
    unfold os_listxattr. rewrite sys_run by (apply Hf; intros []). unfold query. cbn [fst snd].
    rewrite HS. cbn [ret].
    destruct (copyxattr_names_run (source_path (obj s)) dst fl iS iD ndS Hne
                (map fst (i_xattr ndS)) nd (logged [Listxattr (source_path (obj s)) fl] s))
      as (evs & Hrun); try done.
    exists (evs ++ [Listxattr (source_path (obj s)) fl]).
    etrans; [exact Hrun|]. cbn. by rewrite <- app_assoc.
  - exists []. cbn. rewrite set_inode_id by eauto using get_inode_Some.
    by destruct s as [o [f fa l]].
Qed.

(** Lines 117-136 on a host that has the three functions and refuses no
    call. *)
Lemma meta_ops_run s :
  faultless (os s) ->
  lookup hst fl fn_stat = true -> lookup hst fl fn_utime = true ->
  lookup hst fl fn_chmod = true ->
  get_inode (fs (os s)) fl (source_path (obj s)) = inr (iS, ndS) ->
  get_inode (fs (os s)) fl dst = inr (iD, ndD) ->
  exists evs,
    meta_ops hst dst fl s =
      (Ok tt,
       mkState (obj s)
         (mkWorld (set_inode (fs (os s)) iD (copied_metadata hst fl ndS ndD))
                  (faults (os s)) (evs ++ log (os s)))).
Proof.
  intros Hf Hl1 Hl2 Hl3 HS HD.
  pose proof (get_inode_Some _ _ _ _ _ HD) as HnD.
  assert (Hget : forall nd' evs,
             i_data nd' = i_data ndD -> i_target nd' = i_target ndD ->
             S_IFMT (i_mode nd') = S_IFMT (i_mode ndD) ->
             let s' := mkState (obj s)
                         (mkWorld (set_inode (fs (os s)) iD nd') (faults (os s))
                            (evs ++ log (os s))) in
             faultless (os s') /\
             get_inode (fs (os s')) fl (source_path (obj s')) = inr (iS, ndS) /\
             get_inode (fs (os s')) fl dst = inr (iD, nd')).
  { intros nd' evs H1 H2 H3. cbn. split; [done|]. split.
    - erewrite get_inode_set_inode_shape by done. by rewrite decide_False.
    - erewrite get_inode_set_inode_shape by done. by rewrite decide_True. }
  unfold meta_ops. erewrite bind_ok by reflexivity. rewrite Hl1, Hl2, Hl3.
  unfold bind at 1. unfold bind at 1. rewrite os_stat_run by apply Hf.
  rewrite HS. cbn [ret fst snd].
  cbn [stat_of st_atime_ns st_mtime_ns st_mode st_flags].
  (* utime *)
  set (nd1 := with_times ndD (i_atime_ns ndS) (i_mtime_ns ndS)).
  erewrite bind_ok by (unfold os_utime; apply update_run; [apply Hf|exact HD]).
  cbn [logged obj os fs faults log].
  (* extended attributes *)
  set (e1 := [Utime dst (i_atime_ns ndS) (i_mtime_ns ndS) fl;
              Stat (source_path (obj s)) fl]).
  destruct (Hget nd1 e1) as (Hf1 & HS1 & HD1); try done.
  destruct (_copyxattr_run nd1 _ (fun c _ => Hf1 c) HS1 HD1) as (e2 & Hx).
  erewrite bind_ok by exact Hx. cbn [obj os fs faults log]. clear Hx.
  rewrite set_inode_twice, app_assoc.
  set (nd2 := if has_listxattr hst
              then with_xattr nd1
                     (copied_xattr (i_xattr ndS) (map fst (i_xattr ndS)) (i_xattr nd1))
              else nd1).
  assert (Hs2 : i_data nd2 = i_data ndD /\ i_target nd2 = i_target ndD /\
                i_mode nd2 = i_mode ndD).
  { unfold nd2. by destruct (has_listxattr hst). }
  destruct Hs2 as (Hd2 & Ht2 & Hm2).
  destruct (Hget nd2 (e2 ++ e1)) as (Hf2 & HS2 & HD2); [done|done|by rewrite Hm2|].
  (* chmod *)
  set (nd3 := with_mode nd2 (Z.lor (S_IFMT (i_mode nd2)) (S_IMODE (S_IMODE (i_mode ndS))))).
  erewrite bind_ok
    by (apply try_except_ok; unfold os_chmod; apply update_run; [apply Hf2|exact HD2]).
  cbn [obj os fs faults log]. rewrite set_inode_twice. fold nd3.
  set (e3 := Chmod dst (S_IMODE (i_mode ndS)) fl :: e2 ++ e1).
  destruct (Hget nd3 e3)
    as (Hf3 & HS3 & HD3); [done|done|by unfold nd3; cbn; rewrite S_IFMT_chmod, Hm2|].
  (* flags *)
  unfold copied_metadata. fold nd1. fold nd2. fold nd3.
  destruct (has_st_flags hst); cbn [andb].
  - destruct (lookup hst fl fn_chflags).
    + exists (Chflags dst (i_flags ndS) fl :: e3).
      erewrite try_except_ok
        by (unfold os_chflags; apply update_run; [apply Hf3|exact HD3]).
      cbn [obj os fs faults log]. by rewrite set_inode_twice.
    + exists e3. unfold try_except, ret. done.
  - exists e3. unfold ret. done.
Qed.
End MetaRun.

Lemma copied_metadata_shape hst fl ndS ndD :
  let nd := copied_metadata hst fl ndS ndD in
  i_data nd = i_data ndD /\ i_target nd = i_target ndD /\
  S_IFMT (i_mode nd) = S_IFMT (i_mode ndD) /\
  S_IMODE (i_mode nd) = S_IMODE (i_mode ndS) /\
  i_atime_ns nd = i_atime_ns ndS /\ i_mtime_ns nd = i_mtime_ns ndS.
Proof.
  unfold copied_metadata.
  destruct (has_listxattr hst), (has_st_flags hst && lookup hst fl fn_chflags); cbn;
    by rewrite S_IFMT_chmod, S_IMODE_chmod, S_IMODE_idemp.
Qed.

Lemma copied_metadata_xattr hst fl ndS ndD :
  has_listxattr hst = true ->
  i_xattr (copied_metadata hst fl ndS ndD) =
    copied_xattr (i_xattr ndS) (map fst (i_xattr ndS)) (i_xattr ndD).
Proof.
  intros Hh. unfold copied_metadata. rewrite Hh.
  by destruct (has_st_flags hst && lookup hst fl fn_chflags).
Qed.

Lemma copied_metadata_flags hst fl ndS ndD :
  has_st_flags hst = true -> lookup hst fl fn_chflags = true ->
  i_flags (copied_metadata hst fl ndS ndD) = i_flags ndS.
Proof. intros H1 H2. unfold copied_metadata. by rewrite H1, H2. Qed.

Section RegularCopy.
Context (hst : host).

(** Lines 76-97 for two different regular files, with [follow_symlinks]
    true, on a host that refuses no call: the state in which line 99 is
    reached. *)
Lemma copyfile_regular_transfer fuel (B : string) cm s iA ndA iB ndB :
  faultless (os s) ->
  get_inode (fs (os s)) true (source_path (obj s)) = inr (iA, ndA) ->
  S_ISREG (i_mode ndA) = true ->
  get_inode (fs (os s)) true B = inr (iB, ndB) -> S_ISREG (i_mode ndB) = true ->
  iA <> iB ->
  (length (i_data ndA) < fuel)%nat ->
  exists evs,
    copyfile hst fuel B cm true s =
      ((if cm then copy_metadata hst B true else ret tt) ;; ret B)
        (mkState (obj (retarget B s))
           (mkWorld (set_inode (fs (os s)) iB (with_data ndB (i_data ndA)))
                    (faults (os s)) (evs ++ log (os s)))).
Proof.
  intros Hf HiA HrA HiB HrB Hne Hfuel.
  set (A := source_path (obj s)) in *.
  destruct (copyfile_regular_validated hst fuel B cm true s iA ndA iB ndB)
    as (e0 & He0 & Hrun); try done.
  { by apply faultless_stat. }
  rewrite Hrun. clear Hrun.
  pose proof (get_inode_Some _ _ _ _ _ HiA) as HnA.
  pose proof (get_inode_Some _ _ _ _ _ HiB) as HnB.
  set (s0 := logged e0 (retarget B s)).
  set (s1 := mkState (obj s0)
               (mkWorld (set_inode (fs (os s)) iB (with_data ndB []))
                  (faults (os s)) (OpenW B :: OpenR A :: log (os s0)))).
  destruct (copyfileobj_run default_length iA iB ndA default_length_pos Hne
              fuel 0%nat [] (with_data ndB []) s1) as (evs & Htr & Hloop).
  { done. }
  { cbn. by rewrite lookup_insert_ne. }
  { cbn. by rewrite lookup_insert_eq. }
  { done. }
  { by rewrite drop_0. }
  rewrite drop_0 in Hloop. cbn [length app] in Hloop.
  exists (rev evs ++ OpenW B :: OpenR A :: e0).
  erewrite bind_ok; [reflexivity|].
  unfold transfer. erewrite bind_ok by reflexivity. erewrite bind_ok by reflexivity.
  cbv beta iota.
  erewrite bind_ok by (apply open_rb_run with (nd := ndA);
                       [apply Hf|exact HiA|by apply S_ISREG_not_dir]).
  erewrite bind_ok by reflexivity.
  erewrite bind_ok by (apply open_wb_reg with (nd := ndB); [apply Hf|exact HiB|done]).
  etrans; [exact Hloop|]. cbn [s1 s0 logged retarget obj os fs faults log].
  rewrite set_inode_twice. do 3 f_equal.
  by rewrite <- app_assoc.
Qed.

(** X9.  [copyfile] with [copy_meta] and [follow_symlinks] true between
    two different regular files, on a host that has [os.stat],
    [os.utime] and [os.chmod] and refuses no call: the call returns the
    destination, which then has the bytes of the source, its access and
    modification times, its permission bits, its extended attributes
    (where the host has them) and its flags (where the host has them),
    and is still a regular file; the source is as it was. *)
Theorem copyfile_with_metadata fuel (B : string) s iA ndA iB ndB :
  faultless (os s) ->
  has_fn hst fn_stat = true -> has_fn hst fn_utime = true ->
  has_fn hst fn_chmod = true ->
  get_inode (fs (os s)) true (source_path (obj s)) = inr (iA, ndA) ->
  S_ISREG (i_mode ndA) = true ->
  get_inode (fs (os s)) true B = inr (iB, ndB) -> S_ISREG (i_mode ndB) = true ->
  iA <> iB ->
  (length (i_data ndA) < fuel)%nat ->
  exists s' ndB',
    copyfile hst fuel B true true s = (Ok B, s') /\
    get_inode (fs (os s')) true B = inr (iB, ndB') /\
    i_data ndB' = i_data ndA /\
    i_atime_ns ndB' = i_atime_ns ndA /\ i_mtime_ns ndB' = i_mtime_ns ndA /\
    S_IMODE (i_mode ndB') = S_IMODE (i_mode ndA) /\
    S_ISREG (i_mode ndB') = true /\
    (has_listxattr hst = true ->
     forall name v, xattr_get name (i_xattr ndA) = Some v ->
                    xattr_get name (i_xattr ndB') = Some v) /\
    (has_st_flags hst = true -> has_fn hst fn_chflags = true ->
     i_flags ndB' = i_flags ndA) /\
    get_inode (fs (os s')) true (source_path (obj s)) = inr (iA, ndA).
Proof.
  intros Hf H1 H2 H3 HiA HrA HiB HrB Hne Hfuel.
  destruct (copyfile_regular_transfer fuel B true s iA ndA iB ndB) as (e0 & Hrun);
    try done.
  rewrite Hrun. clear Hrun.
  pose proof (get_inode_Some _ _ _ _ _ HiB) as HnB.
  set (ndB1 := with_data ndB (i_data ndA)).
  set (s2 := mkState (obj (retarget B s))
               (mkWorld (set_inode (fs (os s)) iB ndB1) (faults (os s))
                  (e0 ++ log (os s)))).
  assert (HA2 : get_inode (fs (os s2)) true (source_path (obj s2)) = inr (iA, ndA)).
  { cbn. erewrite get_inode_set_inode by done. by rewrite decide_False. }
  assert (HB2 : get_inode (fs (os s2)) true B = inr (iB, ndB1)).
  { cbn. erewrite get_inode_set_inode by done. by rewrite decide_True. }
  destruct (meta_ops_run hst B true iA iB ndA ndB1 Hne s2) as (e1 & Hm); try done.
  set (ndB' := copied_metadata hst true ndA ndB1) in *.
  destruct (copied_metadata_shape hst true ndA ndB1) as (Hd & Ht & Hfm & Him & Hat & Hmt).
  fold ndB' in Hd, Ht, Hfm, Him, Hat, Hmt.
  assert (Hcm : copy_metadata hst B true s2 =
            (Ok tt,
             mkState (obj s2)
               (mkWorld (set_inode (fs (os s2)) iB ndB') (faults (os s2))
                  (e1 ++ log (os s2))))).
  { unfold copy_metadata, meta_follow. erewrite bind_ok by reflexivity.
    exact Hm. }
  erewrite bind_ok by exact Hcm. eexists _, ndB'. split; [reflexivity|].
  cbn [obj os fs faults log s2].
  assert (Hi2 : inodes (set_inode (fs (os s)) iB ndB1) !! iB = Some ndB1).
  { cbn. by rewrite lookup_insert_eq. }
  split.
  { erewrite get_inode_set_inode_shape by (done || exact HB2). by rewrite decide_True. }
  split; [by rewrite Hd|]. split; [done|]. split; [done|]. split; [done|]. split.
  { unfold S_ISREG in *. by rewrite Hfm. }
  split.
  { intros Hh name v Hx. unfold ndB'. rewrite copied_metadata_xattr by done.
    apply copied_xattr_Some; [done|]. left. by eapply xattr_get_Some_in. }
  split.
  { intros Hfl Hch. by apply copied_metadata_flags. }
  erewrite get_inode_set_inode_shape by (done || exact HA2). by rewrite decide_False.
Qed.
End RegularCopy.

Lemma copyfile_with_metadata_witness :
  exists s' ndB',
    copyfile Ex2.bsd 4 "/p.txt" true true
      (mkState (File_init "/a")
         (mkWorld
            (mkFs (<["/p.txt"%string := 9%nat]> (names Ex.files))
                  (<[9%nat := mkInode (Z.lor S_IFREG 0x180) [] "" 1 2 [] 0]>
                     (inodes Ex.files)))
            Ex.no_faults [])) = (Ok "/p.txt"%string, s') /\
    get_inode (fs (os s')) true "/p.txt" = inr (9%nat, ndB') /\
    i_data ndB' = [Byte.x41; Byte.x42; Byte.x43] /\
    i_atime_ns ndB' = 100 /\ i_mtime_ns ndB' = 200 /\
    S_IMODE (i_mode ndB') = S_IMODE (Z.lor S_IFREG 0x1A4) /\
    S_ISREG (i_mode ndB') = true /\
    (has_listxattr Ex2.bsd = true ->
     forall name v,
       xattr_get name [("user.k"%string, [Byte.x01])] = Some v ->
       xattr_get name (i_xattr ndB') = Some v) /\
    (has_st_flags Ex2.bsd = true -> has_fn Ex2.bsd fn_chflags = true ->
     i_flags ndB' = 0) /\
    get_inode (fs (os s')) true "/a" =
      inr (1%nat, Ex.regular [Byte.x41; Byte.x42; Byte.x43]).
Proof.
  apply (copyfile_with_metadata Ex2.bsd 4 "/p.txt"
           (mkState (File_init "/a")
              (mkWorld
                 (mkFs (<["/p.txt"%string := 9%nat]> (names Ex.files))
                       (<[9%nat := mkInode (Z.lor S_IFREG 0x180) [] "" 1 2 [] 0]>
                          (inodes Ex.files)))
                 Ex.no_faults []))
           1%nat (Ex.regular [Byte.x41; Byte.x42; Byte.x43])
           9%nat (mkInode (Z.lor S_IFREG 0x180) [] "" 1 2 [] 0)).
  - intros c. reflexivity.
  - reflexivity.
  - reflexivity.
  - reflexivity.
  - vm_compute. reflexivity.
  - reflexivity.
  - vm_compute. reflexivity.
  - reflexivity.
  - lia.
  - cbn. lia.
Defined.

Lemma _copyxattr_copies_witness :
  exists s' xs',
    _copyxattr Ex.linux "/p" true (Ex.start "/a") = (Ok tt, s') /\
    fs (os s') = set_inode Ex.files 4 (with_xattr Ex.fifo xs') /\
    (forall name v,
        xattr_get name (i_xattr (Ex.regular [Byte.x41; Byte.x42; Byte.x43])) = Some v ->
        xattr_get name xs' = Some v) /\
    (forall name,
        xattr_get name (i_xattr (Ex.regular [Byte.x41; Byte.x42; Byte.x43])) = None ->
        xattr_get name xs' = xattr_get name (i_xattr Ex.fifo)).
Proof.
  apply (_copyxattr_copies Ex.linux "/a" "/p" true 1%nat 4%nat
           (Ex.regular [Byte.x41; Byte.x42; Byte.x43])).
  - lia.
  - reflexivity.
  - reflexivity.
  - intros c. reflexivity.
  - vm_compute. reflexivity.
  - vm_compute. reflexivity.
Defined.

(** ** Copies in sequence *)

Lemma with_data_twice nd d d' : with_data (with_data nd d) d' = with_data nd d'.
Proof. done. Qed.

Section Sequences.
Context (hst : host).

Lemma copyfile_regular_run fuel (B : string) s iA ndA iB ndB :
  faultless (os s) ->
  get_inode (fs (os s)) true (source_path (obj s)) = inr (iA, ndA) ->
  S_ISREG (i_mode ndA) = true ->
  get_inode (fs (os s)) true B = inr (iB, ndB) -> S_ISREG (i_mode ndB) = true ->
  iA <> iB ->
  (length (i_data ndA) < fuel)%nat ->
  exists evs,
    copyfile hst fuel B false true s =
      (Ok B,
       mkState (obj (retarget B s))
         (mkWorld (set_inode (fs (os s)) iB (with_data ndB (i_data ndA)))
                  (faults (os s)) (evs ++ log (os s)))).
Proof.
  intros Hf HiA HrA HiB HrB Hne Hfuel.
  destruct (copyfile_regular_transfer hst fuel B false s iA ndA iB ndB) as (evs & ->);
    try done.
  exists evs. by erewrite bind_ok by reflexivity.
Qed.

(** X11.  Repeating a copy: after [copyfile(A, B)] between two
    different regular files has succeeded, the same call on the same
    object succeeds again, and afterwards the same names are bound,
    every file has the bytes, the type and permission bits, the link
    text, the extended attributes and the flags that the first call
    left (nothing is said of the timestamps), and the object is as the
    first call left it. *)
Theorem copyfile_idempotent fuel (B : string) s iA ndA iB ndB :
  faultless (os s) ->
  get_inode (fs (os s)) true (source_path (obj s)) = inr (iA, ndA) ->
  S_ISREG (i_mode ndA) = true ->
  get_inode (fs (os s)) true B = inr (iB, ndB) -> S_ISREG (i_mode ndB) = true ->
  iA <> iB ->
  (length (i_data ndA) < fuel)%nat ->
  let r1 := copyfile hst fuel B false true s in
  let r2 := copyfile hst fuel B false true (snd r1) in
  fst r1 = Ok B /\ fst r2 = Ok B /\
  names (fs (os (snd r2))) = names (fs (os (snd r1))) /\
  (forall i,
      match inodes (fs (os (snd r1))) !! i, inodes (fs (os (snd r2))) !! i with
      | Some nd, Some nd' => same_but_times nd nd'
      | None, None => True
      | _, _ => False
      end) /\
  get_inode (fs (os (snd r2))) true B = inr (iB, with_data ndB (i_data ndA)) /\
  obj (snd r2) = obj (snd r1).
Proof.
  intros Hf HiA HrA HiB HrB Hne Hfuel. cbv zeta.
  pose proof (get_inode_Some _ _ _ _ _ HiB) as HnB.
  destruct (copyfile_regular_run fuel B s iA ndA iB ndB) as (e1 & ->); try done.
  cbn [fst snd].
  set (s1 := mkState (obj (retarget B s))
               (mkWorld (set_inode (fs (os s)) iB (with_data ndB (i_data ndA)))
                  (faults (os s)) (e1 ++ log (os s)))).
  assert (HB1 : get_inode (fs (os s1)) true B = inr (iB, with_data ndB (i_data ndA))).
  { cbn. erewrite get_inode_set_inode by done. by rewrite decide_True. }
  destruct (copyfile_regular_run fuel B s1 iA ndA iB (with_data ndB (i_data ndA)))
    as (e2 & ->); try done.
  { cbn. erewrite get_inode_set_inode by done. by rewrite decide_False. }
  cbn [fst snd obj os fs s1 retarget source_path].
  rewrite set_inode_twice, with_data_twice.
  split; [done|]. split; [done|]. split; [done|]. split; [|by split].
  intros i. by destruct (inodes _ !! i).
Qed.

(** X12.  Copies compose: after [File(A).copyfile(B)] and then
    [File(B).copyfile(C)], for three different regular files, C has the
    bytes of A, and so has B; A is as it was. *)
Theorem copyfile_chain fuel (A B C : string) w iA ndA iB ndB iC ndC :
  faultless w ->
  get_inode (fs w) true A = inr (iA, ndA) -> S_ISREG (i_mode ndA) = true ->
  get_inode (fs w) true B = inr (iB, ndB) -> S_ISREG (i_mode ndB) = true ->
  get_inode (fs w) true C = inr (iC, ndC) -> S_ISREG (i_mode ndC) = true ->
  iA <> iB -> iB <> iC -> iA <> iC ->
  (length (i_data ndA) < fuel)%nat ->
  let r1 := copyfile hst fuel B false true (mkState (File_init A) w) in
  let r2 := copyfile hst fuel C false true (mkState (File_init B) (os (snd r1))) in
  fst r1 = Ok B /\ fst r2 = Ok C /\
  get_inode (fs (os (snd r2))) true C = inr (iC, with_data ndC (i_data ndA)) /\
  get_inode (fs (os (snd r2))) true B = inr (iB, with_data ndB (i_data ndA)) /\
  get_inode (fs (os (snd r2))) true A = inr (iA, ndA).
Proof.
  intros Hf HiA HrA HiB HrB HiC HrC Hab Hbc Hac Hfuel. cbv zeta.
  pose proof (get_inode_Some _ _ _ _ _ HiB) as HnB.
  pose proof (get_inode_Some _ _ _ _ _ HiC) as HnC.
  destruct (copyfile_regular_run fuel B (mkState (File_init A) w) iA ndA iB ndB)
    as (e1 & ->); try done.
  cbn [fst snd os].
  set (f1 := set_inode (fs w) iB (with_data ndB (i_data ndA))).
  assert (HA1 : get_inode f1 true A = inr (iA, ndA)).
  { unfold f1. erewrite get_inode_set_inode by done. by rewrite decide_False. }
  assert (HB1 : get_inode f1 true B = inr (iB, with_data ndB (i_data ndA))).
  { unfold f1. erewrite get_inode_set_inode by done. by rewrite decide_True. }
  assert (HC1 : get_inode f1 true C = inr (iC, ndC)).
  { unfold f1. erewrite get_inode_set_inode by done. by rewrite decide_False. }
  destruct (copyfile_regular_run fuel C
              (mkState (File_init B) (mkWorld f1 (faults w) (e1 ++ log w)))
              iB (with_data ndB (i_data ndA)) iC ndC) as (e2 & ->); try done.
  cbn [fst snd os fs]. split; [done|]. split; [done|].
  assert (HnC1 : inodes f1 !! iC = Some ndC) by eauto using get_inode_Some.
  split; [|split].
  - erewrite get_inode_set_inode by done. by rewrite decide_True.
  - erewrite get_inode_set_inode by done. by rewrite decide_False.
  - erewrite get_inode_set_inode by done. by rewrite decide_False.
Qed.
End Sequences.

Lemma copyfile_idempotent_witness :
  let r1 := copyfile Ex.linux 4 "/b" false true (Ex.start "/a") in
  let r2 := copyfile Ex.linux 4 "/b" false true (snd r1) in
  fst r1 = Ok "/b"%string /\ fst r2 = Ok "/b"%string /\
  names (fs (os (snd r2))) = names (fs (os (snd r1))) /\
  (forall i,
      match inodes (fs (os (snd r1))) !! i, inodes (fs (os (snd r2))) !! i with
      | Some nd, Some nd' => same_but_times nd nd'
      | None, None => True
      | _, _ => False
      end) /\
  get_inode (fs (os (snd r2))) true "/b" =
    inr (2%nat, with_data (Ex.regular [Byte.x00]) [Byte.x41; Byte.x42; Byte.x43]) /\
  obj (snd r2) = obj (snd r1).
Proof.
  apply (copyfile_idempotent Ex.linux 4 "/b" (Ex.start "/a") 1%nat
           (Ex.regular [Byte.x41; Byte.x42; Byte.x43]) 2%nat (Ex.regular [Byte.x00])).
  - intros c. reflexivity.
  - vm_compute. reflexivity.
  - reflexivity.
  - vm_compute. reflexivity.
  - reflexivity.
  - lia.
  - cbn. lia.
Defined.

Lemma copyfile_chain_witness :
  let w := mkWorld
             (mkFs (<["/c"%string := 9%nat]> (names Ex.files))
                   (<[9%nat := Ex.regular []]> (inodes Ex.files)))
             Ex.no_faults [] in
  let r1 := copyfile Ex.linux 4 "/b" false true (mkState (File_init "/a") w) in
  let r2 := copyfile Ex.linux 4 "/c" false true
              (mkState (File_init "/b") (os (snd r1))) in
  fst r1 = Ok "/b"%string /\ fst r2 = Ok "/c"%string /\
  get_inode (fs (os (snd r2))) true "/c" =
    inr (9%nat, with_data (Ex.regular []) [Byte.x41; Byte.x42; Byte.x43]) /\
  get_inode (fs (os (snd r2))) true "/b" =
    inr (2%nat, with_data (Ex.regular [Byte.x00]) [Byte.x41; Byte.x42; Byte.x43]) /\
  get_inode (fs (os (snd r2))) true "/a" =
    inr (1%nat, Ex.regular [Byte.x41; Byte.x42; Byte.x43]).
Proof.
  apply (copyfile_chain Ex.linux 4 "/a" "/b" "/c"
           (mkWorld
              (mkFs (<["/c"%string := 9%nat]> (names Ex.files))
                    (<[9%nat := Ex.regular []]> (inodes Ex.files)))
              Ex.no_faults [])
           1%nat (Ex.regular [Byte.x41; Byte.x42; Byte.x43])
           2%nat (Ex.regular [Byte.x00]) 9%nat (Ex.regular [])).
  - intros c. reflexivity.
  - vm_compute. reflexivity.
  - reflexivity.
  - vm_compute. reflexivity.
  - reflexivity.
  - vm_compute. reflexivity.
  - reflexivity.
  - lia.
  - lia.
  - lia.
  - cbn. lia.
Defined.

(** ** The default mode never acts on a link itself *)

Lemma sat_ext {A} P Q E (m m' : M A) :
  (forall s, m s = m' s) -> sat P Q E m' -> sat P Q E m.
Proof. intros H Hm s. rewrite H. apply Hm. Qed.

Lemma follow_not_link c : follow_flag c = Some true -> ~ link_call c.
Proof. by destruct c as [? []| | | | | | |? ? ? []|? []|? ? []|? ? ? []|? ? []|? ? []]. Qed.

Section Following.
Context (hst : host).

Lemma sat_copyfileobj_follow fuel fsrc fdst n :
  sat (fun c => ~ link_call c) any_step any_exn (copyfileobj fuel fsrc fdst n).
Proof.
  revert fsrc fdst. induction fuel as [|fuel IH]; intros fsrc fdst; cbn.
  - apply sat_diverge.
  - apply sat_bind; [by apply sat_f_read|]. intros [buf fsrc'].
    destruct buf as [|b buf]; cbn; [apply sat_ret|].
    apply sat_bind; [by apply sat_f_write|]. intros fdst'. apply IH.
Qed.

Lemma sat_transfer_follow fuel :
  sat (fun c => ~ link_call c) any_step any_exn (transfer hst fuel true).
Proof.
  apply sat_ext with
    (m' := (self <- get_self ;;
            fsrc <- open_rb (source_path self) ;;
            tp <- get_target_path ;;
            fdst <- open_wb tp ;;
            copyfileobj fuel fsrc fdst default_length)%M); [done|].
  apply sat_bind; [apply sat_get_self|]. intros self.
  apply sat_bind.
  { eapply sat_weaken; [|apply sat_query]; done. }
  intros fsrc. apply sat_bind.
  { eapply sat_weaken; [|apply sat_get_target_path]; done. }
  intros tp. apply sat_bind; [by apply sat_open_wb|].
  intros fdst. apply sat_copyfileobj_follow.
Qed.

Lemma sat_copy_metadata_follow dst :
  sat (fun c => ~ link_call c) any_step any_exn (copy_metadata hst dst true).
Proof.
  apply sat_ext with (m' := meta_ops hst dst true); [done|].
  apply sat_meta_ops; [done|done|]. intros c. apply follow_not_link.
Qed.
(** X10.  With [follow_symlinks] true (the default), whatever the
    destination, [copy_meta], the files and the refusals of the host,
    [copyfile] never acts on a symbolic link itself: it calls neither
    [os.readlink] nor [os.symlink], and every call that takes a
    [follow_symlinks] argument gets [True]. *)
Theorem copyfile_follows_links fuel dst (cm : bool) s :
  exists evs,
    log (os (snd (copyfile hst fuel dst cm true s))) = evs ++ log (os s) /\
    Forall (fun c => ~ link_call c) evs.
Proof.
  enough (rel (fun c => ~ link_call c) any_step (retarget dst s)
            (snd (copyfile hst fuel dst cm true s))) as (_ & _ & H & _) by exact H.
  unfold copyfile. unfold bind at 1. cbn [set_target_path].
  apply (sat_rel _ _ any_exn).
  apply sat_bind; [apply sat_get_self|]. intros self.
  apply sat_bind; [by apply sat_isdir|]. intros d. cbv zeta.
  apply sat_bind; [by apply sat__samefile|]. intros same.
  apply sat_bind; [destruct same; [by apply sat_raise|apply sat_ret]|]. intros _.
  apply sat_bind; [eapply sat_weaken; [|apply sat_get_target_path]; done|]. intros tp.
  apply sat_bind; [by apply sat_check_special|]. intros _.
  apply sat_bind; [apply sat_transfer_follow|]. intros _.
  apply sat_bind; [|intros _; apply sat_ret].
  destruct cm; [apply sat_copy_metadata_follow|apply sat_ret].
Qed.
End Following.

(** ** Refused permission and flag calls *)

Section MetaErrors.
Context (hst : host) (dst : string) (fl : bool).
Context (iS iD : nat) (ndS ndD : inode).
Hypothesis Hne : iS <> iD.

(** Lines 117-124 on a host that refuses no call but [os.chmod] and
    [os.chflags]: the state in which line 126 is reached. *)
Lemma meta_ops_upto_chmod s :
  only_mode_refused (os s) ->
  lookup hst fl fn_stat = true -> lookup hst fl fn_utime = true ->
  get_inode (fs (os s)) fl (source_path (obj s)) = inr (iS, ndS) ->
  get_inode (fs (os s)) fl dst = inr (iD, ndD) ->
  exists evs nd2,
    i_data nd2 = i_data ndD /\ i_target nd2 = i_target ndD /\
    i_mode nd2 = i_mode ndD /\ i_flags nd2 = i_flags ndD /\
    i_atime_ns nd2 = i_atime_ns ndS /\ i_mtime_ns nd2 = i_mtime_ns ndS /\
    meta_ops hst dst fl s =
      (try_except
         (if lookup hst fl fn_chmod
          then os_chmod dst (S_IMODE (i_mode ndS)) fl else ret tt)
         (fun x => match x with NotImplementedError => ret tt | _ => raise x end) ;;
       match st_flags (stat_of hst iS ndS) with
       | Some flags =>
           try_except
             (if lookup hst fl fn_chflags then os_chflags dst flags fl else ret tt)
             (tolerate [EOPNOTSUPP; ENOTSUP] (ret tt))
       | None => ret tt
       end)
        (mkState (obj s)
           (mkWorld (set_inode (fs (os s)) iD nd2) (faults (os s))
                    (evs ++ log (os s)))).
Proof.
  intros Hf Hl1 Hl2 HS HD.
  pose proof (get_inode_Some _ _ _ _ _ HD) as HnD.
  unfold meta_ops. erewrite bind_ok by reflexivity. rewrite Hl1, Hl2.
  unfold bind at 1. unfold bind at 1. rewrite os_stat_run by (apply Hf; intros []).
  rewrite HS. cbn [ret fst snd].
  cbn [stat_of st_atime_ns st_mtime_ns st_mode].
  set (nd1 := with_times ndD (i_atime_ns ndS) (i_mtime_ns ndS)).
  erewrite bind_ok
    by (unfold os_utime; apply update_run; [apply Hf; intros []|exact HD]).
  cbn [logged obj os fs faults log].
  set (e1 := [Utime dst (i_atime_ns ndS) (i_mtime_ns ndS) fl;
              Stat (source_path (obj s)) fl]).
  set (s1 := mkState (obj s)
               (mkWorld (set_inode (fs (os s)) iD nd1) (faults (os s))
                  (e1 ++ log (os s)))).
  assert (HS1 : get_inode (fs (os s1)) fl (source_path (obj s1)) = inr (iS, ndS)).
  { cbn. erewrite get_inode_set_inode by done. by rewrite decide_False. }
  assert (HD1 : get_inode (fs (os s1)) fl dst = inr (iD, nd1)).
  { cbn. erewrite get_inode_set_inode by done. by rewrite decide_True. }
  destruct (_copyxattr_run hst dst fl iS iD ndS Hne nd1 s1 Hf HS1 HD1) as (e2 & Hx).
  erewrite bind_ok by exact Hx. cbn [s1 obj os fs faults log]. clear Hx.
  rewrite set_inode_twice, app_assoc.
  exists (e2 ++ e1),
    (if has_listxattr hst
     then with_xattr nd1
            (copied_xattr (i_xattr ndS) (map fst (i_xattr ndS)) (i_xattr nd1))
     else nd1).
  split_and!; try done; by destruct (has_listxattr hst).
Qed.

(** Lines 131-136: [os.chflags] and what is made of its errors. *)
Lemma chflags_step flags nd3 s3 :
  get_inode (fs (os s3)) fl dst = inr (iD, nd3) ->
  let r := try_except (os_chflags dst flags fl)
             (tolerate [EOPNOTSUPP; ENOTSUP] (ret tt)) s3 in
  exists nd',
    get_inode (fs (os (snd r))) fl dst = inr (iD, nd') /\
    i_data nd' = i_data nd3 /\ i_mode nd' = i_mode nd3 /\
    i_atime_ns nd' = i_atime_ns nd3 /\ i_mtime_ns nd' = i_mtime_ns nd3 /\
    match faults (os s3) (Chflags dst flags fl) with
    | None => fst r = Ok tt /\ i_flags nd' = flags
    | Some Unimplemented =>
        fst r = Raise NotImplementedError /\ i_flags nd' = i_flags nd3
    | Some (Errno e) =>
        fst r = (if errno_in (Some e) [EOPNOTSUPP; ENOTSUP]
                 then Ok tt else Raise (OSError e)) /\
        i_flags nd' = i_flags nd3
    end.
Proof.
  intros HD. cbv zeta.
  pose proof (get_inode_Some _ _ _ _ _ HD) as HnD.
  unfold try_except, os_chflags.
  destruct (faults (os s3) (Chflags dst flags fl)) as [[e|]|] eqn:Hc.
  - erewrite sys_fault by exact Hc. cbn [exn_of_fault tolerate is_OSError exn_errno].
    exists nd3. destruct (errno_in (Some e) _); by repeat split.
  - erewrite sys_fault by exact Hc. cbn [exn_of_fault tolerate is_OSError].
    exists nd3. by repeat split.
  - erewrite update_run by done. cbn [fst snd obj os fs].
    exists (with_flags nd3 flags). repeat split.
    erewrite get_inode_set_inode by done. by rewrite decide_True.
Qed.

(** X13.  The permission and flag calls of the metadata part, on a host
    that has the four functions and file flags and refuses no other
    call, for a source and a destination that are different files.  The
    times of the source are on the destination in every case.  A
    [NotImplementedError] of [os.chmod] is ignored (the mode stays, the
    flags are still copied); an [OSError] of [os.chmod] is raised and
    [os.chflags] has no effect.  An [OSError] of [os.chflags] with
    [EOPNOTSUPP] or [ENOTSUP] is ignored (the flags stay); any other
    error number, and a [NotImplementedError], is raised. *)
Theorem meta_ops_mode_errors s :
  only_mode_refused (os s) ->
  lookup hst fl fn_stat = true -> lookup hst fl fn_utime = true ->
  lookup hst fl fn_chmod = true -> lookup hst fl fn_chflags = true ->
  has_st_flags hst = true ->
  get_inode (fs (os s)) fl (source_path (obj s)) = inr (iS, ndS) ->
  get_inode (fs (os s)) fl dst = inr (iD, ndD) ->
  let r := meta_ops hst dst fl s in
  exists ndD',
    get_inode (fs (os (snd r))) fl dst = inr (iD, ndD') /\
    i_data ndD' = i_data ndD /\
    i_atime_ns ndD' = i_atime_ns ndS /\ i_mtime_ns ndD' = i_mtime_ns ndS /\
    let after_chflags :=
      match faults (os s) (Chflags dst (i_flags ndS) fl) with
      | None => fst r = Ok tt /\ i_flags ndD' = i_flags ndS
      | Some Unimplemented =>
          fst r = Raise NotImplementedError /\ i_flags ndD' = i_flags ndD
      | Some (Errno e) =>
          fst r = (if errno_in (Some e) [EOPNOTSUPP; ENOTSUP]
                   then Ok tt else Raise (OSError e)) /\
          i_flags ndD' = i_flags ndD
      end in
    match faults (os s) (Chmod dst (S_IMODE (i_mode ndS)) fl) with
    | Some (Errno e) =>
        fst r = Raise (OSError e) /\
        i_mode ndD' = i_mode ndD /\ i_flags ndD' = i_flags ndD
    | Some Unimplemented => i_mode ndD' = i_mode ndD /\ after_chflags
    | None =>
        S_IMODE (i_mode ndD') = S_IMODE (i_mode ndS) /\
        S_IFMT (i_mode ndD') = S_IFMT (i_mode ndD) /\ after_chflags
    end.
Proof.
  intros Hf Hl1 Hl2 Hl3 Hl4 Hflags HS HD. cbv zeta.
  pose proof (get_inode_Some _ _ _ _ _ HD) as HnD.
  destruct (meta_ops_upto_chmod s Hf Hl1 Hl2 HS HD)
    as (evs & nd2 & Hd2 & Ht2 & Hm2 & Hg2 & Ha2 & Hu2 & ->).
  rewrite Hl3, Hl4. unfold stat_of. rewrite Hflags. cbn [st_flags].
  set (s2 := mkState (obj s)
               (mkWorld (set_inode (fs (os s)) iD nd2) (faults (os s))
                  (evs ++ log (os s)))).
  assert (HD2 : get_inode (fs (os s2)) fl dst = inr (iD, nd2)).
  { cbn. erewrite get_inode_set_inode by done. by rewrite decide_True. }
  pose proof (get_inode_Some _ _ _ _ _ HD2) as HnD2.
  change (faults (os s)) with (faults (os s2)).
  destruct (faults (os s2) (Chmod dst (S_IMODE (i_mode ndS)) fl)) as [[e|]|] eqn:Hc.
  - erewrite bind_raise
      by (unfold try_except, os_chmod; by erewrite sys_fault by exact Hc).
    cbn [fst snd logged os fs]. exists nd2. by repeat split.
  - erewrite bind_ok
      by (unfold try_except, os_chmod; by erewrite sys_fault by exact Hc).
    destruct (chflags_step (i_flags ndS) nd2 (logged [Chmod dst (S_IMODE (i_mode ndS)) fl] s2))
      as (nd' & Hg & Hd & Hm & Ha & Hu & Hr); [exact HD2|].
    cbv zeta in Hg, Hr. cbn [logged os faults] in Hr.
    exists nd'. split; [exact Hg|]. split; [congruence|]. split; [congruence|].
    split; [congruence|]. split; [congruence|].
    destruct (faults (os s2) (Chflags dst (i_flags ndS) fl)) as [[e|]|];
      destruct Hr as [Hr1 Hr2]; (split; [exact Hr1|congruence]).
  - set (nd3 := with_mode nd2 (Z.lor (S_IFMT (i_mode nd2)) (S_IMODE (S_IMODE (i_mode ndS))))).
    erewrite bind_ok
      by (apply try_except_ok; unfold os_chmod; apply update_run; [exact Hc|exact HD2]).
    fold nd3.
    set (s3 := mkState _ _).
    assert (HD3 : get_inode (fs (os s3)) fl dst = inr (iD, nd3)).
    { cbn. erewrite get_inode_set_inode_shape; [|exact HnD2|done|done|..|exact HD2].
      - by rewrite decide_True.
      - unfold nd3. cbn. by rewrite S_IFMT_chmod. }
    destruct (chflags_step (i_flags ndS) nd3 s3) as (nd' & Hg & Hd & Hm & Ha & Hu & Hr);
      [exact HD3|].
    cbv zeta in Hg, Hr. change (faults (os s3)) with (faults (os s2)) in Hr.
    exists nd'. split; [exact Hg|]. split; [by rewrite Hd|].
    split; [by rewrite Ha|]. split; [by rewrite Hu|].
    rewrite Hm. unfold nd3 at 1 2. cbn [i_mode with_mode].
    rewrite S_IMODE_chmod, S_IMODE_idemp, S_IFMT_chmod, Hm2.
    split; [done|]. split; [done|].
    destruct (faults (os s2) (Chflags dst (i_flags ndS) fl)) as [[e|]|];
      destruct Hr as [Hr1 Hr2]; (split; [exact Hr1|]); [by rewrite Hr2..|done].
Qed.
End MetaErrors.

Lemma meta_ops_mode_errors_witness :
  let s := mkState (File_init "/a") (mkWorld Ex.files Ex2.mode_faults []) in
  let r := meta_ops Ex2.bsd "/b" true s in
  exists ndD',
    get_inode (fs (os (snd r))) true "/b" = inr (2%nat, ndD') /\
    i_data ndD' = [Byte.x00] /\
    i_atime_ns ndD' = 100 /\ i_mtime_ns ndD' = 200 /\
    i_mode ndD' = Z.lor S_IFREG 0x1A4 /\
    fst r = Ok tt /\ i_flags ndD' = 0.
Proof.
  apply (meta_ops_mode_errors Ex2.bsd "/b" true 1%nat 2%nat
           (Ex.regular [Byte.x41; Byte.x42; Byte.x43]) (Ex.regular [Byte.x00])).
  - lia.
  - by intros [].
  - reflexivity.
  - reflexivity.
  - reflexivity.
  - reflexivity.
  - reflexivity.
  - vm_compute. reflexivity.
  - vm_compute. reflexivity.
Defined.

(** ** A link copied as a link, with its metadata *)

Lemma get_inode_nofollow f p i nd :
  names f !! p = Some i -> inodes f !! i = Some nd ->
  get_inode f false p = inr (i, nd).
Proof. intros Hp Hi. unfold get_inode, resolve, locate. by rewrite Hp, !Hi. Qed.

Lemma get_inode_nofollow_inv f p i nd :
  get_inode f false p = inr (i, nd) ->
  names f !! p = Some i /\ inodes f !! i = Some nd.
Proof.
  intros Hg. pose proof (get_inode_Some _ _ _ _ _ Hg) as Hi. split; [|done].
  unfold get_inode, resolve, locate in Hg.
  destruct (names f !! p) as [j|]; [|done].
  destruct (inodes f !! j) as [y|] eqn:Hj; [|done]. cbn in Hg. rewrite Hj in Hg.
  by injection Hg as -> _.
Qed.

Section LinkMetadata.
Context (hst : host).

(** Lines 76-93 for a source that is a symbolic link and a destination
    that does not exist, with [follow_symlinks] false, on a host that
    refuses no call: the state in which line 99 is reached. *)
Lemma copyfile_symlink_transfer fuel (B : string) cm s iA ndA :
  faultless (os s) ->
  get_inode (fs (os s)) false (source_path (obj s)) = inr (iA, ndA) ->
  S_ISLNK (i_mode ndA) = true ->
  names (fs (os s)) !! B = None ->
  is_fifo (fs (os s)) (source_path (obj s)) = false ->
  exists evs,
    copyfile hst fuel B cm false s =
      ((if cm then copy_metadata hst B false else ret tt) ;; ret B)
        (mkState (obj (retarget B s))
           (mkWorld
              (mkFs (<[B := new_ino (fs (os s))]> (names (fs (os s))))
                    (<[new_ino (fs (os s)) :=
                         new_inode (Z.lor S_IFLNK 0x1FF) (i_target ndA)]>
                       (inodes (fs (os s)))))
              (faults (os s)) (evs ++ log (os s)))).
Proof.
  intros Hf HiA HlA HB HpA.
  set (A := source_path (obj s)) in *.
  destruct (copyfile_validated hst fuel B cm false s (faultless_stat _ Hf))
    as (e0 & He0 & Hrun).
  cbv zeta in Hrun. fold A in Hrun.
  pose proof (get_inode_absent (fs (os s)) true B HB) as HgB.
  assert (He : effective_dst (fs (os s)) A B = B).
  { unfold effective_dst, is_dir. by rewrite HgB. }
  assert (Hs : same_file (fs (os s)) A B = false).
  { unfold same_file. rewrite HgB. by destruct (get_inode _ true A) as [?|[??]]. }
  assert (HpB : is_fifo (fs (os s)) B = false).
  { unfold is_fifo. by rewrite HgB. }
  rewrite He, Hs, HpA, HpB in Hrun. rewrite Hrun. clear Hrun.
  set (s0 := logged e0 (retarget B s)).
  exists (Symlink (i_target ndA) B :: Readlink A :: Stat A false :: e0).
  erewrite bind_ok; [reflexivity|].
  unfold transfer. erewrite bind_ok by reflexivity.
  erewrite bind_ok by (apply islink_run; apply Hf).
  assert (Hl : is_link (fs (os s0)) A = true).
  { unfold is_link. cbn. fold A. by rewrite HiA. }
  cbn [obj s0 logged retarget source_path]. fold A. rewrite Hl.
  erewrite bind_ok by (apply os_readlink_run with (i := iA) (nd := ndA);
                       [apply Hf|exact HiA|done]).
  erewrite bind_ok by reflexivity.
  by rewrite os_symlink_run by (done || apply Hf).
Qed.

(** X14.  [copyfile] with [copy_meta] and without [follow_symlinks],
    from a symbolic link to a path that does not exist, on a host that
    refuses no call and whose [os.stat] and [os.utime] take
    [follow_symlinks=False]: the call returns the destination, which is
    a new symbolic link with the link text of the source and with the
    access and modification times of the source link itself; where
    [os.chmod] is missing or does not take [follow_symlinks=False] the
    mode of the new link is left as created; every file that existed,
    the file the link leads to among them, is as it was. *)
Theorem copyfile_symlink_metadata fuel (B : string) s iA ndA :
  faultless (os s) ->
  get_inode (fs (os s)) false (source_path (obj s)) = inr (iA, ndA) ->
  S_ISLNK (i_mode ndA) = true ->
  names (fs (os s)) !! B = None ->
  is_fifo (fs (os s)) (source_path (obj s)) = false ->
  lookup hst false fn_stat = true -> lookup hst false fn_utime = true ->
  exists s' ndB',
    copyfile hst fuel B true false s = (Ok B, s') /\
    get_inode (fs (os s')) false B = inr (new_ino (fs (os s)), ndB') /\
    S_ISLNK (i_mode ndB') = true /\ i_target ndB' = i_target ndA /\
    i_atime_ns ndB' = i_atime_ns ndA /\ i_mtime_ns ndB' = i_mtime_ns ndA /\
    (lookup hst false fn_chmod = false -> i_mode ndB' = Z.lor S_IFLNK 0x1FF) /\
    (forall i nd, inodes (fs (os s)) !! i = Some nd ->
                  inodes (fs (os s')) !! i = Some nd).
Proof.
  intros Hf HiA HlA HB HpA Hl1 Hl2.
  destruct (copyfile_symlink_transfer fuel B true s iA ndA) as (e0 & ->); try done.
  set (A := source_path (obj s)) in *.
  pose proof (new_ino_fresh (fs (os s))) as Hnew.
  set (new := new_ino (fs (os s))) in *.
  set (nd0 := new_inode (Z.lor S_IFLNK 0x1FF) (i_target ndA)).
  set (f2 := mkFs (<[B := new]> (names (fs (os s))))
                  (<[new := nd0]> (inodes (fs (os s))))).
  set (s2 := mkState (obj (retarget B s)) (mkWorld f2 (faults (os s)) (e0 ++ log (os s)))).
  destruct (get_inode_nofollow_inv _ _ _ _ HiA) as [HnA HnodeA].
  assert (Hne : iA <> new) by (intros ->; congruence).
  assert (HAB : A <> B) by (intros ->; congruence).
  assert (HA2 : get_inode f2 false A = inr (iA, ndA)).
  { apply get_inode_nofollow; cbn; by rewrite lookup_insert_ne. }
  assert (HB2 : get_inode f2 false B = inr (new, nd0)).
  { apply get_inode_nofollow; cbn; by rewrite lookup_insert_eq. }
  (* line 105 *)
  set (s3 := logged [Stat B false; Stat A false] s2).
  assert (Hfollow : meta_follow hst B false s2 = (Ok false, s3)).
  { unfold meta_follow. erewrite bind_ok by reflexivity. cbv beta iota.
    erewrite bind_ok by (apply islink_run; apply Hf).
    change (source_path (obj s2)) with A. unfold is_link at 1.
    cbn [logged os fs s2]. rewrite HA2, HlA.
    erewrite bind_ok by (apply islink_run; apply Hf).
    unfold is_link. cbn [logged os fs s2]. rewrite HB2. cbn [i_mode nd0 new_inode].
    unfold s3. by rewrite logged_app. }
  (* lines 117-124 *)
  destruct (meta_ops_upto_chmod hst B false iA new ndA nd0 Hne s3)
    as (e1 & nd2 & Hd2 & Ht2 & Hm2 & Hg2 & Ha2 & Hu2 & Hrun); try done.
  { intros c _. apply Hf. }
  (* lines 126-136 *)
  assert (Htail : forall nd' evs,
            i_target nd' = i_target nd2 -> S_IFMT (i_mode nd') = S_IFMT (i_mode nd2) ->
            i_atime_ns nd' = i_atime_ns nd2 -> i_mtime_ns nd' = i_mtime_ns nd2 ->
            (lookup hst false fn_chmod = false -> i_mode nd' = i_mode nd2) ->
            let s' := mkState (obj s3)
                        (mkWorld (set_inode f2 new nd') (faults (os s)) evs) in
            get_inode (fs (os s')) false B = inr (new, nd') /\
            S_ISLNK (i_mode nd') = true /\ i_target nd' = i_target ndA /\
            i_atime_ns nd' = i_atime_ns ndA /\ i_mtime_ns nd' = i_mtime_ns ndA /\
            (lookup hst false fn_chmod = false -> i_mode nd' = Z.lor S_IFLNK 0x1FF) /\
            (forall i nd, inodes (fs (os s)) !! i = Some nd ->
                          inodes (fs (os s')) !! i = Some nd)).
  { intros nd' evs H1 H2 H3 H4 H5. cbv zeta. cbn [os fs].
    split; [apply get_inode_nofollow; cbn; by rewrite lookup_insert_eq|].
    split; [unfold S_ISLNK; by rewrite H2, Hm2|].
    split; [by rewrite H1, Ht2|]. split; [congruence|]. split; [congruence|].
    split; [intros Hc; by rewrite H5, Hm2|].
    intros i nd Hi. cbn. rewrite !lookup_insert_ne by (intros <-; congruence). done. }
  set (s4 := mkState (obj s3)
               (mkWorld (set_inode (fs (os s3)) new nd2) (faults (os s3))
                  (e1 ++ log (os s3)))) in Hrun.
  assert (HD4 : forall nd' evs,
            get_inode (fs (os (mkState (obj s3)
                                 (mkWorld (set_inode f2 new nd') (faults (os s)) evs))))
              false B = inr (new, nd')).
  { intros nd' evs. apply get_inode_nofollow; cbn; by rewrite lookup_insert_eq. }
  enough (exists nd' evs,
            meta_ops hst B false s3 =
              (Ok tt, mkState (obj s3)
                        (mkWorld (set_inode f2 new nd') (faults (os s)) evs)) /\
            i_target nd' = i_target nd2 /\ S_IFMT (i_mode nd') = S_IFMT (i_mode nd2) /\
            i_atime_ns nd' = i_atime_ns nd2 /\ i_mtime_ns nd' = i_mtime_ns nd2 /\
            (lookup hst false fn_chmod = false -> i_mode nd' = i_mode nd2))
    as (nd' & evs & Hm & H1 & H2 & H3 & H4 & H5).
  { eexists _, nd'. split.
    - erewrite bind_ok; [reflexivity|]. unfold copy_metadata.
      erewrite bind_ok by exact Hfollow. exact Hm.
    - by apply Htail. }
  rewrite Hrun. clear Hrun.
  destruct (lookup hst false fn_chmod) eqn:Hl3.
  - erewrite bind_ok
      by (apply try_except_ok; unfold os_chmod; apply update_run;
          [apply Hf|apply (HD4 nd2)]).
    cbn [obj os fs faults log s4]. rewrite set_inode_twice.
    set (nd3 := with_mode nd2 _).
    assert (Hk3 : S_IFMT (i_mode nd3) = S_IFMT (i_mode nd2)).
    { unfold nd3. cbn. by rewrite S_IFMT_chmod. }
    unfold stat_of. destruct (has_st_flags hst); cbn [st_flags];
      [destruct (lookup hst false fn_chflags)|].
    + erewrite try_except_ok
        by (unfold os_chflags; apply update_run; [apply Hf|apply (HD4 nd3)]).
      cbn [obj os fs faults log]. rewrite set_inode_twice.
      eexists _, _. split; [reflexivity|]. by repeat split.
    + eexists _, _. split; [reflexivity|]. by repeat split.
    + eexists _, _. split; [reflexivity|]. by repeat split.
  - erewrite bind_ok by reflexivity.
    unfold stat_of. destruct (has_st_flags hst); cbn [st_flags];
      [destruct (lookup hst false fn_chflags)|].
    + erewrite try_except_ok
        by (unfold os_chflags; apply update_run; [apply Hf|apply (HD4 nd2)]).
      cbn [obj os fs faults log s4]. rewrite set_inode_twice.
      eexists _, _. split; [reflexivity|]. by repeat split.
    + eexists _, _. split; [reflexivity|]. by repeat split.
    + eexists _, _. split; [reflexivity|]. by repeat split.
Qed.
End LinkMetadata.

Lemma copyfile_symlink_metadata_witness :
  exists s' ndB',
    copyfile Ex.linux 4 "/new" true false (Ex.start "/l") = (Ok "/new"%string, s') /\
    get_inode (fs (os s')) false "/new" = inr (new_ino Ex.files, ndB') /\
    S_ISLNK (i_mode ndB') = true /\ i_target ndB' = "/a"%string /\
    i_atime_ns ndB' = 0 /\ i_mtime_ns ndB' = 0 /\
    (lookup Ex.linux false fn_chmod = false -> i_mode ndB' = Z.lor S_IFLNK 0x1FF) /\
    (forall i nd, inodes Ex.files !! i = Some nd ->
                  inodes (fs (os s')) !! i = Some nd).
Proof.
  apply (copyfile_symlink_metadata Ex.linux 4 "/new" (Ex.start "/l") 5%nat
           (Ex.symlink "/a")).
  - intros c. reflexivity.
  - vm_compute. reflexivity.
  - reflexivity.
  - vm_compute. reflexivity.
  - vm_compute. reflexivity.
  - reflexivity.
  - reflexivity.
Defined.
